(** * ida-headless-mcp: tool dispatcher and worker supervisor

    A shallow embedding of
      - internal/server  (error model, tool handlers, handleToolError)
      - internal/worker  (Manager: Start, Stop, monitorWorker,
                          waitForSocket, CleanupOrphanProcesses)
    followed by the properties established about them.

    Conventions.  Go strings are byte strings ([string] of [ascii]).  Go
    [int]/[uint64] values are [Z].  Go maps keyed by session id are
    [gmap string _].  A Go [error] is [option string] ([None] is nil).
    Effects on the outside world (log lines, RPCs, signals, the process
    table, socket files, the clock) are threaded explicitly through a state
    record that also keeps a trace of the effects in program order. *)

From Stdlib Require Import ZArith Ascii String List Bool Lia.
From stdpp Require Import base option gmap strings list pretty.
From Equations Require Import Equations.

Local Open Scope string_scope.
Local Open Scope Z_scope.

#[local] Set Warnings "-register-all".

(** ** Go standard library functions used by the sources *)

Module GoLib.

(** [strings.HasPrefix]. *)
Definition HasPrefix (s pre : string) : bool := String.prefix pre s.

(** [strings.Contains s substr]: some suffix of [s] starts with [substr]. *)
Fixpoint Contains (s substr : string) : bool :=
  if HasPrefix s substr then true
  else match s with
       | EmptyString => false
       | String _ s' => Contains s' substr
       end.

Definition byte (c : ascii) : N := N_of_ascii c.

(** ASCII members of Unicode White_Space: TAB, LF, VT, FF, CR, SPACE. *)
Definition isAsciiSpace (c : ascii) : bool :=
  ((9 <=? byte c) && (byte c <=? 13))%N || (byte c =? 32)%N.

(** U+0085 and U+00A0, encoded C2 85 and C2 A0. *)
Definition isSpace2 (b0 b1 : N) : bool :=
  ((b0 =? 194) && ((b1 =? 133) || (b1 =? 160)))%N.

(** U+1680, U+2000..U+200A, U+2028, U+2029, U+202F, U+205F, U+3000 in
    their three-byte UTF-8 encodings. *)
Definition isSpace3 (b0 b1 b2 : N) : bool :=
  ((b0 =? 225) && (b1 =? 154) && (b2 =? 128)
   || (b0 =? 226) && (b1 =? 128)
        && ((128 <=? b2) && (b2 <=? 138) || (b2 =? 168) || (b2 =? 169) || (b2 =? 175))
   || (b0 =? 226) && (b1 =? 129) && (b2 =? 159)
   || (b0 =? 227) && (b1 =? 128) && (b2 =? 128))%N.

(** Leading white space removed, one code point at a time. *)
Fixpoint TrimLeftSpace (s : string) : string :=
  match s with
  | EmptyString => EmptyString
  | String c0 r0 =>
      if isAsciiSpace c0 then TrimLeftSpace r0
      else match r0 with
           | EmptyString => s
           | String c1 r1 =>
               if isSpace2 (byte c0) (byte c1) then TrimLeftSpace r1
               else match r1 with
                    | EmptyString => s
                    | String c2 r2 =>
                        if isSpace3 (byte c0) (byte c1) (byte c2)
                        then TrimLeftSpace r2 else s
                    end
           end
  end.

Fixpoint rev_onto (s acc : string) : string :=
  match s with
  | EmptyString => acc
  | String c r => rev_onto r (String c acc)
  end.

Definition reverse (s : string) : string := rev_onto s EmptyString.

(** The same scan on the reversed string: the bytes of a code point arrive
    last byte first. *)
Fixpoint TrimLeftSpaceRev (s : string) : string :=
  match s with
  | EmptyString => EmptyString
  | String c0 r0 =>
      if isAsciiSpace c0 then TrimLeftSpaceRev r0
      else match r0 with
           | EmptyString => s
           | String c1 r1 =>
               if isSpace2 (byte c1) (byte c0) then TrimLeftSpaceRev r1
               else match r1 with
                    | EmptyString => s
                    | String c2 r2 =>
                        if isSpace3 (byte c2) (byte c1) (byte c0)
                        then TrimLeftSpaceRev r2 else s
                    end
           end
  end.

(** [strings.TrimSpace]. *)
Definition TrimSpace (s : string) : string :=
  reverse (TrimLeftSpaceRev (reverse (TrimLeftSpace s))).

Definition isDigit (c : ascii) : bool := ((48 <=? byte c) && (byte c <=? 57))%N.

Fixpoint parseDigits (s : string) (acc : Z) : option Z :=
  match s with
  | EmptyString => Some acc
  | String c r =>
      if isDigit c then parseDigits r (10 * acc + (Z.of_N (byte c) - 48))
      else None
  end.

(** [strconv.Atoi] on a 64-bit platform: an optional sign, at least one
    decimal digit, nothing else, and a value that fits [int]. *)
Definition Atoi (s : string) : option Z :=
  let signed (neg : bool) (digits : string) :=
    match digits with
    | EmptyString => None
    | _ => match parseDigits digits 0 with
           | Some n =>
               let v := if neg then - n else n in
               if (- 2 ^ 63 <=? v) && (v <=? 2 ^ 63 - 1) then Some v else None
           | None => None
           end
    end in
  match s with
  | EmptyString => None
  | String c r =>
      if (byte c =? 43)%N then signed false r
      else if (byte c =? 45)%N then signed true r
      else signed false s
  end.

End GoLib.

(** ** Values handed to [encoding/json] *)

Inductive json : Type :=
  | JNull
  | JBool (b : bool)
  | JNum (n : Z)
  | JStr (s : string)
  | JArr (items : list json)
  | JObj (fields : list (string * json)).

(** ** internal/server: the error model (errors.go) *)

Module Errors.

(** [type ErrorKind string] and its constants. *)
Definition ErrorKind := string.
Definition ErrSessionNotFound : ErrorKind := "session_not_found".
Definition ErrWorkerUnavailable : ErrorKind := "worker_unavailable".
Definition ErrIDAOperation : ErrorKind := "ida_operation_failed".
Definition ErrInvalidInput : ErrorKind := "invalid_input".
Definition ErrDecompilerUnavailable : ErrorKind := "decompiler_unavailable".
Definition ErrInternal : ErrorKind := "internal".

(** [type ErrorStatus string]. *)
Definition ErrorStatus := string.
Definition StatusPermanent : ErrorStatus := "permanent".
Definition StatusTemporary : ErrorStatus := "temporary".

(** [ToolError].  [Context] is a [map[string]any] whose values are strings
    in every factory; it is kept as the association list of the map literal,
    [[]] standing for the nil map. *)
Record ToolError : Type := mkToolError {
  Kind : ErrorKind;
  Status : ErrorStatus;
  Message : string;
  Operation : string;
  Context : list (string * string)
}.

(** The [Error] method of [ToolError]: kind in brackets, operation, colon,
    message. *)
Definition Error_string (e : ToolError) : string :=
  "[" +:+ Kind e +:+ "] " +:+ Operation e +:+ ": " +:+ Message e.

Definition sessionNotFound (operation sessionID : string) : ToolError :=
  {| Kind := ErrSessionNotFound;
     Status := StatusPermanent;
     Message := "session " +:+ sessionID +:+ " not found";
     Operation := operation;
     Context := [("session_id", sessionID)] |}.

Definition workerUnavailable (operation sessionID err : string) : ToolError :=
  {| Kind := ErrWorkerUnavailable;
     Status := StatusTemporary;
     Message := "worker process not available";
     Operation := operation;
     Context := [("session_id", sessionID); ("detail", err)] |}.

Definition idaOperationFailed (operation sessionID err : string) : ToolError :=
  {| Kind := ErrIDAOperation;
     Status := StatusPermanent;
     Message := err;
     Operation := operation;
     Context := [("session_id", sessionID)] |}.

Definition invalidInput (operation message : string) : ToolError :=
  {| Kind := ErrInvalidInput;
     Status := StatusPermanent;
     Message := message;
     Operation := operation;
     Context := [] |}.

Definition internalError (operation err : string) : ToolError :=
  {| Kind := ErrInternal;
     Status := StatusPermanent;
     Message := err;
     Operation := operation;
     Context := [] |}.

(** The value [encoding/json] sees for a [ToolError], following the struct
    tags: four string fields in declaration order, and [context] left out
    when the map is empty ([omitempty]). *)
Definition ToolError_json (e : ToolError) : json :=
  JObj ([("kind", JStr (Kind e));
         ("status", JStr (Status e));
         ("message", JStr (Message e));
         ("operation", JStr (Operation e))]
        ++ match Context e with
           | [] => []
           | ctx => [("context", JObj (map (fun kv => (fst kv, JStr (snd kv))) ctx))]
           end).

End Errors.

(** ** The session record

    Package [session] lies outside the sources covered here; the record has
    the fields that the handlers and the worker manager read and write. *)

Record Session : Type := mkSession {
  ID : string;
  SocketPath : string;
  WorkerPID : Z;
  LastTouched : Z
}.

Definition set_WorkerPID (pid : Z) (sess : Session) : Session :=
  {| ID := ID sess; SocketPath := SocketPath sess;
     WorkerPID := pid; LastTouched := LastTouched sess |}.

Definition set_LastTouched (t : Z) (sess : Session) : Session :=
  {| ID := ID sess; SocketPath := SocketPath sess;
     WorkerPID := WorkerPID sess; LastTouched := t |}.

(** ** internal/server: the tool handlers *)

Module Server.
Import Errors.

(** [mcp.TextContent] and [mcp.CallToolResult]. *)
Inductive McpContent : Type := TextContent (Text : string).

Record CallToolResult : Type := mkResult {
  IsError : bool;
  Content : list McpContent
}.

(** What a handler call does: it returns the triple
    of a result pointer, an [any] and an [error], or the goroutine panics. *)
Inductive Outcome : Type :=
  | Return (res : CallToolResult) (out : option json) (err : option string)
  | Panic (reason : string).

(** The argument structs of the tools are declared outside the sources
    covered here; one record carries the union of the fields the handlers
    read.  A handler reads only its own fields.  The Go fields [Type],
    [Start], [End] and [Module] are [TypeDecl], [StartEA], [EndEA] and
    [ModuleFilter] here.  [Offset] and [Limit] are optional so that an
    absent value and zero stay distinct. *)
Record ToolArgs : Type := mkArgs {
  SessionID : string;
  Address : Z;
  FunctionAddress : Z;
  Size : Z;
  MaxLength : Z;
  Name : string;
  NewName : string;
  LvarName : string;
  LvarType : string;
  TypeDecl : string;
  Prototype : string;
  Comment : string;
  Repeatable : bool;
  Pattern : string;
  Needle : string;
  StartEA : Z;
  EndEA : Z;
  SearchUp : bool;
  CaseSensitive : bool;
  Unicode : bool;
  Regex : string;
  CaseSens : bool;
  ModuleFilter : string;
  Offset : option Z;
  Limit : option Z
}.

(** A worker reply as the handlers look at it: the in-band error string,
    the success flag, the text field returned verbatim by the text tools
    (Disasm, Code, Comment), and [Body] for the JSON object a handler
    assembles getter by getter from the remaining fields. *)
Record Msg : Type := mkMsg {
  GetError : string;
  GetSuccess : bool;
  GetText : string;
  Body : json
}.

(** Result of one connect RPC: [(nil, err)] or [(resp, nil)]. *)
Inductive Reply : Type :=
  | TransportError (err : string)
  | Response (msg : Msg).

(** The four cached enumerations. *)
Inductive EnumKind : Type := Functions | Imports | Exports | Strings.

(** One element of an enumeration: the string the regex is matched against
    ([Name], or [Value] for strings), the import module, and the JSON item
    produced for it by [mapFunctionItems] and its siblings. *)
Record Entry : Type := mkEntry {
  EntryName : string;
  EntryModule : string;
  EntryItem : json
}.

(** The worker as the gateway sees it through [WorkerClient.Analysis]:
    a reply for each RPC method and request, and a reply to each paged
    full fetch. *)
Record WorkerClient : Type := mkClient {
  Analysis : string -> ToolArgs -> Reply;
  FetchAll : EnumKind -> string + list Entry
}.

(** Per-session cache: one optional filled payload per kind. *)
Record SessionCache : Type := mkCache {
  cachedFunctions : option (list Entry);
  cachedImports : option (list Entry);
  cachedExports : option (list Entry);
  cachedStrings : option (list Entry)
}.

Definition emptyCache : SessionCache := mkCache None None None None.

Definition cached (k : EnumKind) (c : SessionCache) : option (list Entry) :=
  match k with
  | Functions => cachedFunctions c
  | Imports => cachedImports c
  | Exports => cachedExports c
  | Strings => cachedStrings c
  end.

Definition fill (k : EnumKind) (l : list Entry) (c : SessionCache) : SessionCache :=
  match k with
  | Functions => mkCache (Some l) (cachedImports c) (cachedExports c) (cachedStrings c)
  | Imports => mkCache (cachedFunctions c) (Some l) (cachedExports c) (cachedStrings c)
  | Exports => mkCache (cachedFunctions c) (cachedImports c) (Some l) (cachedStrings c)
  | Strings => mkCache (cachedFunctions c) (cachedImports c) (cachedExports c) (Some l)
  end.

(** Effects of a handler, in program order. *)
Inductive Event : Type :=
  | EvToolLog (tool sessionID : string)
  | EvErrorLog (line : string)
  | EvRegistryGet (sessionID : string)
  | EvTouch (sessionID : string)
  | EvGetClient (sessionID : string)
  | EvRPC (sessionID method : string) (req : ToolArgs)
  | EvFetchAll (sessionID : string) (k : EnumKind)
  | EvProgress (sessionID op message : string)
  | EvCacheDelete (sessionID : string).

(** The [Server] fields the handlers touch. *)
Record Server : Type := mkServer {
  registry : gmap string Session;
  workers : gmap string WorkerClient;
  caches : gmap string SessionCache;
  clock : Z;
  trace : list Event
}.

Definition emit (e : Event) (s : Server) : Server :=
  mkServer (registry s) (workers s) (caches s) (clock s) (trace s ++ [e]).

Definition set_registry (r : gmap string Session) (s : Server) : Server :=
  mkServer r (workers s) (caches s) (clock s) (trace s).

Definition set_caches (c : gmap string SessionCache) (s : Server) : Server :=
  mkServer (registry s) (workers s) c (clock s) (trace s).

(** Modelled from the spec: [Session.Touch] (package session), which sets
    [last_touched] to the current instant.  The session object is shared
    with the registry, so the registry's record changes. *)
Definition Touch (key : string) (sess : Session) (s : Server) : Server :=
  emit (EvTouch (ID sess))
    (set_registry (<[key := set_LastTouched (clock s) sess]> (registry s)) s).

(** Modelled from the spec: [Server.deleteSessionCache], the invalidation
    of section 4.3, which deletes the session's entries wholesale, all
    four kinds at once. *)
Definition deleteSessionCache (sessionID : string) (s : Server) : Server :=
  emit (EvCacheDelete sessionID) (set_caches (delete sessionID (caches s)) s).

(** Modelled from the spec: [Server.getSessionCache], the per-session
    cache, created empty on first use. *)
Definition getSessionCache (sessionID : string) (s : Server) : SessionCache * Server :=
  match caches s !! sessionID with
  | Some c => (c, s)
  | None => (emptyCache, set_caches (<[sessionID := emptyCache]> (caches s)) s)
  end.

(** What is cached for a session and kind. *)
Definition cache_lookup (sessionID : string) (k : EnumKind) (s : Server)
  : option (list Entry) :=
  match caches s !! sessionID with
  | Some c => cached k c
  | None => None
  end.

(** Modelled from the spec: [loadFunctions] and its three siblings, the
    contract [load(kind, session_id, fetch_fn)] of section 4.3 for one
    caller at a time: a filled entry is returned with [hit = true] and no
    fetch; otherwise the worker is asked once ([fetchAllFunctions] and
    siblings, which report transport and in-band failures alike as an
    error), a payload fills the entry, and a failure leaves no entry. *)
Definition load (k : EnumKind) (sessionID : string) (client : WorkerClient)
    (s : Server) : (string + (list Entry * bool)) * Server :=
  let '(c, s) := getSessionCache sessionID s in
  match cached k c with
  | Some l => (inr (l, true), s)
  | None =>
      let s := emit (EvFetchAll sessionID k) s in
      match FetchAll client k with
      | inl err => (inl err, s)
      | inr l => (inr (l, false), set_caches (<[sessionID := fill k l c]> (caches s)) s)
      end
  end.

Definition defaultLimit : Z := 200.
Definition maxLimit : Z := 2000.

(** Modelled from the spec: [normalizePagination], sections 4.4 and 8:
    defaults [offset = 0] and [limit = 200], [limit = 0] rejected, a limit
    above the cap [2000] clamped to it.  Clamping to the total is done by
    the callers.  The spec says nothing about negative values; they are
    passed on as they are. *)
Definition normalizePagination (offset limit : option Z) : string + (Z * Z) :=
  let off := match offset with Some o => o | None => 0 end in
  match limit with
  | None => inr (off, defaultLimit)
  | Some l =>
      if l =? 0 then inl "limit must be greater than zero"
      else if maxLimit <? l then inr (off, maxLimit)
      else inr (off, l)
  end.

(** The Go slice expression [l[lo:hi]] for [hi <= len l]: it panics unless
    [0 <= lo <= hi]. *)
Definition slice {A} (l : list A) (lo hi : Z) : option (list A) :=
  if (0 <=? lo) && (lo <=? hi) && (hi <=? Z.of_nat (length l))
  then Some (take (Z.to_nat (hi - lo)) (drop (Z.to_nat lo) l))
  else None.

(** [Server.logToolInvocation]: one log line per call. *)
Definition logToolInvocation (tool sessionID : string) (s : Server) : Server :=
  emit (EvToolLog tool sessionID) s.

(** An obligatory-input check: the message of the [invalid_input] error
    when it fails. *)
Definition InputCheck := ToolArgs -> option string.

(** [if strings.TrimSpace(args.F) == "" { ... invalidInput(op, msg) }]. *)
Definition required (field : ToolArgs -> string) (msg : string) : InputCheck :=
  fun args => if String.eqb (GoLib.TrimSpace (field args)) "" then Some msg else None.

(** [if args.F == 0 { ... invalidInput(op, msg) }]. *)
Definition nonzero (field : ToolArgs -> Z) (msg : string) : InputCheck :=
  fun args => if field args =? 0 then Some msg else None.

(** The checks are tried in source order; the first failure returns. *)
Fixpoint first_failure (cs : list InputCheck) (args : ToolArgs) : option string :=
  match cs with
  | [] => None
  | c :: cs' => match c args with
                | Some msg => Some msg
                | None => first_failure cs' args
                end
  end.

(** How the success branch builds the text of the result. *)
Inductive Render : Type :=
  | RawText       (* the reply's text field, verbatim *)
  | SuccessFlag   (* marshalJSON of the map with the one key success *)
  | Assembled.    (* marshalJSON of the object assembled from the reply *)

(** The parts in which the forwarding handlers differ. *)
Record Handler : Type := mkHandler {
  op : string;
  logs : bool;
  checks : list InputCheck;
  method : string;
  prepare : ToolArgs -> ToolArgs;
  invalidates : bool;
  render : Render
}.

Section Handlers.

(** [json.MarshalIndent value prefix indent] of the Go standard library. *)
Variable MarshalIndent : json -> string -> string -> string.

(** [compileRegex pattern caseSensitive] (declared outside the sources
    covered here): an error message, or the compiled expression as its
    [MatchString]. *)
Variable compileRegex : string -> bool -> string + (string -> bool).

(** [matchModule module filter caseSensitive] (declared outside the
    sources covered here). *)
Variable matchModule : string -> string -> bool -> bool.

(** [Server.marshalJSON] (search.go). *)
Definition marshalJSON (v : json) : string := MarshalIndent v "" "  ".

(** [Server.handleToolError] (search.go): log the error, serialise it, and
    return it in-band. *)
Definition handleToolError (terr : ToolError) (s : Server) : Outcome * Server :=
  let s := emit (EvErrorLog ("[Error] " +:+ Error_string terr)) s in
  let body := marshalJSON (ToolError_json terr) in
  (Return {| IsError := true; Content := [TextContent body] |} None None, s).

(** The success result: [IsError] keeps its zero value. *)
Definition textResult (text : string) : Outcome :=
  Return {| IsError := false; Content := [TextContent text] |} None None.

Definition render_text (r : Render) (msg : Msg) : string :=
  match r with
  | RawText => GetText msg
  | SuccessFlag => marshalJSON (JObj [("success", JBool (GetSuccess msg))])
  | Assembled => marshalJSON (Body msg)
  end.

(** [Manager.GetClient] as seen through the [Controller] interface: the
    handle, or the error for an unknown session. *)
Definition GetClient (sessionID : string) (s : Server) : string + WorkerClient :=
  match workers s !! sessionID with
  | Some client => inr client
  | None => inl ("no worker for session " +:+ sessionID)
  end.

(** The body shared by every forwarding handler of write.go, search.go and
    errors.go: optional invocation log, obligatory-input checks, registry
    lookup, touch, worker lookup, the RPC, the two failure translations,
    the optional cache invalidation, and the success result. *)
Definition forward (h : Handler) (args : ToolArgs) (s : Server) : Outcome * Server :=
  let s := if logs h then logToolInvocation (op h) (SessionID args) s else s in
  match first_failure (checks h) args with
  | Some msg => handleToolError (invalidInput (op h) msg) s
  | None =>
      let s := emit (EvRegistryGet (SessionID args)) s in
      match registry s !! SessionID args with
      | None => handleToolError (sessionNotFound (op h) (SessionID args)) s
      | Some sess =>
          let s := Touch (SessionID args) sess s in
          let s := emit (EvGetClient (ID sess)) s in
          match GetClient (ID sess) s with
          | inl err => handleToolError (workerUnavailable (op h) (ID sess) err) s
          | inr client =>
              let req := prepare h args in
              let s := emit (EvRPC (ID sess) (method h) req) s in
              match Analysis client (method h) req with
              | TransportError err =>
                  handleToolError (idaOperationFailed (op h) (ID sess) err) s
              | Response msg =>
                  if negb (String.eqb (GetError msg) "")
                  then handleToolError (idaOperationFailed (op h) (ID sess) (GetError msg)) s
                  else
                    let s := if invalidates h && GetSuccess msg
                             then deleteSessionCache (ID sess) s else s in
                    (textResult (render_text (render h) msg), s)
              end
          end
      end
  end.

(** [maxLen := args.MaxLength; if maxLen <= 0 { maxLen = 256 }], sent as
    [uint32(maxLen)] (dataReadString). *)
Definition readStringRequest (args : ToolArgs) : ToolArgs :=
  let maxLen := if MaxLength args <=? 0 then 256 else MaxLength args in
  mkArgs (SessionID args) (Address args) (FunctionAddress args) (Size args)
    (maxLen mod 2 ^ 32)
    (Name args) (NewName args) (LvarName args) (LvarType args) (TypeDecl args)
    (Prototype args) (Comment args) (Repeatable args) (Pattern args) (Needle args)
    (StartEA args) (EndEA args) (SearchUp args) (CaseSensitive args) (Unicode args)
    (Regex args) (CaseSens args) (ModuleFilter args) (Offset args) (Limit args).

(** A handler with no obligatory-input check and no post-action. *)
Definition plain (op : string) (logs : bool) (method : string) (r : Render) : Handler :=
  mkHandler op logs [] method (fun a => a) false r.

(** A logged handler with obligatory-input checks and no post-action. *)
Definition checked (op : string) (cs : list InputCheck) (method : string) (r : Render) : Handler :=
  mkHandler op true cs method (fun a => a) false r.

(** The tools whose handlers are in the three files. *)
Inductive Tool : Type :=
  | get_bytes | get_disasm | get_function_disasm | get_decompiled
  | get_functions | get_imports | get_exports | get_strings
  | get_xrefs_to | get_xrefs_from | get_data_refs | get_string_xrefs
  | get_comment | get_func_comment | get_name | get_function_info
  | get_segments | get_function_name | get_entry_point | get_dword_at
  | get_qword_at | get_instruction_length
  | set_comment | set_func_comment | set_decompiler_comment | set_name
  | delete_name | set_lvar_type | rename_lvar | set_global_type
  | rename_global | set_function_type | make_function
  | data_read_string | data_read_byte | find_binary | find_text
  | get_globals | list_structs | get_struct | list_enums | get_enum
  | get_type_at.

(** One row per handler function, in the order of the source files: what
    the function fills into the shared body, or which enumeration it
    serves.  [make_function] is the one row with a post-action,
    [if resp.Msg.GetSuccess() { s.deleteSessionCache(sess.ID) }]; the four
    handlers at the head of errors.go do not call [logToolInvocation]. *)
Definition handler_of (t : Tool) : Handler + EnumKind :=
  match t with
  (* errors.go, second file *)
  | get_bytes => inl (plain "get_bytes" false "GetBytes" Assembled)
  | get_disasm => inl (plain "get_disasm" false "GetDisasm" RawText)
  | get_function_disasm =>
      inl (plain "get_function_disasm" false "GetFunctionDisasm" Assembled)
  | get_decompiled => inl (plain "get_decompiled" false "GetDecompiled" RawText)
  | get_functions => inr Functions
  | get_imports => inr Imports
  | get_exports => inr Exports
  | get_strings => inr Strings
  | get_xrefs_to => inl (plain "get_xrefs_to" true "GetXRefsTo" Assembled)
  | get_xrefs_from => inl (plain "get_xrefs_from" true "GetXRefsFrom" Assembled)
  | get_data_refs => inl (plain "get_data_refs" true "GetDataRefs" Assembled)
  | get_string_xrefs => inl (plain "get_string_xrefs" true "GetStringXRefs" Assembled)
  | get_comment => inl (plain "get_comment" true "GetComment" RawText)
  | get_func_comment => inl (plain "get_func_comment" true "GetFuncComment" RawText)
  | get_name => inl (plain "get_name" true "GetName" Assembled)
  | get_function_info => inl (plain "get_function_info" true "GetFunctionInfo" Assembled)
  | get_segments => inl (plain "get_segments" true "GetSegments" Assembled)
  | get_function_name => inl (plain "get_function_name" true "GetFunctionName" Assembled)
  | get_entry_point => inl (plain "get_entry_point" true "GetEntryPoint" Assembled)
  | get_dword_at => inl (plain "get_dword_at" true "GetDwordAt" Assembled)
  | get_qword_at => inl (plain "get_qword_at" true "GetQwordAt" Assembled)
  | get_instruction_length =>
      inl (plain "get_instruction_length" true "GetInstructionLength" Assembled)
  (* write.go *)
  | set_comment => inl (plain "set_comment" true "SetComment" SuccessFlag)
  | set_func_comment => inl (plain "set_func_comment" true "SetFuncComment" SuccessFlag)
  | set_decompiler_comment =>
      inl (checked "set_decompiler_comment"
             [required Comment "comment is required"]
             "SetDecompilerComment" SuccessFlag)
  | set_name => inl (plain "set_name" true "SetName" SuccessFlag)
  | delete_name => inl (plain "delete_name" true "DeleteName" SuccessFlag)
  | set_lvar_type =>
      inl (checked "set_lvar_type"
             [required LvarType "lvar_type is required";
              nonzero FunctionAddress "function_address is required"]
             "SetLvarType" SuccessFlag)
  | rename_lvar =>
      inl (checked "rename_lvar"
             [required NewName "new_name is required";
              nonzero FunctionAddress "function_address is required"]
             "RenameLvar" SuccessFlag)
  | set_global_type =>
      inl (checked "set_global_type"
             [required TypeDecl "type is required"]
             "SetGlobalType" SuccessFlag)
  | rename_global =>
      inl (checked "rename_global"
             [required NewName "new_name is required"]
             "RenameGlobal" SuccessFlag)
  | set_function_type =>
      inl (checked "set_function_type"
             [required Prototype "prototype is required"]
             "SetFunctionType" SuccessFlag)
  | make_function =>
      inl (mkHandler "make_function" true [] "MakeFunction" (fun a => a) true SuccessFlag)
  (* search.go, three files *)
  | data_read_string =>
      inl (mkHandler "data_read_string" true [] "DataReadString" readStringRequest
             false Assembled)
  | data_read_byte => inl (plain "data_read_byte" true "DataReadByte" Assembled)
  | find_binary =>
      inl (checked "find_binary" [required Pattern "pattern is required"]
             "FindBinary" Assembled)
  | find_text =>
      inl (checked "find_text" [required Needle "needle is required"]
             "FindText" Assembled)
  | get_globals => inl (plain "get_globals" true "GetGlobals" Assembled)
  | list_structs =>
      inl (checked "list_structs" [required SessionID "session_id is required"]
             "ListStructs" Assembled)
  | get_struct =>
      inl (checked "get_struct" [required Name "name is required"]
             "GetStruct" Assembled)
  | list_enums => inl (plain "list_enums" true "ListEnums" Assembled)
  | get_enum =>
      inl (checked "get_enum" [required Name "name is required"]
             "GetEnum" Assembled)
  | get_type_at => inl (plain "get_type_at" true "GetTypeAt" Assembled)
  end.

(** *** errors.go, second file: the four enumerations *)

Definition enum_op (k : EnumKind) : string :=
  match k with
  | Functions => "get_functions"
  | Imports => "get_imports"
  | Exports => "get_exports"
  | Strings => "get_strings"
  end.

Definition enum_key (k : EnumKind) : string :=
  match k with
  | Functions => "functions"
  | Imports => "imports"
  | Exports => "exports"
  | Strings => "strings"
  end.

Definition cache_message (k : EnumKind) : string :=
  match k with
  | Functions => "Functions served from cache"
  | Imports => "Imports served from cache"
  | Exports => "Exports served from cache"
  | Strings => "Strings served from cache"
  end.

(** The map literal handed to [marshalJSON]; only [getImports] reports
    the module filter. *)
Definition page_object (k : EnumKind) (args : ToolArgs) (items : list json)
    (total offset limit : Z) : json :=
  JObj ([(enum_key k, JArr items);
         ("total", JNum total);
         ("offset", JNum offset);
         ("count", JNum (Z.of_nat (length items)));
         ("limit", JNum limit)]
        ++ match k with
           | Imports => [("module", JStr (ModuleFilter args))]
           | _ => []
           end
        ++ [("regex", JStr (Regex args))]).

(** The module filter of [getImports] followed by the regex filter common
    to the four handlers; an uncompilable regex is the only failure. *)
Definition apply_filters (k : EnumKind) (args : ToolArgs) (data : list Entry)
  : string + list Entry :=
  let filtered :=
    match k with
    | Imports =>
        if String.eqb (ModuleFilter args) "" then data
        else List.filter
               (fun imp => matchModule (EntryModule imp) (ModuleFilter args) (CaseSens args))
               data
    | _ => data
    end in
  if String.eqb (Regex args) "" then inr filtered
  else match compileRegex (Regex args) (CaseSens args) with
       | inl err => inl err
       | inr matches => inr (List.filter (fun e => matches (EntryName e)) filtered)
       end.

(** [mapFunctionItems] and siblings (declared outside the sources covered
    here) convert a page element by element; the converted item is the
    one carried by the entry. *)
Definition mapItems (l : list Entry) : list json := map EntryItem l.

(** The body shared by [getFunctions], [getImports], [getExports] and
    [getStrings]. *)
Definition enumerate (k : EnumKind) (args : ToolArgs) (s : Server) : Outcome * Server :=
  let op := enum_op k in
  let s := logToolInvocation op (SessionID args) s in
  let s := emit (EvRegistryGet (SessionID args)) s in
  match registry s !! SessionID args with
  | None => handleToolError (sessionNotFound op (SessionID args)) s
  | Some sess =>
      let s := Touch (SessionID args) sess s in
      let s := emit (EvGetClient (ID sess)) s in
      match GetClient (ID sess) s with
      | inl err => handleToolError (workerUnavailable op (ID sess) err) s
      | inr client =>
          match load k (ID sess) client s with
          | (inl err, s) => handleToolError (idaOperationFailed op (ID sess) err) s
          | (inr (data, hit), s) =>
              let s := if hit : bool
                       then emit (EvProgress (ID sess) op (cache_message k)) s else s in
              match apply_filters k args data with
              | inl err => handleToolError (invalidInput op err) s
              | inr filtered =>
                  let total := Z.of_nat (length filtered) in
                  match normalizePagination (Offset args) (Limit args) with
                  | inl err => handleToolError (invalidInput op err) s
                  | inr (offset, limit) =>
                      let offset := if total <? offset then total else offset in
                      let end_ := offset + limit in
                      let end_ := if total <? end_ then total else end_ in
                      match slice filtered offset end_ with
                      | None => (Panic "slice bounds out of range", s)
                      | Some page =>
                          (textResult
                             (marshalJSON
                                (page_object k args (mapItems page) total offset limit)),
                           s)
                      end
                  end
              end
          end
      end
  end.

(** The value of [const op] in the handler of a tool. *)
Definition tool_op (t : Tool) : string :=
  match handler_of t with
  | inl h => op h
  | inr k => enum_op k
  end.

(** The handler of a tool: the shared body instantiated with its row. *)
Definition dispatch (t : Tool) (args : ToolArgs) (s : Server) : Outcome * Server :=
  match handler_of t with
  | inl h => forward h args s
  | inr k => enumerate k args s
  end.

(** The handlers the properties below name. *)
Definition getDisasm := dispatch get_disasm.
Definition getImports := dispatch get_imports.
Definition getExports := dispatch get_exports.
Definition getStrings := dispatch get_strings.
Definition setName := dispatch set_name.
Definition deleteName := dispatch delete_name.
Definition setLvarType := dispatch set_lvar_type.
Definition renameLvar := dispatch rename_lvar.
Definition setGlobalType := dispatch set_global_type.
Definition renameGlobal := dispatch rename_global.
Definition setFunctionType := dispatch set_function_type.
Definition makeFunction := dispatch make_function.

End Handlers.



(** The full list of kind [k] the handler works on is [data]: it is cached,
    or it is not and the worker returns it. *)
Definition available (k : EnumKind) (sessionID : string) (client : WorkerClient)
    (s : Server) (data : list Entry) : Prop :=
  cache_lookup sessionID k s = Some data
  \/ (cache_lookup sessionID k s = None /\ FetchAll client k = inr data).


(** The handlers that begin with an obligatory-input check. *)
Definition validating_tools : list Tool :=
  [set_decompiler_comment; set_lvar_type; rename_lvar; set_global_type;
   rename_global; set_function_type; find_binary; find_text; list_structs;
   get_struct; get_enum].

(** The mutation handlers other than [make_function] that can change what
    an enumeration lists. *)
Definition other_mutations : list Tool :=
  [set_name; delete_name; rename_lvar; rename_global; set_function_type;
   set_global_type; set_lvar_type].

(** The arguments pass the obligatory-input checks of tool [t]; the
    enumerations have none of this kind. *)
Definition passes_checks (t : Tool) (args : ToolArgs) : Prop :=
  match handler_of t with
  | inl h => first_failure (checks h) args = None
  | inr _ => True
  end.

(** Whether the handler of [t] begins with [logToolInvocation]. *)
Definition tool_logs (t : Tool) : bool :=
  match handler_of t with
  | inl h => logs h
  | inr _ => true
  end.

(** The invocation log line of [t], if its handler writes one. *)
Definition invocation_log (t : Tool) (args : ToolArgs) : list Event :=
  if tool_logs t then [EvToolLog (tool_op t) (SessionID args)] else [].

(** The four shapes of error a handler builds, each with its status. *)
Definition handler_error_shape (terr : Errors.ToolError) : Prop :=
  (Errors.Kind terr = Errors.ErrInvalidInput
   /\ Errors.Status terr = Errors.StatusPermanent /\ Errors.Context terr = [])
  \/ (Errors.Kind terr = Errors.ErrSessionNotFound
      /\ Errors.Status terr = Errors.StatusPermanent)
  \/ (Errors.Kind terr = Errors.ErrWorkerUnavailable
      /\ Errors.Status terr = Errors.StatusTemporary)
  \/ (Errors.Kind terr = Errors.ErrIDAOperation
      /\ Errors.Status terr = Errors.StatusPermanent).

End Server.

(** ** internal/worker: the worker manager (manager.go) *)

Module Worker.

(** Address of a [session.Session] object; the manager, the registry and
    every worker handle share the object behind it. *)
Definition loc := nat.

(** A child process: running, terminated but not yet waited for, or
    waited for (reaped). *)
Inductive ProcState : Type := Running | Exited | Reaped.

Record Process : Type := mkProcess {
  argv : list string;
  discardOutput : bool;
  pstate : ProcState;
  cancelled : bool;
  exitError : option string
}.

(** [WorkerClient].  The three connect stubs are represented by the socket
    path they dial, [cmd.Process] by its pid, and [cancel]/[ctx] by the pid
    of the command the context was made for. *)
Record WorkerClient : Type := mkWorker {
  SessionCtrl : option string;
  Analysis : option string;
  Health : option string;
  cmdProcess : option Z;
  ctx : Z;
  session : loc;
  binaryPath : string
}.

(** Effects of the manager on the outside world, in program order. *)
Inductive Event : Type :=
  | EvRemoveAll (path : string)
  | EvSpawn (pid : Z) (args : list string)
  | EvCancel (pid : Z)
  | EvKill (pid : Z)
  | EvWait (pid : Z)
  | EvCloseSession (sessionID : string) (timeout : Z) (save : bool)
  | EvGo (sessionID : string) (pid : Z)
  | EvLog (line : string) (pid : Z).

(** The manager together with the part of the world it acts on: the
    session objects, the process table, the socket files, the clock (in
    milliseconds), and the monitor goroutines that have not returned from
    their [cmd.Wait]. *)
Record Manager : Type := mkManager {
  pythonScript : string;
  sessions : gmap string WorkerClient;
  monitors : list (string * WorkerClient);
  heap : gmap loc Session;
  procs : gmap Z Process;
  files : gset string;
  now : Z;
  nextPid : Z;
  trace : list Event
}.

Definition set_sessions (x : gmap string WorkerClient) (m : Manager) : Manager :=
  mkManager (pythonScript m) x (monitors m) (heap m) (procs m) (files m) (now m)
    (nextPid m) (trace m).
Definition set_monitors (x : list (string * WorkerClient)) (m : Manager) : Manager :=
  mkManager (pythonScript m) (sessions m) x (heap m) (procs m) (files m) (now m)
    (nextPid m) (trace m).
Definition set_heap (x : gmap loc Session) (m : Manager) : Manager :=
  mkManager (pythonScript m) (sessions m) (monitors m) x (procs m) (files m) (now m)
    (nextPid m) (trace m).
Definition set_procs (x : gmap Z Process) (m : Manager) : Manager :=
  mkManager (pythonScript m) (sessions m) (monitors m) (heap m) x (files m) (now m)
    (nextPid m) (trace m).
Definition set_files (x : gset string) (m : Manager) : Manager :=
  mkManager (pythonScript m) (sessions m) (monitors m) (heap m) (procs m) x (now m)
    (nextPid m) (trace m).
Definition set_now (x : Z) (m : Manager) : Manager :=
  mkManager (pythonScript m) (sessions m) (monitors m) (heap m) (procs m) (files m) x
    (nextPid m) (trace m).
Definition set_nextPid (x : Z) (m : Manager) : Manager :=
  mkManager (pythonScript m) (sessions m) (monitors m) (heap m) (procs m) (files m)
    (now m) x (trace m).
Definition emit (e : Event) (m : Manager) : Manager :=
  mkManager (pythonScript m) (sessions m) (monitors m) (heap m) (procs m) (files m)
    (now m) (nextPid m) (trace m ++ [e]).

(** [NewManager], in a world with no session object, no child process and
    no socket file. *)
Definition NewManager (script : string) : Manager :=
  mkManager script ∅ [] ∅ ∅ ∅ 0 1 [].

(** What a manager method does: it returns a nil error or an error, the
    goroutine panics on a nil pointer, or the goroutine blocks inside the
    call and the method never returns. *)
Inductive Result : Type :=
  | Nil
  | Error (msg : string)
  | PanicNilPointer
  | Blocked.

(** How the world answers one [Start]: the results of [os.RemoveAll] and
    [cmd.Start], when (milliseconds after the spawn) the worker creates its
    socket file and from when it accepts connections, if ever, and whether
    the gateway runs under [go test]. *)
Record StartEnv : Type := mkEnv {
  removeError : option string;
  startError : option string;
  bindDelay : option Z;
  acceptDelay : option Z;
  testMode : bool
}.

Definition after (delay : option Z) (t0 t : Z) : bool :=
  match delay with
  | Some d => t0 + d <=? t
  | None => false
  end.

(** [os.Stat(socketPath)] succeeds; [net.Dial] on it succeeds. *)
Definition statOk (env : StartEnv) (t0 t : Z) : bool := after (bindDelay env) t0 t.
Definition dialOk (env : StartEnv) (t0 t : Z) : bool := after (acceptDelay env) t0 t.

(** One iteration of the loop body succeeds when the stat and then the dial
    succeed. *)
Definition probe (env : StartEnv) (t0 t : Z) : bool := statOk env t0 t && dialOk env t0 t.

Definition killedProcess (p : Process) : Process :=
  mkProcess (argv p) (discardOutput p) Exited (cancelled p) (Some "signal: killed").

Definition reapedProcess (p : Process) : Process :=
  mkProcess (argv p) (discardOutput p) Reaped (cancelled p) (exitError p).

Definition cancelledProcess (p : Process) : Process :=
  mkProcess (argv p) (discardOutput p) (pstate p) true (exitError p).

Definition exitedProcess (status : option string) (p : Process) : Process :=
  mkProcess (argv p) (discardOutput p) Exited (cancelled p) status.

(** The [context.CancelFunc] of a command context: the context is done.
    The call does not touch the process; the watcher goroutine that [exec]
    runs for a command started with a context kills the process later, and
    has done so by the time a [Wait] on the command returns. *)
Definition cancel (pid : Z) (m : Manager) : Manager :=
  set_procs (alter cancelledProcess pid (procs m)) (emit (EvCancel pid) m).

(** Result of [os.Process.Kill]. *)
Inductive KillResult : Type :=
  | KillNil
  | ErrProcessDone
  | KillFailed (err : string).

(** [os.Process.Kill] on a child: SIGKILL is delivered unless the process
    has already been waited for. *)
Definition Kill (pid : Z) (m : Manager) : KillResult * Manager :=
  let m := emit (EvKill pid) m in
  match procs m !! pid with
  | Some p =>
      match pstate p with
      | Reaped => (ErrProcessDone, m)
      | Running => (KillNil, set_procs (<[pid := killedProcess p]> (procs m)) m)
      | Exited => (KillNil, m)
      end
  | None => (ErrProcessDone, m)
  end.

(** How a call of [exec.Cmd.Wait] ends: it returns with its error, or the
    calling goroutine stays blocked inside the call. *)
Inductive WaitResult : Type :=
  | WaitReturns (err : option string)
  | WaitBlocks.

(** The error of the [Wait] that reaps a terminated process: the exit error
    of the process or, after a clean exit, the error the watcher goroutine
    reports when the context was done before the process was reaped. *)
Definition waitError (p : Process) : option string :=
  match exitError p with
  | Some e => Some e
  | None => if cancelled p then Some "context canceled" else None
  end.

(** [exec.Cmd.Wait] on a command no other goroutine is waiting for:
    [Process.Wait], then the receive of the one message the watcher
    goroutine sends on the [ctxResult] channel of the command.  A call on a
    command whose [ProcessState] is set reports that [Wait] was already
    called.  A process still running is waited for: the watcher kills it
    when the context is done, otherwise the call blocks. *)
Definition Wait (pid : Z) (m : Manager) : WaitResult * Manager :=
  let m := emit (EvWait pid) m in
  match procs m !! pid with
  | Some p =>
      match pstate p with
      | Reaped => (WaitReturns (Some "exec: Wait was already called"), m)
      | Exited =>
          (WaitReturns (waitError p), set_procs (<[pid := reapedProcess p]> (procs m)) m)
      | Running =>
          if cancelled p
          then (WaitReturns (Some "signal: killed"),
                set_procs (<[pid := reapedProcess (killedProcess p)]> (procs m)) m)
          else (WaitBlocks, m)
      end
  | None => (WaitReturns (Some "exec: not started"), m)
  end.

(** How a [cmd.Wait] fares against the [cmd.Wait] of another goroutine on
    the same command.  [Uncontended]: the other goroutine has not entered
    its call, and this one runs as if alone.  [Contended]: both calls run;
    the process is reaped by one of them, and both then receive from
    [ctxResult], on which the watcher sends only once, so that one call
    returns (with the error given) and the other blocks for ever.  A call
    that finds the [ProcessState] stored by the other returns at once with
    the error that [Wait] was already called; this is [Contended] with
    that error. *)
Inductive Contention : Type :=
  | Uncontended
  | Contended (outcome : WaitResult).

Definition pollInterval : Z := 100.
Definition readinessTimeout : Z := 10000.
Definition closeTimeout : Z := 5000.

(** The loop of [waitForSocket]: while the clock is before the deadline,
    probe, and sleep [100ms] after a failed probe.  The clock advances in
    [time.Sleep] only.  The result is whether a probe succeeded, and the
    time at which the loop was left. *)
Equations waitForSocket_loop (ready : Z -> bool) (deadline t : Z) : bool * Z
  by wf (Z.to_nat (deadline - t)) lt :=
  waitForSocket_loop ready deadline t with Z_lt_dec t deadline := {
    | left _ =>
        if ready t then (true, t)
        else waitForSocket_loop ready deadline (t + pollInterval)
    | right _ => (false, t)
  }.
Next Obligation. unfold pollInterval. lia. Qed.

(** [Manager.waitForSocket socketPath timeout] for a worker spawned at
    [t0 = now m]. *)
Definition waitForSocket (env : StartEnv) (socketPath : string) (timeout : Z)
    (m : Manager) : option string * Manager :=
  let t0 := now m in
  let '(ok, t1) := waitForSocket_loop (probe env t0) (t0 + timeout) t0 in
  let m := set_now t1 m in
  let m := if statOk env t0 t1 then set_files ({[socketPath]} ∪ files m) m else m in
  if ok then (None, m)
  else (Some ("timeout waiting for socket " +:+ socketPath), m).

(** The command line of a worker. *)
Definition workerArgs (script : string) (sess : Session) (binaryPath : string)
  : list string :=
  ["python3"; script; "--socket"; SocketPath sess; "--binary"; binaryPath;
   "--session-id"; ID sess].

(** [Manager.Start ctx sess binaryPath]; the request context [ctx] is not
    used by the body. *)
Definition Start (env : StartEnv) (sess : loc) (binPath : string) (m : Manager)
  : Result * Manager :=
  match heap m !! sess with
  | None => (PanicNilPointer, m)
  | Some s0 =>
      let m := emit (EvRemoveAll (SocketPath s0)) m in
      match removeError env with
      | Some e => (Error ("failed to remove old socket: " +:+ e), m)
      | None =>
          let m := set_files (files m ∖ {[SocketPath s0]}) m in
          match startError env with
          | Some e => (Error ("failed to start worker: " +:+ e), m)
          | None =>
              let pid := nextPid m in
              let args := workerArgs (pythonScript m) s0 binPath in
              let m := set_nextPid (pid + 1)
                         (set_procs
                            (<[pid := mkProcess args (testMode env) Running false None]>
                               (procs m))
                            (emit (EvSpawn pid args) m)) in
              let m := set_heap (<[sess := set_WorkerPID pid s0]> (heap m)) m in
              let m := emit (EvLog "[Worker] Started PID for session" pid) m in
              match waitForSocket env (SocketPath s0) readinessTimeout m with
              | (Some e, m) =>
                  let m := cancel pid m in
                  let '(killErr, m) := Kill pid m in
                  let m := match killErr with
                           | KillNil => m
                           | _ => emit (EvLog "[Worker] Failed to kill PID" pid) m
                           end in
                  match Wait pid m with
                  | (WaitBlocks, m) => (Blocked, m)
                  | (WaitReturns waitErr, m) =>
                      let m := match waitErr with
                               | Some _ =>
                                   emit (EvLog "[Worker] Failed to wait for PID" pid) m
                               | None => m
                               end in
                      (Error ("worker socket not ready: " +:+ e), m)
                  end
              | (None, m) =>
                  let worker :=
                    mkWorker (Some (SocketPath s0)) (Some (SocketPath s0))
                      (Some (SocketPath s0)) (Some pid) pid sess binPath in
                  let m := set_sessions (<[ID s0 := worker]> (sessions m)) m in
                  let m := set_monitors (monitors m ++ [(ID s0, worker)])
                             (emit (EvGo (ID s0) pid) m) in
                  (Nil, m)
              end
          end
      end
  end.

(** The worker reacts to a graceful [CloseSession]: when [exits] holds it
    terminates by itself before the call returns. *)
Definition closeSession (exits : bool) (sessionID : string) (pid : Z) (m : Manager)
  : Manager :=
  let m := emit (EvCloseSession sessionID closeTimeout true) m in
  if exits then
    set_procs (alter (fun p => match pstate p with
                               | Running => exitedProcess None p
                               | _ => p
                               end) pid (procs m)) m
  else m.

(** Whether a monitor goroutine has been started for the command of
    process [pid] and has not returned from its [cmd.Wait]. *)
Definition monitored (pid : Z) (m : Manager) : bool :=
  existsb (fun e => bool_decide (cmdProcess (snd e) = Some pid)) (monitors m).

(** [cmd.Wait] called while the monitor goroutine of the command may be
    inside its own [cmd.Wait].  Under contention the process is reaped as
    by a single call, and the world decides how this call ends; a process
    that is still running and not to be killed keeps both calls waiting. *)
Definition WaitAgainst (c : Contention) (pid : Z) (m : Manager) : WaitResult * Manager :=
  match c with
  | Uncontended => Wait pid m
  | Contended outcome =>
      if monitored pid m
      then match Wait pid m with
           | (WaitReturns _, m') => (outcome, m')
           | (WaitBlocks, m') => (WaitBlocks, m')
           end
      else Wait pid m
  end.

(** How the world answers one [Stop]: whether the worker terminates by
    itself on the graceful [CloseSession], and how the [cmd.Wait] of [Stop]
    fares against the [cmd.Wait] of the monitor goroutine that [Start]
    launched for the same command. *)
Record StopEnv : Type := mkStopEnv {
  workerExits : bool;
  contention : Contention
}.

(** [Manager.Stop sessionID].  The read lock is released before the first
    effect, so a [Stop] that blocks in [cmd.Wait] holds no lock. *)
Definition Stop (env : StopEnv) (sessionID : string) (m : Manager) : Result * Manager :=
  match sessions m !! sessionID with
  | None => (Error ("no worker for session " +:+ sessionID), m)
  | Some worker =>
      match cmdProcess worker with
      | None => (PanicNilPointer, m)
      | Some pid =>
          let m := emit (EvLog "[Worker] Stopping session" pid) m in
          let m := match SessionCtrl worker with
                   | Some _ => closeSession (workerExits env) sessionID pid m
                   | None => m
                   end in
          let m := cancel (ctx worker) m in
          let '(killErr, m) := Kill pid m in
          let m := match killErr with
                   | KillFailed _ => emit (EvLog "[Worker] Failed to kill PID" pid) m
                   | _ => m
                   end in
          match WaitAgainst (contention env) pid m with
          | (WaitBlocks, m) => (Blocked, m)
          | (WaitReturns waitErr, m) =>
              let m := match waitErr with
                       | Some _ => emit (EvLog "[Worker] Process wait error" pid) m
                       | None => m
                       end in
              let m := set_sessions (delete sessionID (sessions m)) m in
              match killErr with
              | KillFailed e => (Error ("failed to kill worker: " +:+ e), m)
              | _ => (Nil, m)
              end
          end
      end
  end.

(** [Manager.GetClient sessionID]. *)
Definition GetClient (sessionID : string) (m : Manager) : string + WorkerClient :=
  match sessions m !! sessionID with
  | Some worker => inr worker
  | None => inl ("no worker for session " +:+ sessionID)
  end.

(** [Manager.monitorWorker sessionID worker], from the moment its
    [cmd.Wait] returns; as long as that call blocks, the goroutine does
    nothing.  The log lines print [worker.session.WorkerPID]. *)
Definition monitorWorker (sessionID : string) (worker : WorkerClient) (m : Manager)
  : Manager :=
  match Wait (default 0 (cmdProcess worker)) m with
  | (WaitBlocks, _) => m
  | (WaitReturns err, m) =>
      let ctxErr := match procs m !! ctx worker with
                    | Some p => cancelled p
                    | None => false
                    end in
      let printed := match heap m !! session worker with
                     | Some sess => WorkerPID sess
                     | None => 0
                     end in
      let m := match err with
               | Some _ =>
                   if ctxErr
                   then emit (EvLog "[Worker] Process exited for session" printed) m
                   else emit (EvLog "[Worker] Process exited with error for session"
                                printed) m
               | None => emit (EvLog "[Worker] Process exited for session" printed) m
               end in
      set_sessions (delete sessionID (sessions m)) m
  end.

(** *** The manager as a transition system

    The goroutines of the gateway interleave; each method body is taken as
    one atomic step.  The one overlap that matters is kept: the [cmd.Wait]
    inside [Stop] runs against the [cmd.Wait] of the monitor goroutine, and
    [Contention] says how it ends.  A goroutine that blocks for ever takes
    no further step: a [Stop] that blocks has had its effects up to the
    [Wait], and a monitor goroutine whose [Wait] does not return is never
    resumed. *)
Inductive Action : Type :=
  | NewSession (l : loc) (id socketPath : string)
  | CallStart (env : StartEnv) (l : loc) (binPath : string)
  | CallStop (env : StopEnv) (sessionID : string)
  | ProcessExits (pid : Z) (status : option string)
  | MonitorResumes (i : nat).

(** Modelled from the spec: the creation of a session record by the
    registry (package session), with [worker_pid] zero because no worker is
    bound yet. *)
Definition newSession (l : loc) (id socketPath : string) (m : Manager) : option Manager :=
  match heap m !! l with
  | Some _ => None
  | None => Some (set_heap (<[l := mkSession id socketPath 0 (now m)]> (heap m)) m)
  end.

(** A running worker terminates by itself. *)
Definition processExits (pid : Z) (status : option string) (m : Manager) : option Manager :=
  match procs m !! pid with
  | Some p =>
      match pstate p with
      | Running => Some (set_procs (<[pid := exitedProcess status p]> (procs m)) m)
      | _ => None
      end
  | None => None
  end.

Definition isRunning (pid : Z) (m : Manager) : bool :=
  match procs m !! pid with
  | Some p => match pstate p with Running => true | _ => false end
  | None => false
  end.

(** The [i]-th monitor goroutine resumes: its [cmd.Wait] returns only when
    the process is no longer running (and need not return even then, when
    it lost the one [ctxResult] message to the [Wait] of a [Stop]). *)
Definition monitorResumes (i : nat) (m : Manager) : option Manager :=
  match monitors m !! i with
  | Some (sessionID, worker) =>
      if isRunning (default 0 (cmdProcess worker)) m then None
      else Some (monitorWorker sessionID worker
                   (set_monitors (take i (monitors m) ++ drop (S i) (monitors m)) m))
  | None => None
  end.

Definition run (a : Action) (m : Manager) : option Manager :=
  match a with
  | NewSession l id socketPath => newSession l id socketPath m
  | CallStart env l binPath => Some (snd (Start env l binPath m))
  | CallStop env sessionID => Some (snd (Stop env sessionID m))
  | ProcessExits pid status => processExits pid status m
  | MonitorResumes i => monitorResumes i m
  end.

(** The states the manager can be in. *)
Inductive reachable (script : string) : Manager -> Prop :=
  | reachable_init : reachable script (NewManager script)
  | reachable_step a m m' :
      reachable script m -> run a m = Some m' -> reachable script m'.

(** A worker is bound to a session when the manager holds a handle for
    the session's id. *)
Definition bound (sessionID : string) (m : Manager) : Prop :=
  is_Some (sessions m !! sessionID).

(** The processes that are still running. *)
Definition runningPids (m : Manager) : list Z :=
  List.filter (fun pid => isRunning pid m) (map fst (map_to_list (procs m))).

(** *** Orphan process cleanup *)

(** An entry of [os.ReadDir("/proc")]. *)
Record DirEntry : Type := mkDirEntry {
  EntryName : string;
  IsDir : bool
}.

(** The operating system as [CleanupOrphanProcesses] consults it:
    the listing of /proc ([None] when it cannot be read), the content of
    /proc/NAME/cmdline, [os.Getpid], and whether [os.FindProcess] and
    [proc.Signal(syscall.SIGTERM)] succeed for a pid. *)
Record ProcFS : Type := mkProcFS {
  ReadDir : option (list DirEntry);
  ReadCmdline : string -> option string;
  Getpid : Z;
  FindProcess : Z -> bool;
  SignalTERM : Z -> bool
}.

(** The two marker tests on a command line. *)
Definition hasWorkerMarker (script cmdStr : string) : bool :=
  GoLib.Contains cmdStr "ida-worker" || GoLib.Contains cmdStr script.

Definition hasSocketFlag (cmdStr : string) : bool :=
  GoLib.Contains cmdStr "--socket".

(** The loop body: the count of delivered signals and the pids a SIGTERM
    was sent to, oldest first. *)
Definition cleanupEntry (script : string) (os : ProcFS) (acc : Z * list Z)
    (entry : DirEntry) : Z * list Z :=
  if negb (IsDir entry) then acc
  else match GoLib.Atoi (EntryName entry) with
       | None => acc
       | Some pid =>
           if pid =? Getpid os then acc
           else match ReadCmdline os (EntryName entry) with
                | None => acc
                | Some cmdStr =>
                    if negb (GoLib.Contains cmdStr "ida-worker")
                       && negb (GoLib.Contains cmdStr script)
                    then acc
                    else if negb (GoLib.Contains cmdStr "--socket") then acc
                    else if negb (FindProcess os pid) then acc
                    else if SignalTERM os pid
                         then (fst acc + 1, (snd acc ++ [pid])%list)
                         else (fst acc, (snd acc ++ [pid])%list)
                end
       end.

(** [Manager.CleanupOrphanProcesses]: the number of processes killed, and
    the pids signalled. *)
Definition CleanupOrphanProcesses (script : string) (os : ProcFS) : Z * list Z :=
  match ReadDir os with
  | None => (0, [])
  | Some entries => fold_left (cleanupEntry script os) entries (0, [])
  end.

(** The worker invocation pattern: a command line that carries a worker
    entrypoint marker (the literal ida-worker or the configured script
    path) and the socket flag. *)
Definition matchesWorkerPattern (script cmdStr : string) : bool :=
  hasWorkerMarker script cmdStr && hasSocketFlag cmdStr.

(** An enumerated process: a directory of /proc whose name is the decimal
    pid and whose command line can be read. *)
Definition enumerated (os : ProcFS) (entries : list DirEntry) (pid : Z) (cmdStr : string)
  : Prop :=
  exists entry,
    In entry entries /\ IsDir entry = true
    /\ GoLib.Atoi (EntryName entry) = Some pid
    /\ ReadCmdline os (EntryName entry) = Some cmdStr.

(** A handle as [Start] builds it: the command has a process, which is in
    the process table; the context is that of the command; the session
    control stub exists; the handle points to the session object whose id it
    is stored under, and that object carries a non-zero worker pid. *)
Definition handle_ok (m : Manager) (sessionID : string) (w : WorkerClient) : Prop :=
  exists pid sock sess,
    cmdProcess w = Some pid /\ ctx w = pid /\ SessionCtrl w = Some sock
    /\ pid ∈ dom (procs m)
    /\ heap m !! session w = Some sess /\ ID sess = sessionID
    /\ WorkerPID sess <> 0.

(** Pids are positive and handed out in increasing order, and every handle
    is as [Start] builds it. *)
Definition invariant (m : Manager) : Prop :=
  0 < nextPid m
  /\ (forall pid, pid ∈ dom (procs m) -> 0 < pid < nextPid m)
  /\ (forall sessionID w, sessions m !! sessionID = Some w -> handle_ok m sessionID w).

(** The content of /proc/PID/cmdline of a process started with [args]:
    the arguments, each followed by a NUL byte. *)
Definition cmdline (args : list string) : string :=
  fold_right (fun a rest => a +:+ String (ascii_of_nat 0) rest) "" args.

(** *** Orphan socket cleanup *)

(** The operating system as [CleanupOrphanSockets] consults it: the result
    of [filepath.Glob] on the socket pattern ([None] for an error) and
    whether [os.Remove] of a path succeeds. *)
Record SocketFS : Type := mkSocketFS {
  Glob : option (list string);
  RemoveOk : string -> bool
}.

(** The loop body: a removed socket is gone and is counted; a failed
    removal is only logged. *)
Definition removeSocket (os : SocketFS) (acc : Z * gset string) (sock : string)
  : Z * gset string :=
  if RemoveOk os sock then (fst acc + 1, snd acc ∖ {[sock]}) else acc.

(** [Manager.CleanupOrphanSockets] on the socket files [fs]: the number of
    sockets removed, and the files left.  The manager is used for logging
    only, and the log lines are left out. *)
Definition CleanupOrphanSockets (os : SocketFS) (fs : gset string) : Z * gset string :=
  match Glob os with
  | None => (0, fs)
  | Some found => fold_left (removeSocket os) found (0, fs)
  end.

End Worker.

(** ** Concrete inputs used to exercise the definitions *)

Module Sample.
Import Errors.

Definition quote (s : string) : string :=
  String (ascii_of_nat 34) s +:+ String (ascii_of_nat 34) EmptyString.

(** A compact JSON printer standing in for [json.MarshalIndent]. *)
Fixpoint show_json (j : json) : string :=
  match j with
  | JNull => "null"
  | JBool b => if b then "true" else "false"
  | JNum n => pretty n
  | JStr s => quote s
  | JArr items =>
      "[" +:+ (fix go (l : list json) : string :=
                 match l with
                 | [] => ""
                 | x :: r => match r with
                             | [] => show_json x
                             | _ => show_json x +:+ "," +:+ go r
                             end
                 end) items +:+ "]"
  | JObj fields =>
      "{" +:+ (fix go (l : list (string * json)) : string :=
                 match l with
                 | [] => ""
                 | kv :: r => match r with
                              | [] => quote (fst kv) +:+ ":" +:+ show_json (snd kv)
                              | _ => quote (fst kv) +:+ ":" +:+ show_json (snd kv)
                                       +:+ "," +:+ go r
                              end
                 end) fields +:+ "}"
  end.

Definition marshal (j : json) (pre indent : string) : string := show_json j.

(** A stand-in for [compileRegex]: the pattern matches itself only. *)
Definition exactRegex (pattern : string) (caseSens : bool) : string + (string -> bool) :=
  inr (fun s => String.eqb s pattern).

Definition exactModule (module filter : string) (caseSens : bool) : bool :=
  String.eqb module filter.

Definition noArgs : Server.ToolArgs :=
  Server.mkArgs "s1" 0 0 0 0 "" "" "" "" "" "" "" false "" "" 0 0 false false false
    "" false "" None None.

Definition withPage (offset limit : option Z) (args : Server.ToolArgs) : Server.ToolArgs :=
  Server.mkArgs (Server.SessionID args) (Server.Address args)
    (Server.FunctionAddress args) (Server.Size args) (Server.MaxLength args)
    (Server.Name args) (Server.NewName args) (Server.LvarName args)
    (Server.LvarType args) (Server.TypeDecl args) (Server.Prototype args)
    (Server.Comment args) (Server.Repeatable args) (Server.Pattern args)
    (Server.Needle args) (Server.StartEA args) (Server.EndEA args)
    (Server.SearchUp args) (Server.CaseSensitive args) (Server.Unicode args)
    (Server.Regex args) (Server.CaseSens args) (Server.ModuleFilter args)
    offset limit.

(** Arguments that pass every obligatory-input check. *)
Definition fullArgs : Server.ToolArgs :=
  Server.mkArgs "s1" 4198400 4198400 16 0 "main" "start" "v1" "int" "int"
    "int f(void)" "note" false "90 90" "text" 0 0 false false false
    "" false "" None None.

(** [rename_lvar] arguments whose new name is blank. *)
Definition blankNameArgs : Server.ToolArgs :=
  Server.mkArgs "nosuch" 0 4198400 0 0 "" "  " "v1" "" "" "" "" false "" "" 0 0
    false false false "" false "" None None.

Definition session1 : Session := mkSession "s1" "/tmp/ida-worker-s1.sock" 4242 0.

Definition entries : list Server.Entry :=
  [Server.mkEntry "main" "" (JStr "main");
   Server.mkEntry "start" "" (JStr "start");
   Server.mkEntry "exit" "libc" (JStr "exit")].

(** A worker that carries out every request. *)
Definition obligingWorker : Server.WorkerClient :=
  Server.mkClient
    (fun method req => Server.Response (Server.mkMsg "" true "mov eax, 1" JNull))
    (fun k => inr entries).


Definition filledCache : Server.SessionCache :=
  Server.mkCache (Some entries) (Some entries) (Some entries) (Some entries).

Definition serverWith (w : Server.WorkerClient) (c : gmap string Server.SessionCache)
  : Server.Server :=
  Server.mkServer {["s1" := session1]} {["s1" := w]} c 1000 [].

(** One session with an obliging worker and all four lists cached. *)
Definition warmServer : Server.Server := serverWith obligingWorker {["s1" := filledCache]}.

(** The same with nothing cached. *)
Definition coldServer : Server.Server := serverWith obligingWorker ∅.

Definition script : string := "/opt/ida/ida-worker.py".

(** A manager with one session object and no worker. *)
Definition manager0 : Worker.Manager :=
  Worker.set_heap {[0%nat := mkSession "s1" "/tmp/ida-worker-s1.sock" 0 0]}
    (Worker.NewManager script).

(** The worker listens after 300 ms. *)
Definition promptEnv : Worker.StartEnv := Worker.mkEnv None None (Some 250) (Some 300) false.

(** The worker never creates its socket. *)
Definition silentEnv : Worker.StartEnv := Worker.mkEnv None None None None false.


(** [manager0] after one successful [Start]. *)
Definition manager1 : Worker.Manager :=
  snd (Worker.Start promptEnv 0%nat "/bin/ls" manager0).

(** [manager0] after a [Start] whose worker never became ready. *)
Definition managerFailed : Worker.Manager :=
  snd (Worker.Start silentEnv 0%nat "/bin/ls" manager0).

(** [manager1] after its worker crashed and the monitor goroutine ran. *)
Definition managerCrashed : Worker.Manager :=
  default manager1
    (Worker.processExits 1 (Some "exit status 1") manager1
       ≫= Worker.monitorResumes 0).

(** The content of /proc/PID/cmdline: the arguments, each followed by a
    NUL byte. *)
Definition cmdline (args : list string) : string :=
  fold_right (fun a rest => a +:+ String (ascii_of_nat 0) rest) "" args.

(** A process table with the gateway (pid 100), a worker left over from an
    earlier gateway, an unrelated server using a socket flag, and a shell. *)
Definition procfs : Worker.ProcFS :=
  Worker.mkProcFS
    (Some [Worker.mkDirEntry "100" true; Worker.mkDirEntry "200" true;
           Worker.mkDirEntry "300" true; Worker.mkDirEntry "400" true;
           Worker.mkDirEntry "self" true; Worker.mkDirEntry "uptime" false])
    (fun name =>
       if String.eqb name "100"
       then Some (cmdline ["python3"; script; "--socket"; "/tmp/ida-worker-own.sock"])
       else if String.eqb name "200"
       then Some (cmdline ["python3"; script; "--socket"; "/tmp/ida-worker-a.sock";
                           "--binary"; "/bin/ls"; "--session-id"; "a"])
       else if String.eqb name "300"
       then Some (cmdline ["mysqld"; "--socket"; "/run/mysqld.sock"])
       else if String.eqb name "400" then Some (cmdline ["bash"])
       else None)
    100 (fun _ => true) (fun _ => true).

(** Arguments that pass every obligatory-input check, for a session that
    was never opened. *)
Definition strangerArgs : Server.ToolArgs :=
  Server.mkArgs "nosuch" 4198400 4198400 16 0 "main" "start" "v1" "int" "int"
    "int f(void)" "note" false "90 90" "text" 0 0 false false false
    "" false "" None None.

(** An import listing restricted to module libc and to the name exit. *)
Definition importArgs : Server.ToolArgs :=
  Server.mkArgs "s1" 0 0 0 0 "" "" "" "" "" "" "" false "" "" 0 0 false false false
    "exit" false "libc" None None.

(** An enumeration request with a regex and a limit of zero. *)
Definition regexArgs : Server.ToolArgs :=
  Server.mkArgs "s1" 0 0 0 0 "" "" "" "" "" "" "" false "" "" 0 0 false false false
    "(" false "" None (Some 0).

(** A stand-in for [compileRegex] that rejects every pattern. *)
Definition rejectingRegex (pattern : string) (caseSens : bool) : string + (string -> bool) :=
  inl "error parsing regexp".

(** A worker that declines every request without an error string. *)
Definition decliningWorker : Server.WorkerClient :=
  Server.mkClient
    (fun method req => Server.Response (Server.mkMsg "" false "" JNull))
    (fun k => inr entries).

(** A registered session whose worker is gone. *)
Definition widowedServer : Server.Server :=
  Server.mkServer {["s1" := session1]} ∅ ∅ 1000 [].

(** A [Stop] whose [cmd.Wait] runs alone, with a worker that ignores the
    graceful close, and one with a worker that exits on it. *)
Definition quietStop : Worker.StopEnv := Worker.mkStopEnv false Worker.Uncontended.
Definition politeStop : Worker.StopEnv := Worker.mkStopEnv true Worker.Uncontended.

(** A [Stop] whose [cmd.Wait] loses the one [ctxResult] message to the
    monitor goroutine. *)
Definition starvedStop : Worker.StopEnv :=
  Worker.mkStopEnv false (Worker.Contended Worker.WaitBlocks).

(** [manager1] with a second session object, which has no worker. *)
Definition manager2 : Worker.Manager :=
  default manager1 (Worker.newSession 1%nat "s2" "/tmp/ida-worker-s2.sock" manager1).

(** [manager1] after a [Stop] and a second [Start] for the same session;
    the monitor goroutine of the first worker has not resumed yet. *)
Definition managerRestarted : Worker.Manager :=
  snd (Worker.Start promptEnv 0%nat "/bin/ls" (snd (Worker.Stop quietStop "s1" manager1))).

(** [manager1] after a [Stop] that blocked in [cmd.Wait]. *)
Definition managerStuck : Worker.Manager :=
  snd (Worker.Stop starvedStop "s1" manager1).

(** Two leftover sockets, of which the second cannot be removed, and the
    files present before the cleanup. *)
Definition socketfs : Worker.SocketFS :=
  Worker.mkSocketFS
    (Some ["/tmp/ida-worker-a.sock"; "/tmp/ida-worker-b.sock"])
    (fun sock => negb (String.eqb sock "/tmp/ida-worker-b.sock")).

Definition tmpFiles : gset string :=
  {["/tmp/ida-worker-a.sock"; "/tmp/ida-worker-b.sock"; "/tmp/notes.txt"]}.

End Sample.

(** * Properties *)

(** ** Strings *)



Lemma eqb_empty_false (e : string) : e <> "" -> String.eqb e "" = false.
Proof. intros H. apply String.eqb_neq. exact H. Qed.

(** ** The tool handlers *)

Section ServerFacts.

Import Errors Server.

Variable MarshalIndent : json -> string -> string -> string.
Variable compileRegex : string -> bool -> string + (string -> bool).
Variable matchModule : string -> string -> bool -> bool.

Local Abbreviation handleToolError := (Server.handleToolError MarshalIndent).
Local Abbreviation forward := (Server.forward MarshalIndent).
Local Abbreviation enumerate := (Server.enumerate MarshalIndent compileRegex matchModule).
Local Abbreviation dispatch := (Server.dispatch MarshalIndent compileRegex matchModule).
Local Abbreviation marshalJSON := (Server.marshalJSON MarshalIndent).

(** The in-band error result carrying [terr]. *)
Local Abbreviation errorResult terr :=
  (Return {| IsError := true;
             Content := [TextContent (MarshalIndent (ToolError_json terr) "" "  ")] |}
     None None).

Lemma handleToolError_fst terr s : fst (handleToolError terr s) = errorResult terr.
Proof. reflexivity. Qed.

Lemma handleToolError_snd terr s :
  snd (handleToolError terr s) = emit (EvErrorLog ("[Error] " +:+ Error_string terr)) s.
Proof. reflexivity. Qed.

(** The state in which a forwarding handler examines its arguments. *)
Lemma logged_fields (b : bool) tool sid s :
  let s' := if b then logToolInvocation tool sid s else s in
  registry s' = registry s /\ workers s' = workers s /\ caches s' = caches s
  /\ clock s' = clock s
  /\ trace s' = (trace s ++ if b then [EvToolLog tool sid] else [])%list.
Proof.
  destruct b; simpl; repeat split; try reflexivity.
  symmetry. apply app_nil_r.
Qed.

(** A failed check ends the handler at once. *)
Lemma forward_invalid h args s msg :
  first_failure (checks h) args = Some msg ->
  forward h args s =
  handleToolError (invalidInput (op h) msg)
    (if logs h then logToolInvocation (op h) (SessionID args) s else s).
Proof. intros H. unfold Server.forward. rewrite H. reflexivity. Qed.

(** With valid arguments, a known session and a bound worker, the handler
    reaches the RPC and branches on its reply. *)
Lemma forward_reply h args s sess client :
  first_failure (checks h) args = None ->
  registry s !! SessionID args = Some sess ->
  workers s !! ID sess = Some client ->
  exists s1,
    caches s1 = caches s /\
    trace s1 = (trace s ++ (if logs h then [EvToolLog (op h) (SessionID args)] else [])
                  ++ [EvRegistryGet (SessionID args); EvTouch (ID sess);
                      EvGetClient (ID sess);
                      EvRPC (ID sess) (method h) (prepare h args)])%list /\
    forward h args s =
    match Analysis client (method h) (prepare h args) with
    | TransportError err => handleToolError (idaOperationFailed (op h) (ID sess) err) s1
    | Response msg =>
        if negb (String.eqb (GetError msg) "")
        then handleToolError (idaOperationFailed (op h) (ID sess) (GetError msg)) s1
        else (textResult (render_text MarshalIndent (render h) msg),
              if invalidates h && GetSuccess msg
              then deleteSessionCache (ID sess) s1 else s1)
    end.
Proof.
  intros Hv Hr Hw.
  destruct (logged_fields (logs h) (op h) (SessionID args) s) as (Er & Ew & Ec & _ & Et).
  set (s0 := if logs h then logToolInvocation (op h) (SessionID args) s else s) in *.
  eexists. split; [|split]; cycle 2.
  - unfold Server.forward. rewrite Hv. fold s0.
    cbn [emit registry]. rewrite Er, Hr.
    unfold Server.GetClient. cbn [Touch emit set_registry workers].
    rewrite Ew, Hw. reflexivity.
  - cbn [Touch emit set_registry caches]. exact Ec.
  - cbn [Touch emit set_registry trace]. rewrite Et.
    rewrite <- !app_assoc. reflexivity.
Qed.

(** Likewise for the enumerations, up to the cache load. *)
Lemma enumerate_loaded k args s sess client :
  registry s !! SessionID args = Some sess ->
  workers s !! ID sess = Some client ->
  exists s1,
    caches s1 = caches s /\
    enumerate k args s =
    match load k (ID sess) client s1 with
    | (inl err, s2) => handleToolError (idaOperationFailed (enum_op k) (ID sess) err) s2
    | (inr (data, hit), s2) =>
        let s3 := if hit : bool
                  then emit (EvProgress (ID sess) (enum_op k) (cache_message k)) s2
                  else s2 in
        match apply_filters compileRegex matchModule k args data with
        | inl err => handleToolError (invalidInput (enum_op k) err) s3
        | inr filtered =>
            let total := Z.of_nat (length filtered) in
            match normalizePagination (Offset args) (Limit args) with
            | inl err => handleToolError (invalidInput (enum_op k) err) s3
            | inr (offset, limit) =>
                let offset := if total <? offset then total else offset in
                let end_ := offset + limit in
                let end_ := if total <? end_ then total else end_ in
                match slice filtered offset end_ with
                | None => (Panic "slice bounds out of range", s3)
                | Some page =>
                    (textResult
                       (marshalJSON
                          (page_object k args (mapItems page) total offset limit)),
                     s3)
                end
            end
        end
    end.
Proof.
  intros Hr Hw. eexists. split; cycle 1.
  - unfold Server.enumerate. cbn [logToolInvocation emit registry]. rewrite Hr.
    unfold Server.GetClient. cbn [Touch emit set_registry logToolInvocation workers].
    rewrite Hw.
    reflexivity.
  - reflexivity.
Qed.


(** Every forwarding handler ends in [handleToolError] or in a success
    result. *)
Lemma forward_outcome h args s :
  (exists terr s', forward h args s = handleToolError terr s')
  \/ (exists text s', forward h args s = (textResult text, s')).
Proof.
  unfold Server.forward, Server.GetClient.
  repeat case_match; eauto.
Qed.

(** An enumeration can in addition panic in the slice expression. *)
Lemma enumerate_outcome k args s :
  (exists terr s', enumerate k args s = handleToolError terr s')
  \/ (exists text s', enumerate k args s = (textResult text, s'))
  \/ (exists reason s', enumerate k args s = (Panic reason, s')).
Proof.
  unfold Server.enumerate, Server.GetClient.
  repeat case_match; eauto.
Qed.

(** C10.  A tool error is delivered in-band.  [handleToolError] returns a
    result whose [IsError] is true and whose single text content is the
    JSON serialisation of the [ToolError] (kind, status, message, operation,
    and context when present), together with a nil [any] and a nil Go
    error.  Every handler that returns, returns a nil Go error, and its
    result is either a success result or such an in-band error; a tool
    failure is never a protocol-level error. *)
Theorem tool_errors_are_in_band :
  (forall terr s,
      fst (handleToolError terr s)
      = Return {| IsError := true;
                  Content := [TextContent (marshalJSON (ToolError_json terr))] |}
          None None)
  /\ (forall t args s,
         match fst (dispatch t args s) with
         | Return res out err =>
             err = None /\ out = None
             /\ (IsError res = false
                 \/ exists terr,
                     res = {| IsError := true;
                              Content := [TextContent (marshalJSON (ToolError_json terr))] |})
         | Panic _ => exists k, handler_of t = inr k
         end).
Proof.
  split; [reflexivity|].
  intros t args s. unfold Server.dispatch.
  destruct (handler_of t) as [h|k] eqn:E.
  - destruct (forward_outcome h args s) as [(terr & s' & ->)|(text & s' & ->)]; simpl.
    + repeat split. right. exists terr. reflexivity.
    + repeat split. left. reflexivity.
  - destruct (enumerate_outcome k args s)
      as [(terr & s' & ->)|[(text & s' & ->)|(reason & s' & ->)]]; simpl.
    + repeat split. right. exists terr. reflexivity.
    + repeat split. left. reflexivity.
    + exists k. reflexivity.
Qed.


(** C7, as the code has it.  A handler that declares obligatory inputs
    checks them right after the invocation log: when a check fails the
    caller gets [invalid_input] with the check's message, and nothing else
    happens (no registry lookup, no touch, no worker lookup, no RPC, no
    cache change).  Every check is a blank-string test on a required string
    or the zero test on [function_address], and the handlers that have
    checks are exactly those of [validating_tools]; the other forwarding
    handlers, [get_disasm] and [set_name] among them, have none. *)
Theorem obligatory_inputs_checked_first :
  (forall t h args s msg,
      handler_of t = inl h ->
      first_failure (checks h) args = Some msg ->
      fst (dispatch t args s) = errorResult (invalidInput (op h) msg)
      /\ registry (snd (dispatch t args s)) = registry s
      /\ workers (snd (dispatch t args s)) = workers s
      /\ caches (snd (dispatch t args s)) = caches s
      /\ trace (snd (dispatch t args s))
         = (trace s
            ++ (if logs h then [EvToolLog (op h) (SessionID args)] else [])
            ++ [EvErrorLog ("[Error] " +:+ Error_string (invalidInput (op h) msg))])%list)
  /\ (forall t h c,
         handler_of t = inl h -> In c (checks h) ->
         (exists field msg, c = required field msg)
         \/ (exists msg, c = nonzero FunctionAddress msg))
  /\ (forall t h, handler_of t = inl h -> (checks h <> [] <-> In t validating_tools)).
Proof.
  split; [|split].
  - intros t h args s msg E Hf. unfold Server.dispatch. rewrite E.
    rewrite (forward_invalid h args s msg Hf).
    rewrite handleToolError_fst, handleToolError_snd.
    destruct (logged_fields (logs h) (op h) (SessionID args) s) as (Er & Ew & Ec & _ & Et).
    cbn [emit registry workers caches trace].
    rewrite Er, Ew, Ec, Et, <- app_assoc. repeat split.
  - intros t h c E Hin.
    destruct t; simpl in E; inversion E; subst h; simpl in Hin;
      repeat (destruct Hin as [<-|Hin]; [eauto|]); try contradiction.
    all: right; eauto.
  - intros t h E.
    destruct t; simpl in E; inversion E; subst h; simpl; split; intros H;
      try congruence; try tauto;
      try (exfalso; intuition discriminate).
Qed.

(** C1, as the code has it.  When [make_function] succeeds (the reply has
    no error and its success flag is set) the session's cache is deleted,
    so that none of the four kinds is cached any more, and this is the last
    effect before the success result is returned. *)
Theorem make_function_invalidates_all_kinds :
  forall args s sess client msg,
    registry s !! SessionID args = Some sess ->
    workers s !! ID sess = Some client ->
    Analysis client "MakeFunction" args = Response msg ->
    GetError msg = "" ->
    GetSuccess msg = true ->
    fst (Server.makeFunction MarshalIndent compileRegex matchModule args s)
    = textResult (marshalJSON (JObj [("success", JBool true)]))
    /\ (forall k,
           cache_lookup (ID sess) k
             (snd (Server.makeFunction MarshalIndent compileRegex matchModule args s))
           = None)
    /\ last (trace (snd (Server.makeFunction MarshalIndent compileRegex matchModule args s)))
       = Some (EvCacheDelete (ID sess)).
Proof.
  intros args s sess client msg Hr Hw Hrpc He Hs.
  unfold Server.makeFunction, Server.dispatch. cbn [handler_of].
  destruct (forward_reply
              (mkHandler "make_function" true [] "MakeFunction" (fun a => a) true SuccessFlag)
              args s sess client eq_refl Hr Hw) as (s1 & Hc & Ht & ->).
  cbn [method prepare invalidates render op render_text]. rewrite Hrpc, He, Hs.
  cbn [String.eqb negb andb fst snd].
  split; [reflexivity|]. split.
  - intros k. unfold cache_lookup, deleteSessionCache.
    cbn [emit set_caches caches]. rewrite lookup_delete_eq. reflexivity.
  - unfold deleteSessionCache. cbn [emit set_caches trace].
    apply last_snoc.
Qed.

(** The list is loaded whether or not it was cached. *)
Lemma load_available k sid client s data :
  available k sid client s data ->
  exists hit s2, load k sid client s = (inr (data, hit), s2).
Proof.
  unfold available, cache_lookup, load, getSessionCache.
  intros [Hc|[Hc Hf]]; destruct (caches s !! sid) as [c|] eqn:E; try discriminate.
  - rewrite Hc. eauto.
  - rewrite Hc, Hf. eauto.
  - destruct k; cbn [cached emptyCache cachedFunctions cachedImports
                       cachedExports cachedStrings]; rewrite Hf; eauto.
Qed.

(** The clamped window of the handlers is always a valid slice when the
    offset and the limit are not negative, and holds at most [limit]
    elements from the clamped offset on. *)
Lemma slice_clamped {A} (l : list A) (o limit : Z) :
  0 <= o -> 0 <= limit ->
  let total := Z.of_nat (length l) in
  let off := if total <? o then total else o in
  let e := off + limit in
  let e' := if total <? e then total else e in
  slice l off e' = Some (take (Z.to_nat limit) (drop (Z.to_nat off) l)).
Proof.
  intros Ho Hl total off e e'. unfold slice.
  assert (Hoff : 0 <= off <= total) by (subst off; destruct (Z.ltb_spec total o); lia).
  assert (He : off <= e' <= total) by (subst e' e; destruct (Z.ltb_spec total (off + limit)); lia).
  replace ((0 <=? off) && (off <=? e') && (e' <=? Z.of_nat (length l))) with true
    by (symmetry; rewrite !andb_true_iff, !Z.leb_le; fold total; lia).
  f_equal. subst e' e.
  destruct (Z.ltb_spec total (off + limit)) as [Hlt|Hge].
  - rewrite !take_ge; [reflexivity| |]; rewrite length_drop; subst total; lia.
  - f_equal. lia.
Qed.

(** The page returned when the arguments reach the pagination step with a
    normalised offset and limit that are not negative. *)
Lemma enumerate_page k args s sess client data filtered o limit :
  registry s !! SessionID args = Some sess ->
  workers s !! ID sess = Some client ->
  available k (ID sess) client s data ->
  apply_filters compileRegex matchModule k args data = inr filtered ->
  normalizePagination (Offset args) (Limit args) = inr (o, limit) ->
  0 <= o -> 0 <= limit ->
  let total := Z.of_nat (length filtered) in
  let off := Z.min o total in
  fst (enumerate k args s)
  = textResult
      (marshalJSON
         (page_object k args
            (mapItems (take (Z.to_nat limit) (drop (Z.to_nat off) filtered)))
            total off limit)).
Proof.
  intros Hr Hw Ha Hf Hn Ho Hl total off.
  destruct (enumerate_loaded k args s sess client Hr Hw) as (s1 & Hc & ->).
  assert (Ha' : available k (ID sess) client s1 data)
    by (unfold available, cache_lookup in *; rewrite Hc; exact Ha).
  destruct (load_available k (ID sess) client s1 data Ha') as (hit & s2 & ->).
  rewrite Hf, Hn. cbv zeta.
  pose proof (slice_clamped filtered o limit Ho Hl) as Hs. cbv zeta in Hs.
  assert (Eoff : (if Z.of_nat (length filtered) <? o then Z.of_nat (length filtered) else o)
                 = off)
    by (subst off total; destruct (Z.ltb_spec (Z.of_nat (length filtered)) o); lia).
  rewrite Eoff in Hs |- *. rewrite Hs. reflexivity.
Qed.


End ServerFacts.

(** ** The tool handlers on concrete inputs *)

(** C10 on [get_disasm] for an unknown session: the error comes back as an
    in-band result and the Go error is nil. *)
Lemma tool_errors_are_in_band_witness :
  fst (Server.getDisasm Sample.marshal Sample.exactRegex Sample.exactModule
         Sample.blankNameArgs Sample.coldServer)
  = Server.Return
      {| Server.IsError := true;
         Server.Content :=
           [Server.TextContent
              (Sample.marshal
                 (Errors.ToolError_json (Errors.sessionNotFound "get_disasm" "nosuch"))
                 "" "  ")] |}
      None None
  /\ match fst (Server.dispatch Sample.marshal Sample.exactRegex Sample.exactModule
                  Server.get_disasm Sample.blankNameArgs Sample.coldServer) with
     | Server.Return res out err => err = None
     | Server.Panic _ => False
     end.
Proof.
  split; [reflexivity|].
  pose proof (proj2 (tool_errors_are_in_band Sample.marshal Sample.exactRegex
                       Sample.exactModule)
                Server.get_disasm Sample.blankNameArgs Sample.coldServer) as H.
  destruct (fst (Server.dispatch Sample.marshal Sample.exactRegex Sample.exactModule
                   Server.get_disasm Sample.blankNameArgs Sample.coldServer)).
  - exact (proj1 H).
  - destruct H as [k Hk]. discriminate Hk.
Defined.


(** C7 as stated fails: [get_disasm] with address 0 and [set_name] with an
    empty name pass no validation; the request reaches the worker and the
    caller gets a success result. *)
Lemma obligatory_inputs_counterexample :
  Server.Address Sample.noArgs = 0
  /\ Server.Name Sample.noArgs = ""
  /\ fst (Server.getDisasm Sample.marshal Sample.exactRegex Sample.exactModule
            Sample.noArgs Sample.coldServer)
     = Server.Return
         {| Server.IsError := false;
            Server.Content := [Server.TextContent "mov eax, 1"] |} None None
  /\ last (Server.trace
             (snd (Server.getDisasm Sample.marshal Sample.exactRegex Sample.exactModule
                     Sample.noArgs Sample.coldServer)))
     = Some (Server.EvRPC "s1" "GetDisasm" Sample.noArgs)
  /\ fst (Server.setName Sample.marshal Sample.exactRegex Sample.exactModule
            Sample.noArgs Sample.coldServer)
     = Server.Return
         {| Server.IsError := false;
            Server.Content :=
              [Server.TextContent
                 (Sample.marshal (JObj [("success", JBool true)]) "" "  ")] |}
         None None
  /\ last (Server.trace
             (snd (Server.setName Sample.marshal Sample.exactRegex Sample.exactModule
                     Sample.noArgs Sample.coldServer)))
     = Some (Server.EvRPC "s1" "SetName" Sample.noArgs).
Proof. repeat split; vm_compute; reflexivity. Qed.

(** C7, amended, on [rename_lvar] with a blank new name and an unknown
    session: the answer is [invalid_input], not [session_not_found], and
    the only effects are the two log lines. *)
Lemma obligatory_inputs_checked_first_witness :
  (Server.handler_of Server.rename_lvar
   = inl (Server.checked "rename_lvar"
            [Server.required Server.NewName "new_name is required";
             Server.nonzero Server.FunctionAddress "function_address is required"]
            "RenameLvar" Server.SuccessFlag)
   /\ Server.first_failure
        [Server.required Server.NewName "new_name is required";
         Server.nonzero Server.FunctionAddress "function_address is required"]
        Sample.blankNameArgs
      = Some "new_name is required")
  /\ fst (Server.renameLvar Sample.marshal Sample.exactRegex Sample.exactModule
            Sample.blankNameArgs Sample.coldServer)
     = Server.Return
         {| Server.IsError := true;
            Server.Content :=
              [Server.TextContent
                 (Sample.marshal
                    (Errors.ToolError_json
                       (Errors.invalidInput "rename_lvar" "new_name is required"))
                    "" "  ")] |}
         None None
  /\ Server.trace
       (snd (Server.renameLvar Sample.marshal Sample.exactRegex Sample.exactModule
               Sample.blankNameArgs Sample.coldServer))
     = [Server.EvToolLog "rename_lvar" "nosuch";
        Server.EvErrorLog "[Error] [invalid_input] rename_lvar: new_name is required"].
Proof.
  split; [split; reflexivity|].
  pose proof (proj1 (obligatory_inputs_checked_first Sample.marshal Sample.exactRegex
                       Sample.exactModule)
                Server.rename_lvar _ Sample.blankNameArgs Sample.coldServer
                "new_name is required" eq_refl eq_refl) as (H1 & _ & _ & _ & H5).
  split; [exact H1 | exact H5].
Defined.

(** C1 as stated fails: each of the seven other mutations succeeds on a
    session whose four lists are cached and leaves all four cached. *)
Lemma mutation_invalidation_counterexample :
  Forall
    (fun t =>
       fst (Server.dispatch Sample.marshal Sample.exactRegex Sample.exactModule t
              Sample.fullArgs Sample.warmServer)
       = Server.Return
           {| Server.IsError := false;
              Server.Content :=
                [Server.TextContent
                   (Sample.marshal (JObj [("success", JBool true)]) "" "  ")] |}
           None None
       /\ forall k,
           Server.cache_lookup "s1" k
             (snd (Server.dispatch Sample.marshal Sample.exactRegex Sample.exactModule t
                     Sample.fullArgs Sample.warmServer))
           = Some Sample.entries)
    Server.other_mutations.
Proof.
  unfold Server.other_mutations.
  repeat constructor; try (intros k; destruct k); vm_compute; reflexivity.
Qed.

(** C1, amended, on the same session: a successful [make_function] leaves
    nothing cached. *)
Lemma make_function_invalidates_all_kinds_witness :
  (Server.registry Sample.warmServer !! Server.SessionID Sample.fullArgs
   = Some Sample.session1
   /\ Server.workers Sample.warmServer !! ID Sample.session1 = Some Sample.obligingWorker
   /\ Server.Analysis Sample.obligingWorker "MakeFunction" Sample.fullArgs
      = Server.Response (Server.mkMsg "" true "mov eax, 1" JNull))
  /\ (forall k, Server.cache_lookup "s1" k Sample.warmServer = Some Sample.entries)
  /\ forall k,
      Server.cache_lookup "s1" k
        (snd (Server.makeFunction Sample.marshal Sample.exactRegex Sample.exactModule
                Sample.fullArgs Sample.warmServer))
      = None.
Proof.
  split; [repeat split|]. split; [intros k; destruct k; reflexivity|].
  exact (proj1 (proj2 (make_function_invalidates_all_kinds Sample.marshal
                         Sample.exactRegex Sample.exactModule Sample.fullArgs
                         Sample.warmServer Sample.session1 Sample.obligingWorker
                         (Server.mkMsg "" true "mov eax, 1" JNull)
                         eq_refl eq_refl eq_refl eq_refl eq_refl))).
Defined.


(** ** The worker manager *)

Section WorkerFacts.

Import Worker.

#[local] Set Warnings "-clear-no-such-hyp".

(** A never-ready socket makes the loop end, unsuccessfully, within one
    poll interval after the deadline. *)
Lemma waitForSocket_loop_never ready deadline t :
  (forall u, t <= u < deadline -> ready u = false) ->
  fst (waitForSocket_loop ready deadline t) = false
  /\ ((deadline <= t /\ snd (waitForSocket_loop ready deadline t) = t)
      \/ (t < deadline
          /\ deadline <= snd (waitForSocket_loop ready deadline t) < deadline + pollInterval)).
Proof.
  funelim (waitForSocket_loop ready deadline t); intros Hn.
  - rewrite (Hn t) by lia.
    destruct H as [Hf Hs]; [intros u Hu; apply Hn; unfold pollInterval in *; lia|].
    split; [exact Hf|]. right. split; [exact l|].
    destruct Hs as [[Hd ->]|[_ Hb]]; unfold pollInterval in *; lia.
  - simpl. split; [reflexivity|]. left. split; [lia|reflexivity].
Qed.

Lemma waitForSocket_loop_ready ready deadline t :
  fst (waitForSocket_loop ready deadline t) = true ->
  ready (snd (waitForSocket_loop ready deadline t)) = true
  /\ t <= snd (waitForSocket_loop ready deadline t) < deadline.
Proof.
  funelim (waitForSocket_loop ready deadline t); intros Hok.
  - destruct (ready t) eqn:E.
    + simpl. split; [exact E|lia].
    + destruct (H Hok) as [H1 H2]. split; [exact H1|]. unfold pollInterval in *. lia.
  - discriminate Hok.
Qed.


Ltac world :=
  unfold cancel, Kill, Wait, closeSession;
  repeat (progress cbn [set_now set_nextPid set_procs set_files set_heap set_sessions
                          set_monitors emit now files procs heap sessions nextPid
                          monitors trace pythonScript fst snd
                          pstate exitError cancelled argv discardOutput
                          cancelledProcess killedProcess reapedProcess exitedProcess
                          waitError]
          || rewrite alter_insert_eq
          || rewrite lookup_insert_eq
          || rewrite insert_insert_eq).

(** The shape of the state after [Start]. *)
Lemma Start_shape env l binPath m :
  let m' := snd (Start env l binPath m) in
  (heap m' = heap m /\ procs m' = procs m /\ nextPid m' = nextPid m
   /\ sessions m' = sessions m)
  \/ (exists s0,
         heap m !! l = Some s0
         /\ heap m' = <[l := set_WorkerPID (nextPid m) s0]> (heap m)
         /\ dom (procs m') = {[nextPid m]} ∪ dom (procs m)
         /\ nextPid m' = nextPid m + 1
         /\ (sessions m' = sessions m
             \/ sessions m'
                = <[ID s0 := mkWorker (Some (SocketPath s0)) (Some (SocketPath s0))
                               (Some (SocketPath s0)) (Some (nextPid m)) (nextPid m)
                               l binPath]> (sessions m))).
Proof.
  unfold Start.
  destruct (heap m !! l) as [s0|] eqn:Hh; [|left; auto].
  cbn [emit heap].
  destruct (removeError env); [left; auto|].
  destruct (startError env); [left; auto|].
  right. exists s0. split; [reflexivity|].
  unfold waitForSocket.
  cbn [set_nextPid set_procs set_files set_heap emit now files].
  destruct (waitForSocket_loop _ _ _) as [ok t1].
  destruct ok, (statOk env (now m) t1); world; rewrite ?dom_insert_L; auto.
Qed.

(** The final state of a [Start] that times out. *)
Lemma Start_timeout env l binPath m s0 :
  heap m !! l = Some s0 ->
  removeError env = None ->
  startError env = None ->
  (forall u, now m <= u < now m + readinessTimeout -> probe env (now m) u = false) ->
  let r := Start env l binPath m in
  let pid := nextPid m in
  fst r = Error ("worker socket not ready: timeout waiting for socket " +:+ SocketPath s0)
  /\ trace (snd r)
     = (trace m ++ [EvRemoveAll (SocketPath s0);
                    EvSpawn pid (workerArgs (pythonScript m) s0 binPath);
                    EvLog "[Worker] Started PID for session" pid;
                    EvCancel pid; EvKill pid; EvWait pid;
                    EvLog "[Worker] Failed to wait for PID" pid])%list
  /\ procs (snd r)
     = <[pid := mkProcess (workerArgs (pythonScript m) s0 binPath) (testMode env)
                  Reaped true (Some "signal: killed")]> (procs m)
  /\ sessions (snd r) = sessions m
  /\ monitors (snd r) = monitors m
  /\ heap (snd r) = <[l := set_WorkerPID pid s0]> (heap m)
  /\ now m + readinessTimeout <= now (snd r) < now m + readinessTimeout + pollInterval
  /\ files (snd r)
     = (if statOk env (now m) (now (snd r))
        then {[SocketPath s0]} ∪ files m ∖ {[SocketPath s0]}
        else files m ∖ {[SocketPath s0]}).
Proof.
  intros Hh Hr Hs Hn r pid. subst r pid.
  unfold Start. rewrite Hh. cbn [emit heap]. rewrite Hr, Hs.
  unfold waitForSocket. cbn [set_nextPid set_procs set_files set_heap emit now files].
  destruct (waitForSocket_loop_never _ _ _ Hn) as [Hf Hb].
  destruct (waitForSocket_loop (probe env (now m)) (now m + readinessTimeout) (now m))
    as [ok t1].
  simpl in Hf, Hb. subst ok.
  destruct Hb as [[Hb _]|[_ Hb]]; [unfold readinessTimeout in Hb; lia|].
  destruct (statOk env (now m) t1) eqn:Est; world; rewrite ?Est;
    rewrite <- ?app_assoc; repeat split; try lia; reflexivity.
Qed.

Lemma Start_ready env l binPath m s0 :
  heap m !! l = Some s0 ->
  removeError env = None ->
  startError env = None ->
  fst (waitForSocket_loop (probe env (now m)) (now m + readinessTimeout) (now m)) = true ->
  let r := Start env l binPath m in
  let pid := nextPid m in
  let w := mkWorker (Some (SocketPath s0)) (Some (SocketPath s0)) (Some (SocketPath s0))
             (Some pid) pid l binPath in
  fst r = Nil
  /\ trace (snd r)
     = (trace m ++ [EvRemoveAll (SocketPath s0);
                    EvSpawn pid (workerArgs (pythonScript m) s0 binPath);
                    EvLog "[Worker] Started PID for session" pid;
                    EvGo (ID s0) pid])%list
  /\ procs (snd r)
     = <[pid := mkProcess (workerArgs (pythonScript m) s0 binPath) (testMode env)
                  Running false None]> (procs m)
  /\ sessions (snd r) = <[ID s0 := w]> (sessions m)
  /\ monitors (snd r) = (monitors m ++ [(ID s0, w)])%list
  /\ heap (snd r) = <[l := set_WorkerPID pid s0]> (heap m)
  /\ now m <= now (snd r) < now m + readinessTimeout
  /\ SocketPath s0 ∈ files (snd r).
Proof.
  intros Hh Hr Hs Hok r pid w. subst r pid w.
  unfold Start. rewrite Hh. cbn [emit heap]. rewrite Hr, Hs.
  unfold waitForSocket. cbn [set_nextPid set_procs set_files set_heap emit now files].
  destruct (waitForSocket_loop_ready _ _ _ Hok) as [Hp Hb].
  destruct (waitForSocket_loop (probe env (now m)) (now m + readinessTimeout) (now m))
    as [ok t1].
  cbn [fst snd] in *. subst ok.
  unfold probe in Hp. apply andb_true_iff in Hp as [Hst _]. rewrite Hst.
  world. rewrite <- ?app_assoc. repeat split; try lia. set_solver.
Qed.

(** A [Wait] on a process that is not running returns, and the process is
    reaped. *)
Lemma Wait_settled pid m p :
  procs m !! pid = Some p ->
  pstate p <> Running ->
  exists e p',
    Wait pid m = (WaitReturns e, set_procs (<[pid := p']> (procs m)) (emit (EvWait pid) m))
    /\ pstate p' = Reaped /\ cancelled p' = cancelled p.
Proof.
  intros Hl Hr. unfold Wait. cbn [emit procs]. rewrite Hl.
  destruct p as [a d st c e]. cbn [pstate cancelled] in *.
  destruct st; [congruence| |].
  - eexists _, _. split; [reflexivity|]. split; reflexivity.
  - exists (Some "exec: Wait was already called"), (mkProcess a d Reaped c e).
    split; [|split; reflexivity].
    f_equal. destruct m as [sc ss mo hp ps fs nw np tr]. cbn in Hl |- *.
    unfold set_procs, emit. cbn. rewrite (insert_id ps pid _ Hl). reflexivity.
Qed.

(** The same under contention; the call blocks exactly when the world lets
    the monitor goroutine receive the one [ctxResult] message. *)
Lemma WaitAgainst_settled c pid m p :
  procs m !! pid = Some p ->
  pstate p <> Running ->
  exists r p',
    WaitAgainst c pid m
    = (r, set_procs (<[pid := p']> (procs m)) (emit (EvWait pid) m))
    /\ pstate p' = Reaped /\ cancelled p' = cancelled p
    /\ (r = WaitBlocks <-> c = Contended WaitBlocks /\ monitored pid m = true).
Proof.
  intros Hl Hr. destruct (Wait_settled pid m p Hl Hr) as (e & p' & EW & E1 & E2).
  unfold WaitAgainst.
  destruct c as [|[err|]]; [|destruct (monitored pid m)..]; rewrite EW;
    eexists _, p'; (split; [reflexivity|]); (split; [exact E1|]); (split; [exact E2|]);
    split; try discriminate; try (intros [H1 H2]; discriminate); auto.
Qed.

(** The state in which [Stop] calls [cmd.Wait]: the graceful close, the
    cancellation and the kill have been issued in this order, and the
    process is no longer running. *)
Lemma Stop_before_Wait env sid m w pid sock p :
  sessions m !! sid = Some w ->
  cmdProcess w = Some pid ->
  ctx w = pid ->
  SessionCtrl w = Some sock ->
  procs m !! pid = Some p ->
  exists m3 p3,
    Stop env sid m
    = match WaitAgainst (contention env) pid m3 with
      | (WaitBlocks, m4) => (Blocked, m4)
      | (WaitReturns waitErr, m4) =>
          let m5 := match waitErr with
                    | Some _ => emit (EvLog "[Worker] Process wait error" pid) m4
                    | None => m4
                    end in
          (Nil, set_sessions (delete sid (sessions m5)) m5)
      end
    /\ procs m3 = <[pid := p3]> (procs m)
    /\ pstate p3 <> Running /\ cancelled p3 = true
    /\ trace m3 = (trace m ++ [EvLog "[Worker] Stopping session" pid;
                               EvCloseSession sid closeTimeout true;
                               EvCancel pid; EvKill pid])%list
    /\ sessions m3 = sessions m /\ monitors m3 = monitors m /\ heap m3 = heap m
    /\ files m3 = files m /\ now m3 = now m /\ nextPid m3 = nextPid m.
Proof.
  intros Hw Hp Hc Hs Hl.
  unfold Stop. rewrite Hw, Hp, Hs, Hc.
  destruct m as [sc ss mo hp ps fs nw np tr]. cbn [procs] in Hl.
  rewrite <- (insert_id ps pid p Hl).
  destruct p as [a d st c e]. destruct env as [we cont]. cbn [workerExits contention].
  destruct we, st; unfold cancel, Kill, closeSession; world;
    eexists _, _; (split; [reflexivity|]); world; rewrite <- ?app_assoc; cbn [app];
    (split; [reflexivity|]); repeat split; discriminate.
Qed.

(** What [Stop] does for a well-formed handle, whether it returns or
    blocks. *)
Lemma Stop_bound env sid m w pid sock p :
  sessions m !! sid = Some w ->
  cmdProcess w = Some pid ->
  ctx w = pid ->
  SessionCtrl w = Some sock ->
  procs m !! pid = Some p ->
  let r := Stop env sid m in
  (exists tail,
      trace (snd r)
      = (trace m ++ [EvLog "[Worker] Stopping session" pid;
                     EvCloseSession sid closeTimeout true;
                     EvCancel pid; EvKill pid; EvWait pid] ++ tail)%list
      /\ (tail = [] \/ tail = [EvLog "[Worker] Process wait error" pid])
      /\ (fst r = Blocked -> tail = []))
  /\ (exists p', procs (snd r) = <[pid := p']> (procs m)
                 /\ pstate p' = Reaped /\ cancelled p' = true)
  /\ ((fst r = Nil /\ sessions (snd r) = delete sid (sessions m))
      \/ (fst r = Blocked /\ sessions (snd r) = sessions m))
  /\ (fst r = Blocked <-> contention env = Contended WaitBlocks /\ monitored pid m = true)
  /\ heap (snd r) = heap m
  /\ nextPid (snd r) = nextPid m
  /\ monitors (snd r) = monitors m
  /\ files (snd r) = files m
  /\ now (snd r) = now m.
Proof.
  intros Hw Hp Hc Hs Hl r. subst r.
  destruct (Stop_before_Wait env sid m w pid sock p Hw Hp Hc Hs Hl)
    as (m3 & p3 & -> & Ep & Er & Ec & Et & Es & Em & Eh & Ef & En & Ex).
  assert (Hl3 : procs m3 !! pid = Some p3) by (rewrite Ep; apply lookup_insert_eq).
  destruct (WaitAgainst_settled (contention env) pid m3 p3 Hl3 Er)
    as (res & p' & -> & E1 & E2 & Eb).
  assert (Emon : monitored pid m3 = monitored pid m) by (unfold monitored; rewrite Em; auto).
  rewrite Emon in Eb. rewrite Ec in E2.
  assert (Hpr : <[pid := p']> (procs m3) = <[pid := p']> (procs m))
    by (rewrite Ep; apply insert_insert_eq).
  destruct res as [[e|]|]; cbn [fst snd set_sessions set_procs emit trace procs sessions
                                  heap nextPid monitors files now];
    rewrite Et, Hpr, <- ?app_assoc; cbn [app].
  - split; [exists [EvLog "[Worker] Process wait error" pid]; repeat split; auto;
            discriminate|].
    split; [eauto|]. split; [left; rewrite Es; auto|].
    split; [split; [discriminate|intros H; apply Eb in H; discriminate]|]. auto 10.
  - split; [exists []; repeat split; auto|].
    split; [eauto|]. split; [left; rewrite Es; auto|].
    split; [split; [discriminate|intros H; apply Eb in H; discriminate]|]. auto 10.
  - split; [exists []; repeat split; auto|].
    split; [eauto|]. split; [right; auto|].
    split; [split; [intros _; apply Eb; reflexivity|reflexivity]|]. auto 10.
Qed.

(** The primitives on processes do not touch the session objects. *)
Lemma Kill_heap pid m : heap (snd (Kill pid m)) = heap m.
Proof.
  unfold Kill. cbn [emit procs].
  destruct (procs m !! pid) as [p|]; [destruct (pstate p)|]; reflexivity.
Qed.

Lemma Wait_heap pid m : heap (snd (Wait pid m)) = heap m.
Proof.
  unfold Wait. cbn [emit procs].
  destruct (procs m !! pid) as [p|]; [destruct (pstate p), (cancelled p)|]; reflexivity.
Qed.

Lemma WaitAgainst_heap c pid m : heap (snd (WaitAgainst c pid m)) = heap m.
Proof.
  unfold WaitAgainst. pose proof (Wait_heap pid m) as H.
  destruct c as [|r]; [exact H|]. destruct (monitored pid m); [|exact H].
  destruct (Wait pid m) as [[e|] m']; exact H.
Qed.

Lemma closeSession_heap exits sid pid m : heap (closeSession exits sid pid m) = heap m.
Proof. unfold closeSession. destruct exits; reflexivity. Qed.

Lemma Stop_heap env sid m : heap (snd (Stop env sid m)) = heap m.
Proof.
  unfold Stop.
  destruct (sessions m !! sid) as [w|]; [|reflexivity].
  destruct (cmdProcess w) as [pid|]; [|reflexivity].
  set (m1 := match SessionCtrl w with
             | Some _ => closeSession (workerExits env) sid pid (emit (EvLog _ pid) m)
             | None => emit (EvLog _ pid) m
             end).
  assert (H1 : heap m1 = heap m)
    by (subst m1; destruct (SessionCtrl w); [rewrite closeSession_heap|]; reflexivity).
  pose proof (Kill_heap pid (cancel (ctx w) m1)) as H2.
  destruct (Kill pid (cancel (ctx w) m1)) as [killErr m2]. cbn [snd] in H2.
  set (m3 := match killErr with
             | KillFailed _ => emit (EvLog _ pid) m2
             | _ => m2
             end).
  assert (H3 : heap m3 = heap m2) by (subst m3; destruct killErr; reflexivity).
  pose proof (WaitAgainst_heap (contention env) pid m3) as H4.
  destruct (WaitAgainst (contention env) pid m3) as [[waitErr|] m4]; cbn [snd] in H4.
  - destruct waitErr, killErr; cbn [snd set_sessions emit heap];
      rewrite H4, H3, H2; exact H1.
  - cbn [snd]. rewrite H4, H3, H2. exact H1.
Qed.

(** [monitorWorker] leaves the session objects and the set of processes
    alone; once its [Wait] returns it logs and forgets the handle. *)
Lemma monitorWorker_frame sid w m :
  heap (monitorWorker sid w m) = heap m
  /\ nextPid (monitorWorker sid w m) = nextPid m
  /\ dom (procs (monitorWorker sid w m)) = dom (procs m)
  /\ (isRunning (default 0 (cmdProcess w)) m = false ->
      sessions (monitorWorker sid w m) = delete sid (sessions m)).
Proof.
  unfold monitorWorker, Wait, isRunning. cbn [emit procs].
  assert (Hd : forall p x, procs m !! default 0 (cmdProcess w) = Some p ->
                           dom (<[default 0 (cmdProcess w) := x]> (procs m)) = dom (procs m))
    by (intros p x Hp; apply dom_insert_lookup_L; eauto).
  destruct (procs m !! default 0 (cmdProcess w)) as [p|] eqn:Hp;
    [specialize (Hd p); destruct (pstate p), (cancelled p), (exitError p)|];
    cbn [emit set_procs procs waitError];
    repeat match goal with
           | |- context [match ?x with _ => _ end] => destruct x
           end;
    cbn; rewrite ?Hd; repeat split; auto; discriminate.
Qed.

(** A handle stays well formed when the session objects are unchanged and
    no process leaves the table. *)
Lemma handle_ok_frame m m' sid w :
  heap m' = heap m -> dom (procs m') = dom (procs m) ->
  handle_ok m sid w -> handle_ok m' sid w.
Proof.
  intros Hh Hd (pid & sock & sess & H1 & H2 & H3 & H4 & H5 & H6 & H7).
  exists pid, sock, sess. rewrite Hh, Hd. auto 10.
Qed.

Lemma invariant_init script : invariant (NewManager script).
Proof.
  unfold invariant, NewManager; cbn. split; [lia|]. split.
  - intros pid H. rewrite dom_empty_L in H. set_solver.
  - intros sid w H. rewrite lookup_empty in H. discriminate.
Qed.

Lemma invariant_Start env l binPath m :
  invariant m -> invariant (snd (Start env l binPath m)).
Proof.
  intros (Hn & Hp & Hs).
  destruct (Start_shape env l binPath m) as [(Eh & Ep & En & Es)|(s0 & Hh & Eh & Ed & En & Es)].
  - unfold invariant. rewrite Ep, En, Es. split; [exact Hn|]. split; [exact Hp|].
    intros sid w Hw. apply (handle_ok_frame m); [exact Eh|rewrite Ep; reflexivity|auto].
  - assert (Hold : forall sid w, handle_ok m sid w ->
                                 handle_ok (snd (Start env l binPath m)) sid w).
    { intros sid w (pid & sock & sess & H1 & H2 & H3 & H4 & H5 & H6 & H7).
      destruct (decide (session w = l)) as [El|Nl].
      - exists pid, sock, (set_WorkerPID (nextPid m) s0).
        rewrite Eh, Ed, El, lookup_insert_eq.
        rewrite El, Hh in H5. injection H5 as <-.
        repeat split; auto; [set_solver | cbn; lia].
      - exists pid, sock, sess. rewrite Eh, Ed, lookup_insert_ne by congruence.
        repeat split; auto. set_solver. }
    unfold invariant. rewrite En, Ed. split; [lia|]. split.
    + intros pid Hin. apply elem_of_union in Hin as [Hin|Hin].
      * apply elem_of_singleton in Hin. lia.
      * specialize (Hp pid Hin). lia.
    + intros sid w Hw. destruct Es as [Es|Es]; rewrite Es in Hw; [auto|].
      destruct (decide (ID s0 = sid)) as [<-|Ne].
      * rewrite lookup_insert_eq in Hw. injection Hw as <-.
        exists (nextPid m), (SocketPath s0), (set_WorkerPID (nextPid m) s0).
        rewrite Eh, Ed. cbn [cmdProcess ctx SessionCtrl session].
        rewrite lookup_insert_eq. repeat split; [set_solver | cbn; lia].
      * rewrite lookup_insert_ne in Hw by exact Ne. auto.
Qed.

Lemma invariant_Stop env sid m :
  invariant m -> invariant (snd (Stop env sid m)).
Proof.
  intros (Hn & Hp & Hs).
  destruct (sessions m !! sid) as [w|] eqn:Hw.
  - destruct (Hs sid w Hw) as (pid & sock & sess & H1 & H2 & H3 & H4 & _).
    apply elem_of_dom in H4 as [p H4].
    destruct (Stop_bound env sid m w pid sock p Hw H1 H2 H3 H4)
      as (_ & (p' & Epr & _) & Es & _ & Eh & En & _).
    assert (Ed : dom (procs (snd (Stop env sid m))) = dom (procs m))
      by (rewrite Epr; apply dom_insert_lookup_L; eauto).
    unfold invariant. rewrite En, Ed. split; [exact Hn|]. split; [exact Hp|].
    intros sid' w' Hw'. apply (handle_ok_frame m); auto. apply Hs.
    destruct Es as [[_ Es]|[_ Es]]; rewrite Es in Hw'; [|exact Hw'].
    apply lookup_delete_Some in Hw' as [_ Hw']. exact Hw'.
  - unfold Stop. rewrite Hw. exact (conj Hn (conj Hp Hs)).
Qed.

Lemma invariant_step a m m' : invariant m -> run a m = Some m' -> invariant m'.
Proof.
  intros Hi Hrun. destruct a as [l id path|env l binPath|env sid|pid status|i];
    cbn [run] in Hrun.
  - unfold newSession in Hrun. destruct (heap m !! l) eqn:Hl; [discriminate|].
    injection Hrun as <-. destruct Hi as (Hn & Hp & Hs).
    split; [exact Hn|]. split; [exact Hp|].
    intros sid w Hw. destruct (Hs sid w Hw) as (pid & sock & sess & H1 & H2 & H3 & H4 & H5 & H6).
    exists pid, sock, sess. cbn [set_heap heap procs].
    rewrite lookup_insert_ne by congruence. auto 10.
  - injection Hrun as <-. apply invariant_Start, Hi.
  - injection Hrun as <-. apply invariant_Stop, Hi.
  - unfold processExits in Hrun. destruct (procs m !! pid) as [p|] eqn:Hp; [|discriminate].
    destruct (pstate p); try discriminate. injection Hrun as <-.
    destruct Hi as (Hn & Hd & Hs).
    assert (Ed : dom (<[pid := exitedProcess status p]> (procs m)) = dom (procs m))
      by (apply dom_insert_lookup_L; eauto).
    unfold invariant. cbn [set_procs nextPid procs sessions]. rewrite Ed.
    split; [exact Hn|]. split; [exact Hd|].
    intros sid w Hw. apply (handle_ok_frame m); auto.
  - unfold monitorResumes in Hrun.
    destruct (monitors m !! i) as [[sid w]|]; [|discriminate].
    destruct (isRunning _ m) eqn:Hrunning; [discriminate|]. injection Hrun as <-.
    destruct (monitorWorker_frame sid w
                (set_monitors (take i (monitors m) ++ drop (S i) (monitors m)) m))
      as (Eh & En & Ed & Es).
    specialize (Es Hrunning).
    destruct Hi as (Hn & Hd & Hs).
    unfold invariant. rewrite En, Ed, Es. cbn [set_monitors nextPid procs sessions].
    split; [exact Hn|]. split; [exact Hd|].
    intros sid' w' Hw'. apply lookup_delete_Some in Hw' as [_ Hw'].
    apply (handle_ok_frame m); auto.
Qed.

Lemma reachable_invariant script m : reachable script m -> invariant m.
Proof.
  induction 1 as [|a m m' _ IH Hrun]; [apply invariant_init|].
  exact (invariant_step a m m' IH Hrun).
Qed.

(** What one loop iteration adds to the signalled pids. *)
Lemma cleanupEntry_signalled script os acc entry pid :
  In pid (snd (cleanupEntry script os acc entry))
  <-> In pid (snd acc)
      \/ (IsDir entry = true
          /\ GoLib.Atoi (EntryName entry) = Some pid
          /\ pid <> Getpid os
          /\ FindProcess os pid = true
          /\ exists cmdStr,
              ReadCmdline os (EntryName entry) = Some cmdStr
              /\ matchesWorkerPattern script cmdStr = true).
Proof.
  unfold cleanupEntry, matchesWorkerPattern, hasWorkerMarker, hasSocketFlag.
  destruct (IsDir entry); cbn [negb]; [|intuition discriminate].
  destruct (GoLib.Atoi (EntryName entry)) as [q|]; [|intuition discriminate].
  destruct (Z.eqb_spec q (Getpid os)) as [->|Hq].
  { split; [auto|]. intros [H|(_ & H & Hne & _)]; [exact H|]. congruence. }
  destruct (ReadCmdline os (EntryName entry)) as [cmdStr|].
  2:{ split; [auto|]. intros [H|(_ & _ & _ & _ & c & Hc & _)]; [exact H|discriminate]. }
  destruct (GoLib.Contains cmdStr "ida-worker") eqn:E1,
           (GoLib.Contains cmdStr script) eqn:E2,
           (GoLib.Contains cmdStr "--socket") eqn:E3; cbn [negb andb orb];
    try (split; [auto|];
         intros [H|(_ & _ & _ & _ & c & Hc & Hm)]; [exact H|];
         injection Hc as <-; rewrite E1, E2, E3 in Hm; discriminate).
  all: destruct (FindProcess os q) eqn:Ef; cbn [negb];
    [ destruct (SignalTERM os q); cbn [snd]; rewrite in_app_iff; cbn [In];
      (split;
       [ intros [H|[<-|[]]]; [auto|];
         right; repeat split; auto; exists cmdStr; rewrite E1, E2, E3; auto
       | intros [H|(_ & H & _)]; [auto|]; injection H as <-; auto ])
    | split; [auto|];
      intros [H|(_ & H & _ & Hf & _)]; [exact H|];
      injection H as <-; congruence ].
Qed.

Lemma cleanup_fold_signalled script os entries acc pid :
  In pid (snd (fold_left (cleanupEntry script os) entries acc))
  <-> In pid (snd acc)
      \/ (pid <> Getpid os
          /\ FindProcess os pid = true
          /\ exists cmdStr,
              enumerated os entries pid cmdStr
              /\ matchesWorkerPattern script cmdStr = true).
Proof.
  revert acc. induction entries as [|entry entries IH]; intros acc; cbn [fold_left].
  - split; [auto|]. intros [H|(_ & _ & c & (e & [] & _) & _)]. exact H.
  - rewrite IH, cleanupEntry_signalled. unfold enumerated. split.
    + intros [[H|(Hd & Ha & Hne & Hf & c & Hc & Hm)]|(Hne & Hf & c & (e & Hin & He) & Hm)].
      * auto.
      * right. repeat split; auto. exists c. split; [|exact Hm].
        exists entry. cbn [In]. auto.
      * right. repeat split; auto. exists c. split; [|exact Hm].
        exists e. cbn [In]. auto.
    + intros [H|(Hne & Hf & c & (e & [<-|Hin] & Hd & Ha & Hc) & Hm)].
      * auto.
      * left. right. repeat split; auto. exists c. auto.
      * right. repeat split; auto. exists c. split; [|exact Hm]. exists e. auto.
Qed.

(** C3, as the code has it.  [Start] does not look for an existing worker.
    Called again for a session whose worker is running, with a new worker
    that becomes ready in time, it returns nil, has spawned a second
    process with a fresh pid while the first one keeps running, and has
    replaced the session's handle and worker pid by those of the new
    process. *)
Theorem second_start_spawns_second_worker :
  forall script env l binPath m s0 w pid0,
    reachable script m ->
    heap m !! l = Some s0 ->
    sessions m !! ID s0 = Some w ->
    cmdProcess w = Some pid0 ->
    isRunning pid0 m = true ->
    removeError env = None ->
    startError env = None ->
    fst (waitForSocket_loop (probe env (now m)) (now m + readinessTimeout) (now m)) = true ->
    fst (Start env l binPath m) = Nil
    /\ nextPid m <> pid0
    /\ isRunning pid0 (snd (Start env l binPath m)) = true
    /\ isRunning (nextPid m) (snd (Start env l binPath m)) = true
    /\ In (EvSpawn (nextPid m) (workerArgs (pythonScript m) s0 binPath))
         (trace (snd (Start env l binPath m)))
    /\ sessions (snd (Start env l binPath m)) !! ID s0
       = Some (mkWorker (Some (SocketPath s0)) (Some (SocketPath s0))
                 (Some (SocketPath s0)) (Some (nextPid m)) (nextPid m) l binPath)
    /\ heap (snd (Start env l binPath m)) !! l = Some (set_WorkerPID (nextPid m) s0).
Proof.
  intros script env l binPath m s0 w pid0 Hreach Hh Hw Hp Hrun Hr Hs Hok.
  destruct (Start_ready env l binPath m s0 Hh Hr Hs Hok)
    as (E1 & E2 & E3 & E4 & _ & E6 & _ & _).
  destruct (reachable_invariant script m Hreach) as (_ & Hdom & _).
  assert (Hin : pid0 ∈ dom (procs m)).
  { unfold isRunning in Hrun. apply elem_of_dom.
    destruct (procs m !! pid0); [eauto|discriminate]. }
  assert (Hne : nextPid m <> pid0) by (specialize (Hdom pid0 Hin); lia).
  split; [exact E1|]. split; [exact Hne|].
  unfold isRunning in *. rewrite E2, E3, E4, E6.
  rewrite lookup_insert_ne by exact Hne. rewrite !lookup_insert_eq.
  repeat split; auto.
  rewrite in_app_iff. right. cbn [In]. auto.
Qed.


(** C8, as the code has it.  The worker pid of a session is zero when the
    session is created and is non-zero whenever a worker is bound to it;
    [Start] stores the pid of the process it spawns, and nothing resets the
    field: a [Start] that fails on readiness leaves the pid of the reaped
    process in the session, and [Stop] and the monitor goroutine leave the
    session objects untouched when they remove the handle. *)
Theorem worker_pid_is_set_and_never_reset :
  (forall script m sid w,
      reachable script m -> sessions m !! sid = Some w ->
      exists sess,
        heap m !! session w = Some sess /\ ID sess = sid /\ WorkerPID sess <> 0)
  /\ (forall l id path m m',
         newSession l id path m = Some m' ->
         WorkerPID <$> heap m' !! l = Some 0)
  /\ (forall script env l binPath m s0,
         reachable script m ->
         heap m !! l = Some s0 ->
         removeError env = None ->
         startError env = None ->
         (forall u, now m <= u < now m + 10000 -> probe env (now m) u = false) ->
         sessions (snd (Start env l binPath m)) = sessions m
         /\ WorkerPID <$> heap (snd (Start env l binPath m)) !! l = Some (nextPid m)
         /\ nextPid m <> 0)
  /\ (forall env sid m, heap (snd (Stop env sid m)) = heap m)
  /\ (forall sid w m, heap (monitorWorker sid w m) = heap m).
Proof.
  split; [|split; [|split; [|split]]].
  - intros script m sid w Hreach Hw.
    destruct (reachable_invariant script m Hreach) as (_ & _ & Hs).
    destruct (Hs sid w Hw) as (pid & sock & sess & _ & _ & _ & _ & H5 & H6 & H7).
    exists sess. auto.
  - intros l id path m m' H. unfold newSession in H.
    destruct (heap m !! l); [discriminate|]. injection H as <-.
    cbn [set_heap heap]. rewrite lookup_insert_eq. reflexivity.
  - intros script env l binPath m s0 Hreach Hh Hr Hs Hn.
    destruct (Start_timeout env l binPath m s0 Hh Hr Hs Hn)
      as (_ & _ & _ & E4 & _ & E6 & _).
    destruct (reachable_invariant script m Hreach) as (Hpos & _).
    rewrite E4, E6, lookup_insert_eq. cbn. repeat split. lia.
  - intros env sid m. apply Stop_heap.
  - intros sid w m. apply monitorWorker_frame.
Qed.

(** C9.  Orphan-process cleanup is a no-op when /proc cannot be listed.
    Otherwise, among the enumerated processes (the directories of /proc
    named by a decimal pid whose command line can be read), a pid is sent
    SIGTERM if and only if its command line matches the worker invocation
    pattern and it is not the gateway's own pid; the gateway's own pid is
    never signalled. *)
Theorem orphan_cleanup_signals_exactly_the_workers :
  forall script os,
    (ReadDir os = None -> CleanupOrphanProcesses script os = (0, []))
    /\ (forall entries,
           ReadDir os = Some entries ->
           (forall pid, FindProcess os pid = true) ->
           forall pid,
             In pid (snd (CleanupOrphanProcesses script os))
             <-> (exists cmdStr,
                     enumerated os entries pid cmdStr
                     /\ matchesWorkerPattern script cmdStr = true)
                 /\ pid <> Getpid os)
    /\ ~ In (Getpid os) (snd (CleanupOrphanProcesses script os)).
Proof.
  intros script os. unfold CleanupOrphanProcesses.
  split; [|split].
  - intros ->. reflexivity.
  - intros entries -> Hfind pid. rewrite cleanup_fold_signalled. cbn [snd In].
    split.
    + intros [[]|(Hne & _ & H)]. auto.
    + intros [H Hne]. right. auto.
  - destruct (ReadDir os) as [entries|]; [|cbn; auto].
    rewrite cleanup_fold_signalled. cbn [snd In].
    intros [[]|(Hne & _)]. congruence.
Qed.

End WorkerFacts.

(** ** The worker manager on concrete inputs *)

Lemma manager0_reachable : Worker.reachable Sample.script Sample.manager0.
Proof.
  apply (Worker.reachable_step Sample.script
           (Worker.NewSession 0%nat "s1" "/tmp/ida-worker-s1.sock")
           (Worker.NewManager Sample.script)).
  - apply Worker.reachable_init.
  - reflexivity.
Qed.

Lemma manager1_reachable : Worker.reachable Sample.script Sample.manager1.
Proof.
  apply (Worker.reachable_step Sample.script
           (Worker.CallStart Sample.promptEnv 0%nat "/bin/ls") Sample.manager0).
  - apply manager0_reachable.
  - reflexivity.
Qed.

Lemma managerFailed_reachable : Worker.reachable Sample.script Sample.managerFailed.
Proof.
  apply (Worker.reachable_step Sample.script
           (Worker.CallStart Sample.silentEnv 0%nat "/bin/ls") Sample.manager0).
  - apply manager0_reachable.
  - reflexivity.
Qed.

Lemma managerCrashed_reachable : Worker.reachable Sample.script Sample.managerCrashed.
Proof.
  apply (Worker.reachable_step Sample.script (Worker.MonitorResumes 0)
           (default Sample.manager1
              (Worker.processExits 1 (Some "exit status 1") Sample.manager1))).
  - apply (Worker.reachable_step Sample.script
             (Worker.ProcessExits 1 (Some "exit status 1")) Sample.manager1).
    + apply manager1_reachable.
    + vm_compute. reflexivity.
  - vm_compute. reflexivity.
Qed.

Lemma manager1_handle :
  Worker.sessions Sample.manager1 !! "s1"
  = Some (Worker.mkWorker (Some "/tmp/ida-worker-s1.sock") (Some "/tmp/ida-worker-s1.sock")
            (Some "/tmp/ida-worker-s1.sock") (Some 1) 1 0%nat "/bin/ls").
Proof. vm_compute. reflexivity. Qed.

(** C3 as stated fails: the second [Start] for a session whose worker is
    running returns nil, and two worker processes are running afterwards. *)
Lemma second_start_counterexample :
  Worker.bound "s1" Sample.manager1
  /\ Worker.runningPids Sample.manager1 = [1]
  /\ fst (Worker.Start Sample.promptEnv 0%nat "/bin/ls" Sample.manager1) = Worker.Nil
  /\ Worker.runningPids (snd (Worker.Start Sample.promptEnv 0%nat "/bin/ls" Sample.manager1))
     = [2; 1].
Proof.
  split; [|repeat split; vm_compute; reflexivity].
  unfold Worker.bound. rewrite manager1_handle. eauto.
Qed.

(** C3, amended, on the same state. *)
Lemma second_start_spawns_second_worker_witness :
  (Worker.reachable Sample.script Sample.manager1
   /\ Worker.isRunning 1 Sample.manager1 = true
   /\ Worker.removeError Sample.promptEnv = None
   /\ Worker.startError Sample.promptEnv = None
   /\ fst (Worker.waitForSocket_loop
             (Worker.probe Sample.promptEnv (Worker.now Sample.manager1))
             (Worker.now Sample.manager1 + Worker.readinessTimeout)
             (Worker.now Sample.manager1)) = true)
  /\ fst (Worker.Start Sample.promptEnv 0%nat "/bin/ls" Sample.manager1) = Worker.Nil
  /\ Worker.isRunning 1 (snd (Worker.Start Sample.promptEnv 0%nat "/bin/ls" Sample.manager1))
     = true
  /\ Worker.isRunning 2 (snd (Worker.Start Sample.promptEnv 0%nat "/bin/ls" Sample.manager1))
     = true.
Proof.
  split; [repeat split; try apply manager1_reachable; vm_compute; reflexivity|].
  pose proof (second_start_spawns_second_worker Sample.script Sample.promptEnv 0%nat
                "/bin/ls" Sample.manager1
                (mkSession "s1" "/tmp/ida-worker-s1.sock" 1 0)
                (Worker.mkWorker (Some "/tmp/ida-worker-s1.sock")
                   (Some "/tmp/ida-worker-s1.sock") (Some "/tmp/ida-worker-s1.sock")
                   (Some 1) 1 0%nat "/bin/ls")
                1 manager1_reachable) as H.
  destruct H as (H1 & _ & H3 & H4 & _); try (vm_compute; reflexivity).
  repeat split; assumption.
Defined.



(** C5, on the code as it is.  [Stop] is called for the sample session,
    whose worker [Start] has launched and whose monitor goroutine is inside
    [cmd.Wait].  In both runs below the graceful close with its 5-second
    deadline, the cancellation, the kill and the [Wait] are issued in this
    order and the process is reaped.  When the [Wait] of [Stop] runs alone,
    [Stop] returns nil and the handle is gone.  When the monitor goroutine
    receives the one [ctxResult] message, the [Wait] of [Stop] never
    returns: [Stop] blocks for ever and the handle it was to delete is
    still registered. *)
Theorem stop_blocks_behind_the_monitor :
  Worker.reachable Sample.script Sample.manager1
  /\ Worker.bound "s1" Sample.manager1
  /\ Worker.monitored 1 Sample.manager1 = true
  /\ (fst (Worker.Stop Sample.quietStop "s1" Sample.manager1) = Worker.Nil
      /\ Worker.trace (snd (Worker.Stop Sample.quietStop "s1" Sample.manager1))
         = (Worker.trace Sample.manager1
            ++ [Worker.EvLog "[Worker] Stopping session" 1;
                Worker.EvCloseSession "s1" 5000 true;
                Worker.EvCancel 1; Worker.EvKill 1; Worker.EvWait 1;
                Worker.EvLog "[Worker] Process wait error" 1])%list
      /\ Worker.pstate <$> Worker.procs (snd (Worker.Stop Sample.quietStop "s1"
                                                Sample.manager1)) !! 1
         = Some Worker.Reaped
      /\ Worker.sessions (snd (Worker.Stop Sample.quietStop "s1" Sample.manager1)) !! "s1"
         = None)
  /\ (fst (Worker.Stop Sample.starvedStop "s1" Sample.manager1) = Worker.Blocked
      /\ Worker.trace Sample.managerStuck
         = (Worker.trace Sample.manager1
            ++ [Worker.EvLog "[Worker] Stopping session" 1;
                Worker.EvCloseSession "s1" 5000 true;
                Worker.EvCancel 1; Worker.EvKill 1; Worker.EvWait 1])%list
      /\ Worker.pstate <$> Worker.procs Sample.managerStuck !! 1 = Some Worker.Reaped
      /\ Worker.sessions Sample.managerStuck !! "s1"
         = Worker.sessions Sample.manager1 !! "s1").
Proof.
  split; [exact manager1_reachable|].
  split; [unfold Worker.bound; rewrite manager1_handle; eauto|].
  split; [vm_compute; reflexivity|].
  split; repeat split; vm_compute; reflexivity.
Qed.

(** C8 as stated fails: after a [Start] that timed out, and after the
    monitor goroutine removed the handle of a crashed worker, no worker is
    bound to the session and its worker pid is still 1. *)
Lemma worker_pid_counterexample :
  (Worker.reachable Sample.script Sample.managerFailed
   /\ Worker.sessions Sample.managerFailed !! "s1" = None
   /\ WorkerPID <$> Worker.heap Sample.managerFailed !! 0%nat = Some 1)
  /\ (Worker.reachable Sample.script Sample.managerCrashed
      /\ Worker.sessions Sample.managerCrashed !! "s1" = None
      /\ WorkerPID <$> Worker.heap Sample.managerCrashed !! 0%nat = Some 1).
Proof.
  split; (split; [|split; vm_compute; reflexivity]).
  - apply managerFailed_reachable.
  - apply managerCrashed_reachable.
Qed.

(** C8, amended, on the same two runs: while the worker is bound the pid
    is non-zero, and the failed [Start] leaves pid 1 in the session. *)
Lemma worker_pid_is_set_and_never_reset_witness :
  (Worker.reachable Sample.script Sample.manager1
   /\ Worker.reachable Sample.script Sample.manager0
   /\ Worker.heap Sample.manager0 !! 0%nat
      = Some (mkSession "s1" "/tmp/ida-worker-s1.sock" 0 0))
  /\ (exists sess,
         Worker.heap Sample.manager1 !! 0%nat = Some sess
         /\ ID sess = "s1" /\ WorkerPID sess <> 0)
  /\ WorkerPID <$> Worker.heap Sample.managerFailed !! 0%nat = Some 1.
Proof.
  split; [repeat split; [apply manager1_reachable|apply manager0_reachable]|].
  destruct worker_pid_is_set_and_never_reset as (P1 & _ & P3 & _).
  split.
  - exact (P1 Sample.script Sample.manager1 "s1" _ manager1_reachable manager1_handle).
  - exact (proj1 (proj2 (P3 Sample.script Sample.silentEnv 0%nat "/bin/ls" Sample.manager0
                           (mkSession "s1" "/tmp/ida-worker-s1.sock" 0 0)
                           manager0_reachable eq_refl eq_refl eq_refl
                           (fun u _ => eq_refl)))).
Defined.

(** C9 on a process table with the gateway itself (pid 100, whose own
    command line matches the pattern), an orphan worker (200), a database
    server with a socket flag (300) and a shell (400): only 200 is
    signalled. *)
Lemma orphan_cleanup_signals_exactly_the_workers_witness :
  (Worker.ReadDir Sample.procfs
   = Some [Worker.mkDirEntry "100" true; Worker.mkDirEntry "200" true;
           Worker.mkDirEntry "300" true; Worker.mkDirEntry "400" true;
           Worker.mkDirEntry "self" true; Worker.mkDirEntry "uptime" false]
   /\ forall pid, Worker.FindProcess Sample.procfs pid = true)
  /\ Worker.CleanupOrphanProcesses Sample.script Sample.procfs = (1, [200])
  /\ In 200 (snd (Worker.CleanupOrphanProcesses Sample.script Sample.procfs))
  /\ ~ In 100 (snd (Worker.CleanupOrphanProcesses Sample.script Sample.procfs))
  /\ ~ ((exists cmdStr,
            Worker.enumerated Sample.procfs
              [Worker.mkDirEntry "100" true; Worker.mkDirEntry "200" true;
               Worker.mkDirEntry "300" true; Worker.mkDirEntry "400" true;
               Worker.mkDirEntry "self" true; Worker.mkDirEntry "uptime" false]
              300 cmdStr
            /\ Worker.matchesWorkerPattern Sample.script cmdStr = true)
        /\ 300 <> Worker.Getpid Sample.procfs).
Proof.
  split; [split; [reflexivity|intros pid; reflexivity]|].
  destruct (orphan_cleanup_signals_exactly_the_workers Sample.script Sample.procfs)
    as (_ & P2 & P3).
  split; [vm_compute; reflexivity|].
  split; [vm_compute; auto|].
  split; [exact P3|].
  intros H. apply (P2 _ eq_refl (fun _ => eq_refl) 300) in H.
  vm_compute in H. destruct H as [H|[]]. discriminate H.
Defined.

(** * Further properties of the handlers and of the manager *)

(** ** More on the tool handlers *)

Section HandlerPaths.

Import Errors Server.

Variable MarshalIndent : json -> string -> string -> string.
Variable compileRegex : string -> bool -> string + (string -> bool).
Variable matchModule : string -> string -> bool -> bool.

Local Abbreviation handleToolError := (Server.handleToolError MarshalIndent).
Local Abbreviation forward := (Server.forward MarshalIndent).
Local Abbreviation enumerate := (Server.enumerate MarshalIndent compileRegex matchModule).
Local Abbreviation dispatch := (Server.dispatch MarshalIndent compileRegex matchModule).
Local Abbreviation marshalJSON := (Server.marshalJSON MarshalIndent).
Local Abbreviation errorResult terr :=
  (Return {| IsError := true;
             Content := [TextContent (MarshalIndent (ToolError_json terr) "" "  ")] |}
     None None).

(** X1.  With arguments that pass the checks, a session id the registry
    does not know gives [session_not_found] for every tool: the error names
    the tool and the id, and the handler stops after the lookup: no touch,
    no worker lookup, no RPC, no change to the registry, the workers or the
    cache. *)
Theorem unknown_session_is_session_not_found :
  forall t args s,
    passes_checks t args ->
    registry s !! SessionID args = None ->
    fst (dispatch t args s) = errorResult (sessionNotFound (tool_op t) (SessionID args))
    /\ registry (snd (dispatch t args s)) = registry s
    /\ workers (snd (dispatch t args s)) = workers s
    /\ caches (snd (dispatch t args s)) = caches s
    /\ trace (snd (dispatch t args s))
       = (trace s ++ invocation_log t args
          ++ [EvRegistryGet (SessionID args);
              EvErrorLog ("[Error] " +:+ Error_string
                                           (sessionNotFound (tool_op t) (SessionID args)))])%list.
Proof.
  intros t args s Hv Hr.
  unfold passes_checks in Hv. unfold invocation_log, tool_logs, tool_op, Server.dispatch.
  destruct (handler_of t) as [h|k].
  - unfold Server.forward. rewrite Hv.
    destruct (logged_fields (logs h) (op h) (SessionID args) s) as (Er & Ew & Ec & _ & Et).
    cbn [emit registry]. rewrite Er, Hr.
    rewrite handleToolError_fst, handleToolError_snd.
    cbn [emit registry workers caches trace]. rewrite Er, Ew, Ec, Et.
    rewrite <- !app_assoc. repeat split.
  - unfold Server.enumerate. cbn [logToolInvocation emit registry]. rewrite Hr.
    rewrite handleToolError_fst, handleToolError_snd.
    cbn [logToolInvocation emit registry workers caches trace].
    rewrite <- !app_assoc. repeat split.
Qed.

(** X2.  With arguments that pass the checks and a known session for which
    the manager holds no worker, every tool answers [worker_unavailable]
    with status [temporary] and the manager's message as detail.  The
    session has been touched by then; no RPC is sent and the cache is not
    consulted. *)
Theorem session_without_worker_is_worker_unavailable :
  forall t args s sess,
    passes_checks t args ->
    registry s !! SessionID args = Some sess ->
    workers s !! ID sess = None ->
    fst (dispatch t args s)
    = errorResult
        {| Kind := "worker_unavailable"; Status := "temporary";
           Message := "worker process not available";
           Operation := tool_op t;
           Context := [("session_id", ID sess);
                       ("detail", "no worker for session " +:+ ID sess)] |}
    /\ workers (snd (dispatch t args s)) = workers s
    /\ caches (snd (dispatch t args s)) = caches s
    /\ trace (snd (dispatch t args s))
       = (trace s ++ invocation_log t args
          ++ [EvRegistryGet (SessionID args); EvTouch (ID sess); EvGetClient (ID sess);
              EvErrorLog ("[Error] [worker_unavailable] " +:+ tool_op t
                          +:+ ": worker process not available")])%list.
Proof.
  intros t args s sess Hv Hr Hw.
  unfold passes_checks in Hv. unfold invocation_log, tool_logs, tool_op, Server.dispatch.
  destruct (handler_of t) as [h|k].
  - unfold Server.forward. rewrite Hv.
    destruct (logged_fields (logs h) (op h) (SessionID args) s) as (Er & Ew & Ec & _ & Et).
    cbn [emit registry]. rewrite Er, Hr.
    unfold Server.GetClient. cbn [Touch emit set_registry workers]. rewrite Ew, Hw.
    rewrite handleToolError_fst, handleToolError_snd.
    cbn [Touch emit set_registry registry workers caches trace]. rewrite ?Ew, ?Ec, ?Et.
    rewrite <- !app_assoc. repeat split.
  - unfold Server.enumerate. cbn [logToolInvocation emit registry]. rewrite Hr.
    unfold Server.GetClient. cbn [Touch emit set_registry logToolInvocation workers].
    rewrite Hw.
    rewrite handleToolError_fst, handleToolError_snd.
    cbn [Touch logToolInvocation emit set_registry registry workers caches trace].
    rewrite <- !app_assoc. repeat split.
Qed.

Ltac shaped :=
  eexists; eexists; split; [reflexivity|]; split; [reflexivity|];
  unfold handler_error_shape; cbn; tauto.

(** The errors of the shared body carry its [op] and have one of the four
    shapes. *)
Lemma forward_error_shape h args s :
  (exists terr s',
      forward h args s = handleToolError terr s'
      /\ Operation terr = op h /\ handler_error_shape terr)
  \/ (exists text s', forward h args s = (textResult text, s')).
Proof.
  unfold Server.forward, Server.GetClient.
  repeat case_match; try (right; eauto; fail); left; shaped.
Qed.

Lemma enumerate_error_shape k args s :
  (exists terr s',
      enumerate k args s = handleToolError terr s'
      /\ Operation terr = enum_op k /\ handler_error_shape terr)
  \/ (exists text s', enumerate k args s = (textResult text, s'))
  \/ (exists reason s', enumerate k args s = (Panic reason, s')).
Proof.
  unfold Server.enumerate, Server.GetClient.
  repeat case_match; try (right; eauto; fail); left; shaped.
Qed.

(** X3.  Whatever the tool and the input, an error result carries the
    tool's own operation name and is one of [invalid_input],
    [session_not_found], [ida_operation_failed] (all permanent) and
    [worker_unavailable] (temporary); the kinds [internal] and
    [decompiler_unavailable] are never produced by these handlers, and
    [invalid_input] carries no context. *)
Theorem handler_errors_have_four_shapes :
  forall t args s,
    match fst (dispatch t args s) with
    | Return res _ _ =>
        IsError res = false
        \/ exists terr,
            res = {| IsError := true;
                     Content := [TextContent (marshalJSON (ToolError_json terr))] |}
            /\ Operation terr = tool_op t
            /\ handler_error_shape terr
            /\ Kind terr <> "internal" /\ Kind terr <> "decompiler_unavailable"
            /\ (Status terr = "temporary" <-> Kind terr = "worker_unavailable")
    | Panic _ => exists k, handler_of t = inr k
    end.
Proof.
  intros t args s. unfold Server.dispatch, tool_op.
  assert (Hk : forall terr, handler_error_shape terr ->
                 Kind terr <> "internal" /\ Kind terr <> "decompiler_unavailable"
                 /\ (Status terr = "temporary" <-> Kind terr = "worker_unavailable")).
  { intros terr [(-> & -> & _)|[(-> & ->)|[(-> & ->)|(-> & ->)]]];
      repeat split; intros; try discriminate; reflexivity. }
  destruct (handler_of t) as [h|k] eqn:E.
  - destruct (forward_error_shape h args s)
      as [(terr & s' & -> & Ho & Hs)|(text & s' & ->)]; simpl.
    + right. exists terr. split; [reflexivity|]. split; [exact Ho|].
      split; [exact Hs|]. apply Hk, Hs.
    + left. reflexivity.
  - destruct (enumerate_error_shape k args s)
      as [(terr & s' & -> & Ho & Hs)|[(text & s' & ->)|(reason & s' & ->)]]; simpl.
    + right. exists terr. split; [reflexivity|]. split; [exact Ho|].
      split; [exact Hs|]. apply Hk, Hs.
    + left. reflexivity.
    + exists k. reflexivity.
Qed.

(** The cache after the shared body: unchanged, unless the row invalidates
    and the reply reports success. *)
Lemma forward_caches h args s :
  caches (snd (forward h args s)) = caches s
  \/ (invalidates h = true
      /\ exists sess msg,
          registry s !! SessionID args = Some sess
          /\ GetSuccess msg = true
          /\ fst (forward h args s) = textResult (render_text MarshalIndent (render h) msg)
          /\ caches (snd (forward h args s)) = delete (ID sess) (caches s)).
Proof.
  destruct (logged_fields (logs h) (op h) (SessionID args) s) as (Er & Ew & Ec & _).
  destruct (first_failure (checks h) args) as [msg|] eqn:Hv.
  { left. rewrite (forward_invalid MarshalIndent h args s msg Hv), handleToolError_snd.
    exact Ec. }
  unfold Server.forward. rewrite Hv. cbn [emit registry]. rewrite Er.
  destruct (registry s !! SessionID args) as [sess|] eqn:Hr;
    [|left; rewrite handleToolError_snd; exact Ec].
  unfold Server.GetClient. cbn [Touch emit set_registry workers]. rewrite Ew.
  destruct (workers s !! ID sess) as [client|];
    [|left; rewrite handleToolError_snd; cbn [emit set_registry caches]; exact Ec].
  destruct (Analysis client (method h) (prepare h args)) as [err|msg];
    [left; rewrite handleToolError_snd; cbn [emit set_registry caches]; exact Ec|].
  destruct (negb (String.eqb (GetError msg) ""));
    [left; rewrite handleToolError_snd; cbn [emit set_registry caches]; exact Ec|].
  destruct (invalidates h) eqn:Hi, (GetSuccess msg) eqn:Hs; cbn [andb snd fst];
    try (left; cbn [emit set_registry caches]; exact Ec).
  right. split; [reflexivity|]. exists sess, msg.
  unfold deleteSessionCache. cbn [Touch emit set_caches set_registry caches]. rewrite Ec. auto.
Qed.

(** X4.  No forwarding handler other than [make_function] ever changes
    the cache, whatever the worker replies; [make_function] changes it only
    in a call that answers with the success flag set, and then deletes the
    cache of the looked-up session. *)
Theorem only_successful_make_function_touches_the_cache :
  (forall t h args s,
      handler_of t = inl h -> t <> make_function ->
      caches (snd (dispatch t args s)) = caches s)
  /\ (forall args s,
         caches (snd (dispatch make_function args s)) = caches s
         \/ exists sess,
             registry s !! SessionID args = Some sess
             /\ fst (dispatch make_function args s)
                = textResult (marshalJSON (JObj [("success", JBool true)]))
             /\ caches (snd (dispatch make_function args s))
                = caches (deleteSessionCache (ID sess) s)).
Proof.
  split.
  - intros t h args s E Hne. unfold Server.dispatch. rewrite E.
    destruct (forward_caches h args s) as [H|(Hi & _)]; [exact H|].
    destruct t; cbn in E; try discriminate E; try congruence;
      injection E as <-; discriminate Hi.
  - intros args s. unfold Server.dispatch. cbn [handler_of].
    destruct (forward_caches
                (mkHandler "make_function" true [] "MakeFunction" (fun a => a) true
                   SuccessFlag) args s)
      as [H|(_ & sess & msg & Hr & Hs & Hf & Hc)]; [left; exact H|].
    right. exists sess. split; [exact Hr|]. split; [|exact Hc].
    rewrite Hf. cbn [render render_text]. rewrite Hs. reflexivity.
Qed.

(** X5.  A reply without an error string is a success result, whatever its
    success flag says: the caller gets [IsError = false], and for the
    mutation tools the flag is only visible in the payload.  Exactly one RPC
    has been sent, with the tool's method. *)
Theorem reply_without_error_is_a_success_result :
  forall t h args s sess client msg,
    handler_of t = inl h ->
    first_failure (checks h) args = None ->
    registry s !! SessionID args = Some sess ->
    workers s !! ID sess = Some client ->
    Analysis client (method h) (prepare h args) = Response msg ->
    GetError msg = "" ->
    fst (dispatch t args s)
    = Return {| IsError := false;
                Content := [TextContent
                              match render h with
                              | RawText => GetText msg
                              | SuccessFlag =>
                                  marshalJSON (JObj [("success", JBool (GetSuccess msg))])
                              | Assembled => marshalJSON (Body msg)
                              end] |} None None
    /\ trace (snd (dispatch t args s))
       = (trace s ++ invocation_log t args
          ++ [EvRegistryGet (SessionID args); EvTouch (ID sess); EvGetClient (ID sess);
              EvRPC (ID sess) (method h) (prepare h args)]
          ++ if invalidates h && GetSuccess msg then [EvCacheDelete (ID sess)] else [])%list.
Proof.
  intros t h args s sess client msg E Hv Hr Hw Hrpc He.
  unfold invocation_log, tool_logs, tool_op, Server.dispatch. rewrite E.
  destruct (forward_reply MarshalIndent h args s sess client Hv Hr Hw) as (s1 & _ & Ht & ->).
  rewrite Hrpc, He. cbn [String.eqb negb fst snd].
  split; [destruct (render h); reflexivity|].
  destruct (invalidates h && GetSuccess msg); unfold deleteSessionCache;
    cbn [emit set_caches trace]; rewrite Ht, <- ?app_assoc, ?app_nil_r; reflexivity.
Qed.

(** X6.  [data_read_string] sends the worker a length that fits [uint32]:
    256 when the requested length is zero or negative, the requested length
    itself when it is between 1 and 2^32 - 1, and the requested length
    modulo 2^32 beyond that (so 2^32 is sent as 0).  The address is sent
    unchanged. *)
Theorem data_read_string_length :
  forall args s sess client,
    registry s !! SessionID args = Some sess ->
    workers s !! ID sess = Some client ->
    exists req,
      In (EvRPC (ID sess) "DataReadString" req)
         (trace (snd (dispatch data_read_string args s)))
      /\ Address req = Address args
      /\ 0 <= MaxLength req < 2 ^ 32
      /\ (MaxLength args <= 0 -> MaxLength req = 256)
      /\ (0 < MaxLength args < 2 ^ 32 -> MaxLength req = MaxLength args)
      /\ (2 ^ 32 <= MaxLength args -> MaxLength req = MaxLength args mod 2 ^ 32).
Proof.
  intros args s sess client Hr Hw.
  exists (readStringRequest args).
  unfold Server.dispatch. cbn [handler_of].
  destruct (forward_reply MarshalIndent
              (mkHandler "data_read_string" true [] "DataReadString" readStringRequest
                 false Assembled) args s sess client eq_refl Hr Hw) as (s1 & _ & Ht & ->).
  cbn [op logs method prepare invalidates] in *.
  split.
  - assert (Hin : In (EvRPC (ID sess) "DataReadString" (readStringRequest args)) (trace s1)).
    { rewrite Ht, !in_app_iff. right. right. cbn. auto. }
    destruct (Analysis client "DataReadString" (readStringRequest args)) as [e|msg];
      [|destruct (negb (String.eqb (GetError msg) ""))];
      rewrite ?handleToolError_snd; cbn [snd andb emit trace];
      rewrite ?in_app_iff; auto.
  - unfold readStringRequest. cbn [Address MaxLength].
    split; [reflexivity|]. split; [apply Z.mod_pos_bound; lia|].
    destruct (Z.leb_spec (MaxLength args) 0); repeat split; intros;
      try lia; try reflexivity.
    apply Z.mod_small. lia.
Qed.

(** X7.  [rename_lvar] and [set_lvar_type] test the name or type before
    the function address: a blank string is reported, as [new_name] or
    [lvar_type] required, even when the address is zero as well; the missing
    function address is reported only when the string is not blank. *)
Theorem lvar_checks_in_order :
  forall args s,
    (GoLib.TrimSpace (NewName args) = "" ->
     fst (dispatch rename_lvar args s)
     = errorResult (invalidInput "rename_lvar" "new_name is required"))
    /\ (GoLib.TrimSpace (NewName args) <> "" -> FunctionAddress args = 0 ->
        fst (dispatch rename_lvar args s)
        = errorResult (invalidInput "rename_lvar" "function_address is required"))
    /\ (GoLib.TrimSpace (LvarType args) = "" ->
        fst (dispatch set_lvar_type args s)
        = errorResult (invalidInput "set_lvar_type" "lvar_type is required"))
    /\ (GoLib.TrimSpace (LvarType args) <> "" -> FunctionAddress args = 0 ->
        fst (dispatch set_lvar_type args s)
        = errorResult (invalidInput "set_lvar_type" "function_address is required")).
Proof.
  intros args s. unfold Server.dispatch. cbn [handler_of].
  repeat split; intros;
    (erewrite forward_invalid; [reflexivity|]);
    cbn [checked checks first_failure]; unfold required, nonzero;
    repeat match goal with
           | H : GoLib.TrimSpace _ = "" |- _ => rewrite H
           | H : GoLib.TrimSpace _ <> "" |- _ => rewrite (eqb_empty_false _ H)
           | H : FunctionAddress _ = 0 |- _ => rewrite H
           end; reflexivity.
Qed.

(** X8.  The page of an enumeration is a window of the filtered list: with
    the normalised offset [o] and limit [l] not negative, the items are the
    [l] elements that follow the first [min o total], or as many as there
    are; the reported offset is [min o total], the count never exceeds the
    limit, and offset plus count never exceeds the total.  The handler does
    not panic. *)
Theorem enumeration_page_is_a_window :
  forall t k args s sess client data filtered o l,
    handler_of t = inr k ->
    registry s !! SessionID args = Some sess ->
    workers s !! ID sess = Some client ->
    available k (ID sess) client s data ->
    apply_filters compileRegex matchModule k args data = inr filtered ->
    normalizePagination (Offset args) (Limit args) = inr (o, l) ->
    0 <= o -> 0 <= l ->
    let total := Z.of_nat (length filtered) in
    let offset := Z.min o total in
    let page := take (Z.to_nat l) (drop (Z.to_nat offset) filtered) in
    fst (dispatch t args s)
    = textResult (marshalJSON (page_object k args (map EntryItem page) total offset l))
    /\ Z.of_nat (length page) <= l
    /\ offset + Z.of_nat (length page) <= total
    /\ (offset + l <= total -> Z.of_nat (length page) = l)
    /\ (total <= offset + l -> page = drop (Z.to_nat offset) filtered).
Proof.
  intros t k args s sess client data filtered o l E Hr Hw Ha Hf Hn Ho Hl total offset page.
  unfold Server.dispatch. rewrite E.
  split; [exact (enumerate_page MarshalIndent compileRegex matchModule k args s sess client
                   data filtered o l Hr Hw Ha Hf Hn Ho Hl)|].
  subst page. rewrite length_take, length_drop.
  repeat split; try lia.
  intros Hge. apply take_ge. rewrite length_drop. lia.
Qed.

(** X9.  The regex of an enumeration is compiled before the pagination
    arguments are looked at, and after the list has been loaded: a regex
    that does not compile is reported as [invalid_input] with the
    compiler's message, also when the limit is invalid as well. *)
Theorem invalid_regex_is_invalid_input :
  forall t k args s sess client data err,
    handler_of t = inr k ->
    registry s !! SessionID args = Some sess ->
    workers s !! ID sess = Some client ->
    available k (ID sess) client s data ->
    Regex args <> "" ->
    compileRegex (Regex args) (CaseSens args) = inl err ->
    fst (dispatch t args s) = errorResult (invalidInput (tool_op t) err).
Proof.
  intros t k args s sess client data err E Hr Hw Ha Hne Hc.
  unfold Server.dispatch, tool_op. rewrite E.
  destruct (enumerate_loaded MarshalIndent compileRegex matchModule k args s sess client
              Hr Hw) as (s1 & Hc1 & ->).
  assert (Ha' : available k (ID sess) client s1 data)
    by (unfold available, cache_lookup in *; rewrite Hc1; exact Ha).
  destruct (load_available k (ID sess) client s1 data Ha') as (hit & s2 & ->).
  unfold apply_filters. rewrite (eqb_empty_false _ Hne), Hc.
  apply handleToolError_fst.
Qed.

Lemma filter_is_sublist {A} (f : A -> bool) (l : list A) : sublist (List.filter f l) l.
Proof.
  induction l as [|x l IH]; cbn; [constructor|].
  destruct (f x); constructor; exact IH.
Qed.

(** X10.  The filters of an enumeration keep the order of the list and
    keep exactly the entries that pass: the module filter applies to
    [get_imports] only and only when a module is given, the regex only
    when one is given; with neither, the list is unchanged. *)
Theorem filters_keep_exactly_the_matches :
  forall k args data filtered,
    apply_filters compileRegex matchModule k args data = inr filtered ->
    sublist filtered data
    /\ (forall e,
           In e filtered
           <-> In e data
               /\ (k = Imports -> ModuleFilter args <> "" ->
                   matchModule (EntryModule e) (ModuleFilter args) (CaseSens args) = true)
               /\ (Regex args <> "" ->
                   exists matches,
                     compileRegex (Regex args) (CaseSens args) = inr matches
                     /\ matches (EntryName e) = true))
    /\ (Regex args = "" -> k <> Imports \/ ModuleFilter args = "" -> filtered = data).
Proof.
  intros k args data filtered. unfold apply_filters.
  set (byModule := List.filter
                     (fun imp => matchModule (EntryModule imp) (ModuleFilter args)
                                   (CaseSens args)) data).
  set (stage1 := match k with
                 | Imports => if String.eqb (ModuleFilter args) "" then data else byModule
                 | _ => data
                 end).
  assert (H1 : sublist stage1 data
               /\ (forall e, In e stage1
                             <-> In e data
                                 /\ (k = Imports -> ModuleFilter args <> "" ->
                                     matchModule (EntryModule e) (ModuleFilter args)
                                       (CaseSens args) = true))
               /\ (k <> Imports \/ ModuleFilter args = "" -> stage1 = data)).
  { subst stage1 byModule.
    destruct k; try (split; [reflexivity|]; split; [|reflexivity];
                     intros e; split; [intros H; split; [exact H|discriminate]|tauto]).
    destruct (String.eqb_spec (ModuleFilter args) "") as [Em|Em].
    - split; [reflexivity|]. split; [|reflexivity].
      intros e. split; [intros H; split; [exact H|congruence]|tauto].
    - split; [apply filter_is_sublist|]. split.
      + intros e. rewrite filter_In. split; [intros [H1 H2]; auto|].
        intros [H1 H2]. auto.
      + intros [H|H]; congruence. }
  destruct H1 as (S1 & M1 & I1).
  destruct (String.eqb_spec (Regex args) "") as [Er|Er].
  - intros H. injection H as <-. split; [exact S1|]. split.
    + intros e. rewrite M1. split; [intros [H1 H2]; repeat split; auto; congruence|tauto].
    + intros _ H. auto.
  - destruct (compileRegex (Regex args) (CaseSens args)) as [err|matches] eqn:Ec;
      [discriminate|].
    intros H. injection H as <-. split; [|split].
    + etransitivity; [apply filter_is_sublist|exact S1].
    + intros e. rewrite filter_In, M1. split.
      * intros [[H1 H2] H3]. repeat split; auto. intros _. exists matches. auto.
      * intros (H1 & H2 & H3). destruct (H3 Er) as (m' & Em' & Hm').
        injection Em' as <-. auto.
    + congruence.
Qed.
End HandlerPaths.

(** ** The further handler properties on concrete inputs *)

(** X1 on [set_name] for a session that was never opened. *)
Lemma unknown_session_is_session_not_found_witness :
  (Server.passes_checks Server.set_name Sample.strangerArgs
   /\ Server.registry Sample.warmServer !! Server.SessionID Sample.strangerArgs = None)
  /\ fst (Server.dispatch Sample.marshal Sample.exactRegex Sample.exactModule
            Server.set_name Sample.strangerArgs Sample.warmServer)
     = Server.Return
         {| Server.IsError := true;
            Server.Content :=
              [Server.TextContent
                 (Sample.marshal
                    (Errors.ToolError_json (Errors.sessionNotFound "set_name" "nosuch"))
                    "" "  ")] |}
         None None
  /\ Server.caches (snd (Server.dispatch Sample.marshal Sample.exactRegex Sample.exactModule
                           Server.set_name Sample.strangerArgs Sample.warmServer))
     = Server.caches Sample.warmServer.
Proof.
  split; [split; reflexivity|].
  destruct (unknown_session_is_session_not_found Sample.marshal Sample.exactRegex
              Sample.exactModule Server.set_name Sample.strangerArgs Sample.warmServer
              eq_refl eq_refl) as (H1 & _ & _ & H4 & _).
  split; [exact H1|exact H4].
Defined.

(** X2 on [get_bytes] for a registered session whose worker is gone. *)
Lemma session_without_worker_is_worker_unavailable_witness :
  (Server.passes_checks Server.get_bytes Sample.fullArgs
   /\ Server.registry Sample.widowedServer !! Server.SessionID Sample.fullArgs
      = Some Sample.session1
   /\ Server.workers Sample.widowedServer !! ID Sample.session1 = None)
  /\ fst (Server.dispatch Sample.marshal Sample.exactRegex Sample.exactModule
            Server.get_bytes Sample.fullArgs Sample.widowedServer)
     = Server.Return
         {| Server.IsError := true;
            Server.Content :=
              [Server.TextContent
                 (Sample.marshal
                    (Errors.ToolError_json
                       {| Errors.Kind := "worker_unavailable";
                          Errors.Status := "temporary";
                          Errors.Message := "worker process not available";
                          Errors.Operation := "get_bytes";
                          Errors.Context := [("session_id", "s1");
                                             ("detail", "no worker for session s1")] |})
                    "" "  ")] |}
         None None.
Proof.
  split; [repeat split|].
  exact (proj1 (session_without_worker_is_worker_unavailable Sample.marshal
                  Sample.exactRegex Sample.exactModule Server.get_bytes Sample.fullArgs
                  Sample.widowedServer Sample.session1 eq_refl eq_refl eq_refl)).
Defined.

(** X4 on [rename_global], which succeeds and leaves the cache as it was,
    and on a successful [make_function]. *)
Lemma only_successful_make_function_touches_the_cache_witness :
  ((exists h, Server.handler_of Server.rename_global = inl h)
   /\ Server.rename_global <> Server.make_function)
  /\ Server.caches (snd (Server.dispatch Sample.marshal Sample.exactRegex Sample.exactModule
                           Server.rename_global Sample.fullArgs Sample.warmServer))
     = {["s1" := Sample.filledCache]}
  /\ Server.caches (snd (Server.dispatch Sample.marshal Sample.exactRegex Sample.exactModule
                           Server.make_function Sample.fullArgs Sample.warmServer))
     <> Server.caches Sample.warmServer.
Proof.
  split; [split; [eexists; reflexivity|discriminate]|].
  destruct (only_successful_make_function_touches_the_cache Sample.marshal Sample.exactRegex
              Sample.exactModule) as [P1 P2].
  split.
  - exact (P1 Server.rename_global _ Sample.fullArgs Sample.warmServer eq_refl
              ltac:(discriminate)).
  - destruct (P2 Sample.fullArgs Sample.warmServer) as [H|(sess & Hr & _ & ->)].
    + intros _. vm_compute in H. discriminate H.
    + injection Hr as <-. vm_compute. discriminate.
Defined.

(** X5 on [set_name] with a worker that declines without an error string:
    the result is not an error, and its payload says success is false. *)
Lemma reply_without_error_is_a_success_result_witness :
  (Server.handler_of Server.set_name
   = inl (Server.plain "set_name" true "SetName" Server.SuccessFlag)
   /\ Server.first_failure
        (Server.checks (Server.plain "set_name" true "SetName" Server.SuccessFlag))
        Sample.fullArgs = None
   /\ Server.registry (Sample.serverWith Sample.decliningWorker ∅)
        !! Server.SessionID Sample.fullArgs = Some Sample.session1
   /\ Server.workers (Sample.serverWith Sample.decliningWorker ∅) !! ID Sample.session1
      = Some Sample.decliningWorker
   /\ Server.Analysis Sample.decliningWorker "SetName" Sample.fullArgs
      = Server.Response (Server.mkMsg "" false "" JNull))
  /\ fst (Server.dispatch Sample.marshal Sample.exactRegex Sample.exactModule
            Server.set_name Sample.fullArgs (Sample.serverWith Sample.decliningWorker ∅))
     = Server.Return
         {| Server.IsError := false;
            Server.Content :=
              [Server.TextContent
                 (Sample.marshal (JObj [("success", JBool false)]) "" "  ")] |}
         None None.
Proof.
  split; [repeat split|].
  exact (proj1 (reply_without_error_is_a_success_result Sample.marshal Sample.exactRegex
                  Sample.exactModule Server.set_name _ Sample.fullArgs
                  (Sample.serverWith Sample.decliningWorker ∅) Sample.session1
                  Sample.decliningWorker (Server.mkMsg "" false "" JNull)
                  eq_refl eq_refl eq_refl eq_refl eq_refl eq_refl)).
Defined.

(** X6 on a request that gives no length: the worker is asked for 256
    bytes. *)
Lemma data_read_string_length_witness :
  (Server.registry Sample.warmServer !! Server.SessionID Sample.fullArgs
   = Some Sample.session1
   /\ Server.workers Sample.warmServer !! ID Sample.session1 = Some Sample.obligingWorker
   /\ Server.MaxLength Sample.fullArgs <= 0)
  /\ exists req,
      In (Server.EvRPC "s1" "DataReadString" req)
         (Server.trace (snd (Server.dispatch Sample.marshal Sample.exactRegex
                               Sample.exactModule Server.data_read_string Sample.fullArgs
                               Sample.warmServer)))
      /\ Server.MaxLength req = 256.
Proof.
  assert (Hle : Server.MaxLength Sample.fullArgs <= 0) by (cbn; lia).
  split; [repeat split; exact Hle|].
  destruct (data_read_string_length Sample.marshal Sample.exactRegex Sample.exactModule
              Sample.fullArgs Sample.warmServer Sample.session1 Sample.obligingWorker
              eq_refl eq_refl) as (req & Hin & _ & _ & H0 & _).
  exists req. split; [exact Hin|exact (H0 Hle)].
Defined.

(** X7 on [rename_lvar] with neither a name nor a function address: the
    name is the one reported. *)
Lemma lvar_checks_in_order_witness :
  (GoLib.TrimSpace (Server.NewName Sample.noArgs) = ""
   /\ Server.FunctionAddress Sample.noArgs = 0)
  /\ fst (Server.dispatch Sample.marshal Sample.exactRegex Sample.exactModule
            Server.rename_lvar Sample.noArgs Sample.coldServer)
     = Server.Return
         {| Server.IsError := true;
            Server.Content :=
              [Server.TextContent
                 (Sample.marshal
                    (Errors.ToolError_json
                       (Errors.invalidInput "rename_lvar" "new_name is required"))
                    "" "  ")] |}
         None None.
Proof.
  split; [split; reflexivity|].
  exact (proj1 (lvar_checks_in_order Sample.marshal Sample.exactRegex Sample.exactModule
                  Sample.noArgs Sample.coldServer) eq_refl).
Defined.

(** X8 on [get_functions] with offset 1 and limit 5 over three cached
    functions: the page holds the last two. *)
Lemma enumeration_page_is_a_window_witness :
  (Server.handler_of Server.get_functions = inr Server.Functions
   /\ Server.registry Sample.warmServer
        !! Server.SessionID (Sample.withPage (Some 1) (Some 5) Sample.noArgs)
      = Some Sample.session1
   /\ Server.workers Sample.warmServer !! ID Sample.session1 = Some Sample.obligingWorker
   /\ Server.available Server.Functions (ID Sample.session1) Sample.obligingWorker
        Sample.warmServer Sample.entries
   /\ Server.apply_filters Sample.exactRegex Sample.exactModule Server.Functions
        (Sample.withPage (Some 1) (Some 5) Sample.noArgs) Sample.entries
      = inr Sample.entries
   /\ Server.normalizePagination (Some 1) (Some 5) = inr (1, 5))
  /\ fst (Server.dispatch Sample.marshal Sample.exactRegex Sample.exactModule
            Server.get_functions (Sample.withPage (Some 1) (Some 5) Sample.noArgs)
            Sample.warmServer)
     = Server.textResult
         (Sample.marshal
            (JObj [("functions", JArr [JStr "start"; JStr "exit"]);
                   ("total", JNum 3); ("offset", JNum 1); ("count", JNum 2);
                   ("limit", JNum 5); ("regex", JStr "")]) "" "  ").
Proof.
  assert (Ha : Server.available Server.Functions (ID Sample.session1) Sample.obligingWorker
                 Sample.warmServer Sample.entries) by (left; reflexivity).
  split; [repeat split; exact Ha|].
  exact (proj1 (enumeration_page_is_a_window Sample.marshal Sample.exactRegex
                  Sample.exactModule Server.get_functions Server.Functions
                  (Sample.withPage (Some 1) (Some 5) Sample.noArgs) Sample.warmServer
                  Sample.session1 Sample.obligingWorker Sample.entries Sample.entries 1 5
                  eq_refl eq_refl eq_refl Ha eq_refl eq_refl
                  ltac:(lia) ltac:(lia))).
Defined.

(** X9 on [get_strings] with a regex the compiler rejects and a limit of
    zero: the regex is the one reported. *)
Lemma invalid_regex_is_invalid_input_witness :
  (Server.handler_of Server.get_strings = inr Server.Strings
   /\ Server.registry Sample.warmServer !! Server.SessionID Sample.regexArgs
      = Some Sample.session1
   /\ Server.workers Sample.warmServer !! ID Sample.session1 = Some Sample.obligingWorker
   /\ Server.available Server.Strings (ID Sample.session1) Sample.obligingWorker
        Sample.warmServer Sample.entries
   /\ Server.Regex Sample.regexArgs <> ""
   /\ Sample.rejectingRegex (Server.Regex Sample.regexArgs) (Server.CaseSens Sample.regexArgs)
      = inl "error parsing regexp"
   /\ Server.Limit Sample.regexArgs = Some 0)
  /\ fst (Server.dispatch Sample.marshal Sample.rejectingRegex Sample.exactModule
            Server.get_strings Sample.regexArgs Sample.warmServer)
     = Server.Return
         {| Server.IsError := true;
            Server.Content :=
              [Server.TextContent
                 (Sample.marshal
                    (Errors.ToolError_json
                       (Errors.invalidInput "get_strings" "error parsing regexp"))
                    "" "  ")] |}
         None None.
Proof.
  assert (Ha : Server.available Server.Strings (ID Sample.session1) Sample.obligingWorker
                 Sample.warmServer Sample.entries) by (left; reflexivity).
  assert (Hne : Server.Regex Sample.regexArgs <> "") by discriminate.
  split; [repeat split; solve [exact Ha|exact Hne]|].
  exact (invalid_regex_is_invalid_input Sample.marshal Sample.rejectingRegex
           Sample.exactModule Server.get_strings Server.Strings Sample.regexArgs
           Sample.warmServer Sample.session1 Sample.obligingWorker Sample.entries
           "error parsing regexp" eq_refl eq_refl eq_refl Ha Hne eq_refl).
Defined.

(** X10 on an import listing restricted to module libc and name exit: one
    of the three entries is kept. *)
Lemma filters_keep_exactly_the_matches_witness :
  Server.apply_filters Sample.exactRegex Sample.exactModule Server.Imports
    Sample.importArgs Sample.entries
  = inr [Server.mkEntry "exit" "libc" (JStr "exit")]
  /\ sublist [Server.mkEntry "exit" "libc" (JStr "exit")] Sample.entries
  /\ ~ In (Server.mkEntry "main" "" (JStr "main"))
         [Server.mkEntry "exit" "libc" (JStr "exit")].
Proof.
  split; [reflexivity|].
  destruct (filters_keep_exactly_the_matches Sample.exactRegex Sample.exactModule
              Server.Imports Sample.importArgs Sample.entries
              [Server.mkEntry "exit" "libc" (JStr "exit")] eq_refl) as (H1 & H2 & _).
  split; [exact H1|].
  intros Hin. apply H2 in Hin as (_ & Hm & _).
  specialize (Hm eq_refl ltac:(discriminate)). discriminate Hm.
Defined.

(** ** More on the worker manager *)

Section ManagerPaths.

Import Worker.

#[local] Set Warnings "-clear-no-such-hyp".

Ltac unfold_world :=
  unfold cancel, Kill, Wait, closeSession;
  repeat (progress cbn [set_now set_nextPid set_procs set_files set_heap set_sessions
                          set_monitors emit now files procs heap sessions nextPid
                          monitors trace pythonScript fst snd
                          pstate exitError cancelled argv discardOutput
                          cancelledProcess killedProcess reapedProcess exitedProcess
                          waitError]
          || rewrite alter_insert_eq
          || rewrite lookup_insert_eq
          || rewrite insert_insert_eq).

(** The poll instants of the loop and its outcome. *)
Lemma waitForSocket_loop_first ready deadline t :
  (fst (waitForSocket_loop ready deadline t) = true ->
   exists n,
     0 <= n
     /\ snd (waitForSocket_loop ready deadline t) = t + 100 * n
     /\ t + 100 * n < deadline
     /\ ready (t + 100 * n) = true
     /\ forall k, 0 <= k < n -> ready (t + 100 * k) = false)
  /\ (fst (waitForSocket_loop ready deadline t) = false ->
      forall k, 0 <= k -> t + 100 * k < deadline -> ready (t + 100 * k) = false).
Proof.
  funelim (waitForSocket_loop ready deadline t).
  - destruct (ready t) eqn:E; cbn [fst snd].
    + split; [|discriminate]. intros _. exists 0.
      rewrite Z.mul_0_r, Z.add_0_r. repeat split; auto; lia.
    + destruct H as [Hs Hf]. unfold pollInterval in *. split.
      * intros Hok. destruct (Hs Hok) as (n & Hn & E1 & E2 & E3 & E4).
        exists (n + 1). replace (t + 100 * (n + 1)) with (t + 100 + 100 * n) by lia.
        repeat split; auto; try lia.
        intros k Hk. destruct (Z.eq_dec k 0) as [->|Hk0].
        -- rewrite Z.mul_0_r, Z.add_0_r. exact E.
        -- replace (t + 100 * k) with (t + 100 + 100 * (k - 1)) by lia.
           apply E4. lia.
      * intros Hno k Hk Hlt. destruct (Z.eq_dec k 0) as [->|Hk0].
        -- rewrite Z.mul_0_r, Z.add_0_r. exact E.
        -- replace (t + 100 * k) with (t + 100 + 100 * (k - 1)) by lia.
           apply Hf; [exact Hno|lia|lia].
  - cbn [fst snd]. split; [discriminate|]. intros _ k Hk Hlt. lia.
Qed.

Lemma waitForSocket_loop_iff ready deadline t :
  fst (waitForSocket_loop ready deadline t) = true
  <-> exists n, 0 <= n /\ t + 100 * n < deadline /\ ready (t + 100 * n) = true.
Proof.
  destruct (waitForSocket_loop_first ready deadline t) as [Hs Hf]. split.
  - intros H. destruct (Hs H) as (n & Hn & _ & Hlt & Hr & _). eauto.
  - intros (n & Hn & Hlt & Hr).
    destruct (fst (waitForSocket_loop ready deadline t)) eqn:E; [reflexivity|].
    rewrite (Hf eq_refl n Hn Hlt) in Hr. discriminate.
Qed.

(** X11.  [waitForSocket] probes at the start and then every 100 ms while
    the deadline has not passed.  It returns nil exactly when one of these
    probes succeeds, and then at the first such instant; otherwise it
    returns the timeout error naming the socket path. *)
Theorem waitForSocket_returns_at_first_ready_poll :
  forall env path timeout m,
    (fst (waitForSocket env path timeout m) = None
     <-> exists n,
          0 <= n /\ 100 * n < timeout /\ probe env (now m) (now m + 100 * n) = true)
    /\ (fst (waitForSocket env path timeout m) = None ->
        exists n,
          0 <= n
          /\ now (snd (waitForSocket env path timeout m)) = now m + 100 * n
          /\ probe env (now m) (now m + 100 * n) = true
          /\ forall k, 0 <= k < n -> probe env (now m) (now m + 100 * k) = false)
    /\ (fst (waitForSocket env path timeout m) <> None ->
        fst (waitForSocket env path timeout m)
        = Some ("timeout waiting for socket " +:+ path)).
Proof.
  intros env path timeout m.
  pose proof (waitForSocket_loop_iff (probe env (now m)) (now m + timeout) (now m)) as Hiff.
  pose proof (waitForSocket_loop_first (probe env (now m)) (now m + timeout) (now m))
    as [Hfirst _].
  unfold waitForSocket.
  destruct (waitForSocket_loop (probe env (now m)) (now m + timeout) (now m)) as [ok t1].
  cbn [fst snd] in *.
  assert (Hnow : forall b, now (if b : bool
                                then set_files ({[path]} ∪ files (set_now t1 m)) (set_now t1 m)
                                else set_now t1 m) = t1) by (intros []; reflexivity).
  destruct ok; cbn [fst snd].
  - split; [|split].
    + split; [intros _|reflexivity].
      destruct (proj1 Hiff eq_refl) as (n & Hn & Hlt & Hr). exists n.
      repeat split; auto; lia.
    + intros _. destruct (Hfirst eq_refl) as (n & Hn & E1 & _ & E3 & E4).
      exists n. rewrite Hnow. auto.
    + congruence.
  - split; [|split].
    + split; [discriminate|]. intros (n & Hn & Hlt & Hr).
      assert (false = true) by (apply Hiff; exists n; repeat split; auto; lia).
      discriminate.
    + discriminate.
    + reflexivity.
Qed.

(** [Start] returns nil exactly when nothing fails before the polling loop
    and the loop finds the socket ready. *)
Lemma Start_nil_iff env l binPath m s0 :
  heap m !! l = Some s0 ->
  fst (Start env l binPath m) = Nil
  <-> removeError env = None /\ startError env = None
      /\ fst (waitForSocket_loop (probe env (now m)) (now m + readinessTimeout) (now m))
         = true.
Proof.
  intros Hh. unfold Start. rewrite Hh. cbn [emit heap].
  destruct (removeError env) as [e|]; [split; [discriminate|intros (H & _); discriminate]|].
  destruct (startError env) as [e|];
    [split; [discriminate|intros (_ & H & _); discriminate]|].
  unfold waitForSocket. cbn [set_nextPid set_procs set_files set_heap emit now files].
  destruct (waitForSocket_loop (probe env (now m)) (now m + readinessTimeout) (now m))
    as [ok t1].
  cbn [fst].
  destruct ok, (statOk env (now m) t1); unfold_world.
  1,2: split; [intros _; auto|reflexivity].
  all: split; [discriminate|intros (_ & _ & H); discriminate].
Qed.

(** X12.  [Start] returns nil exactly when the old socket could be removed,
    the process could be started and one of the probes made every 100 ms
    during the first 10 s succeeds.  When removing the old socket fails
    nothing else happens; when starting the process fails the old socket is
    gone but no process exists, no handle is stored and the session keeps
    its worker pid. *)
Theorem start_returns_nil_iff_ready_in_time :
  forall env l binPath m s0,
    heap m !! l = Some s0 ->
    (fst (Start env l binPath m) = Nil
     <-> removeError env = None /\ startError env = None
         /\ exists n, 0 <= n < 100 /\ probe env (now m) (now m + 100 * n) = true)
    /\ (forall e,
           removeError env = Some e ->
           Start env l binPath m
           = (Error ("failed to remove old socket: " +:+ e),
              emit (EvRemoveAll (SocketPath s0)) m))
    /\ (forall e,
           removeError env = None -> startError env = Some e ->
           fst (Start env l binPath m) = Error ("failed to start worker: " +:+ e)
           /\ procs (snd (Start env l binPath m)) = procs m
           /\ nextPid (snd (Start env l binPath m)) = nextPid m
           /\ sessions (snd (Start env l binPath m)) = sessions m
           /\ heap (snd (Start env l binPath m)) = heap m
           /\ files (snd (Start env l binPath m)) = files m ∖ {[SocketPath s0]}).
Proof.
  intros env l binPath m s0 Hh.
  split; [|split].
  - rewrite (Start_nil_iff env l binPath m s0 Hh), waitForSocket_loop_iff.
    unfold readinessTimeout.
    split; intros (H1 & H2 & n & H3); (split; [exact H1|]); (split; [exact H2|]);
      exists n; repeat split; try tauto; lia.
  - intros e He. unfold Start. rewrite Hh. cbn [emit heap]. rewrite He. reflexivity.
  - intros e Hr Hs. unfold Start. rewrite Hh. cbn [emit heap]. rewrite Hr, Hs.
    repeat split.
Qed.

(** X13.  After a [Start] that returns nil, [GetClient] for the session's
    id returns the new handle; its process is running with the worker
    command line and with its output discarded exactly in test mode, the
    socket file exists, the call took less than 10 s, and one more monitor
    goroutine is waiting for that process. *)
Theorem started_worker_is_registered :
  forall env l binPath m s0,
    heap m !! l = Some s0 ->
    fst (Start env l binPath m) = Nil ->
    exists w,
      GetClient (ID s0) (snd (Start env l binPath m)) = inr w
      /\ cmdProcess w = Some (nextPid m)
      /\ session w = l
      /\ procs (snd (Start env l binPath m)) !! nextPid m
         = Some (mkProcess (workerArgs (pythonScript m) s0 binPath) (testMode env)
                   Running false None)
      /\ SocketPath s0 ∈ files (snd (Start env l binPath m))
      /\ now m <= now (snd (Start env l binPath m)) < now m + 10000
      /\ monitors (snd (Start env l binPath m)) = (monitors m ++ [(ID s0, w)])%list.
Proof.
  intros env l binPath m s0 Hh Hnil.
  apply (Start_nil_iff env l binPath m s0 Hh) in Hnil as (Hr & Hs & Hok).
  destruct (Start_ready env l binPath m s0 Hh Hr Hs Hok)
    as (_ & _ & E3 & E4 & E5 & _ & E7 & E8).
  set (m' := snd (Start env l binPath m)) in *. clearbody m'.
  exists (mkWorker (Some (SocketPath s0)) (Some (SocketPath s0)) (Some (SocketPath s0))
            (Some (nextPid m)) (nextPid m) l binPath).
  unfold GetClient. rewrite E4, lookup_insert_eq, E3, lookup_insert_eq.
  repeat split; [apply E8|apply E7|apply E7|exact E5].
Qed.

(** The processes, handles and session objects a [Start] leaves alone. *)
Lemma Start_frame env l binPath m :
  (forall q, q <> nextPid m ->
             procs (snd (Start env l binPath m)) !! q = procs m !! q)
  /\ (forall l', l' <> l -> heap (snd (Start env l binPath m)) !! l' = heap m !! l')
  /\ (forall sid, (forall s0, heap m !! l = Some s0 -> sid <> ID s0) ->
                  sessions (snd (Start env l binPath m)) !! sid = sessions m !! sid)
  /\ (forall path, (forall s0, heap m !! l = Some s0 -> path <> SocketPath s0) ->
                   path ∈ files (snd (Start env l binPath m)) <-> path ∈ files m).
Proof.
  unfold Start.
  destruct (heap m !! l) as [s0|] eqn:Hh; [|cbn; auto].
  cbn [emit heap].
  destruct (removeError env); [cbn; auto|].
  destruct (startError env).
  { cbn [snd set_files emit procs heap sessions files]. repeat split; auto;
      specialize (H s0 eq_refl); set_solver. }
  unfold waitForSocket.
  cbn [set_nextPid set_procs set_files set_heap emit now files].
  destruct (waitForSocket_loop _ _ _) as [ok t1].
  destruct ok, (statOk env (now m) t1); unfold_world;
    (split; [intros q Hq; rewrite lookup_insert_ne by congruence; reflexivity|]);
    (split; [intros l' Hl'; rewrite lookup_insert_ne by congruence; reflexivity|]);
    (split; [intros sid Hsid; specialize (Hsid s0 eq_refl);
             rewrite ?lookup_insert_ne by congruence; reflexivity|]);
    intros path Hp; specialize (Hp s0 eq_refl); set_solver.
Qed.

(** X14.  A [Start] for one session leaves the rest alone, whether it
    succeeds or fails: every process other than the one it spawns keeps
    its state, the handles stored under other session ids and the other
    session objects are unchanged, and no socket file other than the
    session's own is created or removed. *)
Theorem start_leaves_other_sessions_alone :
  forall env l binPath m s0,
    heap m !! l = Some s0 ->
    (forall q, q <> nextPid m ->
               procs (snd (Start env l binPath m)) !! q = procs m !! q)
    /\ (forall l', l' <> l -> heap (snd (Start env l binPath m)) !! l' = heap m !! l')
    /\ (forall sid, sid <> ID s0 ->
                    sessions (snd (Start env l binPath m)) !! sid = sessions m !! sid)
    /\ (forall path, path <> SocketPath s0 ->
                     path ∈ files (snd (Start env l binPath m)) <-> path ∈ files m).
Proof.
  intros env l binPath m s0 Hh.
  destruct (Start_frame env l binPath m) as (F1 & F2 & F3 & F4).
  split; [exact F1|]. split; [exact F2|]. split.
  - intros sid Hne. apply F3. intros s1 H1. congruence.
  - intros path Hne. apply F4. intros s1 H1. congruence.
Qed.

(** The handle and the monitor goroutine a [Start] adds. *)
Lemma Start_handles env l binPath m :
  (sessions (snd (Start env l binPath m)) = sessions m
   /\ monitors (snd (Start env l binPath m)) = monitors m)
  \/ (exists sid w,
         sessions (snd (Start env l binPath m)) = <[sid := w]> (sessions m)
         /\ monitors (snd (Start env l binPath m)) = (monitors m ++ [(sid, w)])%list).
Proof.
  unfold Start.
  destruct (heap m !! l) as [s0|]; [|left; auto].
  cbn [emit heap].
  destruct (removeError env); [left; auto|].
  destruct (startError env); [left; auto|].
  unfold waitForSocket. cbn [set_nextPid set_procs set_files set_heap emit now files].
  destruct (waitForSocket_loop _ _ _) as [ok t1].
  destruct ok, (statOk env (now m) t1); unfold_world; eauto.
Qed.

Lemma monitorWorker_monitors sid w m : monitors (monitorWorker sid w m) = monitors m.
Proof.
  unfold monitorWorker, Wait. cbn [emit procs].
  destruct (procs m !! default 0 (cmdProcess w)) as [p|];
    [destruct (pstate p), (cancelled p), (exitError p)|];
    cbn [emit set_procs procs waitError];
    repeat match goal with
           | |- context [match ?x with _ => _ end] => destruct x
           end;
    reflexivity.
Qed.

Lemma In_without {A} (x : A) (l : list A) (i : nat) :
  In x l -> l !! i <> Some x -> In x (take i l ++ drop (S i) l).
Proof.
  intros Hin Hne. destruct (l !! i) as [y|] eqn:Hi.
  - rewrite <- (take_drop_middle l i y Hi) in Hin.
    rewrite in_app_iff in Hin |- *. cbn [In] in Hin.
    destruct Hin as [H|[H|H]]; auto. congruence.
  - apply lookup_ge_None in Hi. rewrite take_ge, drop_ge by lia.
    rewrite app_nil_r. exact Hin.
Qed.

(** In every reachable state the monitor goroutine of a registered handle
    has not returned from its [cmd.Wait]: a handle is stored together with
    the launch of its monitor, and a monitor that resumes removes the
    handle of its session. *)
Lemma reachable_monitored script m :
  reachable script m ->
  forall sid w, sessions m !! sid = Some w -> In (sid, w) (monitors m).
Proof.
  induction 1 as [|a m m' Hreach IH Hrun]; intros sid w Hw.
  - cbn in Hw. rewrite lookup_empty in Hw. discriminate.
  - destruct a as [l id path|env l binPath|env sid0|pid status|i]; cbn [run] in Hrun.
    + unfold newSession in Hrun. destruct (heap m !! l); [discriminate|].
      injection Hrun as <-. apply IH. exact Hw.
    + injection Hrun as <-.
      destruct (Start_handles env l binPath m) as [[Es Em]|(sid1 & w1 & Es & Em)];
        rewrite Es in Hw; rewrite Em; [auto|].
      rewrite in_app_iff. destruct (decide (sid1 = sid)) as [->|Ne].
      * rewrite lookup_insert_eq in Hw. injection Hw as ->. right. left. reflexivity.
      * rewrite lookup_insert_ne in Hw by exact Ne. left. auto.
    + injection Hrun as <-.
      destruct (sessions m !! sid0) as [w0|] eqn:Hw0.
      * destruct (reachable_invariant script m Hreach) as (_ & _ & Hs).
        destruct (Hs sid0 w0 Hw0) as (pid & sock & sess & H1 & H2 & H3 & H4 & _).
        apply elem_of_dom in H4 as [p H4].
        destruct (Stop_bound env sid0 m w0 pid sock p Hw0 H1 H2 H3 H4)
          as (_ & _ & Es & _ & _ & _ & Em & _).
        rewrite Em. apply IH.
        destruct Es as [[_ Es]|[_ Es]]; rewrite Es in Hw; [|exact Hw].
        apply lookup_delete_Some in Hw as [_ Hw]. exact Hw.
      * unfold Stop in Hw |- *. rewrite Hw0 in Hw |- *. apply IH. exact Hw.
    + unfold processExits in Hrun. destruct (procs m !! pid) as [p|]; [|discriminate].
      destruct (pstate p); try discriminate. injection Hrun as <-. apply IH. exact Hw.
    + unfold monitorResumes in Hrun.
      destruct (monitors m !! i) as [[sid0 w0]|] eqn:Hi; [|discriminate].
      destruct (isRunning _ m) eqn:Hrunning; [discriminate|]. injection Hrun as <-.
      rewrite monitorWorker_monitors. cbn [set_monitors monitors].
      destruct (monitorWorker_frame sid0 w0
                  (set_monitors (take i (monitors m) ++ drop (S i) (monitors m)) m))
        as (_ & _ & _ & Es).
      rewrite (Es Hrunning) in Hw. cbn [set_monitors sessions] in Hw.
      apply lookup_delete_Some in Hw as [Hne Hw].
      apply In_without; [auto|]. rewrite Hi. congruence.
Qed.

Lemma bound_is_monitored script m sid w pid :
  reachable script m ->
  sessions m !! sid = Some w ->
  cmdProcess w = Some pid ->
  monitored pid m = true.
Proof.
  intros Hreach Hw Hp. unfold monitored. apply existsb_exists.
  exists (sid, w). split; [exact (reachable_monitored script m Hreach sid w Hw)|].
  cbn [snd]. apply bool_decide_eq_true. exact Hp.
Qed.

(** X15.  In every reachable state, [Stop] for a session without a handle
    returns the no-worker error and does nothing.  For a session with a
    handle it neither panics nor reports a failed kill: it returns nil, or
    it blocks for ever in [cmd.Wait], and it blocks exactly when its [Wait]
    loses the one [ctxResult] message to the monitor goroutine.  When it
    returns, the session has no handle, so [GetClient] and a second [Stop]
    both report that there is no worker; when it blocks, the handle is
    still registered. *)
Theorem stop_returns_nil_or_blocks :
  forall script m env env' sid,
    reachable script m ->
    (bound sid m ->
     (fst (Stop env sid m) = Blocked <-> contention env = Contended WaitBlocks)
     /\ (fst (Stop env sid m) <> Blocked ->
         fst (Stop env sid m) = Nil
         /\ GetClient sid (snd (Stop env sid m)) = inl ("no worker for session " +:+ sid)
         /\ Stop env' sid (snd (Stop env sid m))
            = (Error ("no worker for session " +:+ sid), snd (Stop env sid m)))
     /\ (fst (Stop env sid m) = Blocked ->
         sessions (snd (Stop env sid m)) = sessions m))
    /\ (~ bound sid m ->
        Stop env sid m = (Error ("no worker for session " +:+ sid), m)).
Proof.
  intros script m env env' sid Hreach. split.
  - intros [w Hw].
    destruct (reachable_invariant script m Hreach) as (_ & _ & Hs).
    destruct (Hs sid w Hw) as (pid & sock & sess & H1 & H2 & H3 & H4 & _).
    apply elem_of_dom in H4 as [p H4].
    pose proof (bound_is_monitored script m sid w pid Hreach Hw H1) as Hmon.
    destruct (Stop_bound env sid m w pid sock p Hw H1 H2 H3 H4)
      as (_ & _ & Es & Eb & _).
    set (r := Stop env sid m) in *. clearbody r.
    split; [rewrite Eb; tauto|].
    destruct Es as [[E1 Es]|[E1 Es]].
    + split; [|rewrite E1; discriminate].
      intros _. split; [exact E1|].
      assert (Hnone : sessions (snd r) !! sid = None) by (rewrite Es; apply lookup_delete_eq).
      unfold GetClient, Stop. rewrite Hnone. auto.
    + split; [congruence|]. intros _. exact Es.
  - intros Hnb. unfold Stop.
    destruct (sessions m !! sid) as [w|] eqn:Hw; [|reflexivity].
    exfalso. apply Hnb. exists w. exact Hw.
Qed.

(** X16.  In every reachable state a [Stop] acts on its own session only:
    the handles of other sessions, every other process, the session
    objects, the socket files and the waiting monitor goroutines are
    unchanged, and every signal and RPC it issues is addressed to the
    session's own worker. *)
Theorem stop_leaves_other_sessions_alone :
  forall script m env sid w pid,
    reachable script m ->
    sessions m !! sid = Some w ->
    cmdProcess w = Some pid ->
    (forall sid', sid' <> sid ->
                  sessions (snd (Stop env sid m)) !! sid' = sessions m !! sid')
    /\ (forall q, q <> pid -> procs (snd (Stop env sid m)) !! q = procs m !! q)
    /\ heap (snd (Stop env sid m)) = heap m
    /\ files (snd (Stop env sid m)) = files m
    /\ monitors (snd (Stop env sid m)) = monitors m
    /\ (forall e, In e (trace (snd (Stop env sid m))) ->
                  In e (trace m)
                  \/ e = EvCloseSession sid 5000 true
                  \/ e = EvCancel pid \/ e = EvKill pid \/ e = EvWait pid
                  \/ exists line, e = EvLog line pid).
Proof.
  intros script m env sid w pid Hreach Hw Hp.
  destruct (reachable_invariant script m Hreach) as (_ & _ & Hs).
  destruct (Hs sid w Hw) as (pid' & sock & sess & H1 & H2 & H3 & H4 & _).
  rewrite Hp in H1. injection H1 as <-.
  apply elem_of_dom in H4 as [p H4].
  destruct (Stop_bound env sid m w pid sock p Hw Hp H2 H3 H4)
    as ((tail & Et & Htail & _) & (p' & Epr & _) & Es & _ & Eh & _ & Em & Ef & _).
  split.
  { intros sid' Hne. destruct Es as [[_ Es]|[_ Es]]; rewrite Es; [|reflexivity].
    apply lookup_delete_ne. congruence. }
  split; [intros q Hq; rewrite Epr; apply lookup_insert_ne; congruence|].
  split; [exact Eh|]. split; [exact Ef|]. split; [exact Em|].
  intros e Hin. rewrite Et, !in_app_iff in Hin. cbn [In] in Hin.
  unfold closeTimeout in Hin.
  destruct Hin as [Hin|[Hin|Hin]]; [auto| |].
  - destruct Hin as [H|[H|[H|[H|[H|F]]]]]; [subst e; eauto 10..|destruct F].
  - destruct Htail as [Htail|Htail]; subst tail; cbn [In] in Hin; [destruct Hin|].
    destruct Hin as [H|F]; [subst e; eauto 10|destruct F].
Qed.

(** X17.  After a [Stop] for a session with a handle, whether the [Stop]
    returned or is blocked in [cmd.Wait], the monitor goroutine of that
    worker, once its own [Wait] returns, leaves the process table, the
    session objects and the socket files as they are, and the session has
    no handle afterwards.  After a [Stop] that returned, its delete finds
    nothing; after a [Stop] that blocked, it is the monitor goroutine that
    removes the handle. *)
Theorem monitor_after_stop_removes_the_handle :
  forall script m env sid w,
    reachable script m ->
    sessions m !! sid = Some w ->
    sessions (monitorWorker sid w (snd (Stop env sid m))) !! sid = None
    /\ (fst (Stop env sid m) = Nil ->
        sessions (monitorWorker sid w (snd (Stop env sid m)))
        = sessions (snd (Stop env sid m)))
    /\ (fst (Stop env sid m) = Blocked ->
        sessions (snd (Stop env sid m)) !! sid = Some w)
    /\ procs (monitorWorker sid w (snd (Stop env sid m)))
       = procs (snd (Stop env sid m))
    /\ heap (monitorWorker sid w (snd (Stop env sid m)))
       = heap (snd (Stop env sid m))
    /\ files (monitorWorker sid w (snd (Stop env sid m)))
       = files (snd (Stop env sid m)).
Proof.
  intros script m env sid w Hreach Hw.
  destruct (reachable_invariant script m Hreach) as (_ & _ & Hs).
  destruct (Hs sid w Hw) as (pid & sock & sess & H1 & H2 & H3 & H4 & _).
  apply elem_of_dom in H4 as [p H4].
  destruct (Stop_bound env sid m w pid sock p Hw H1 H2 H3 H4)
    as (_ & (p' & Epr & E3 & E4) & Es & _).
  set (r := Stop env sid m) in *. clearbody r.
  assert (Hl : procs (snd r) !! pid = Some p') by (rewrite Epr; apply lookup_insert_eq).
  unfold monitorWorker, Wait. rewrite H1.
  change (default 0 (Some pid)) with pid. cbn [emit procs]. rewrite Hl, E3.
  destruct (procs _ !! ctx w) as [q|]; [destruct (cancelled q)|];
    cbn [emit set_sessions sessions procs heap files];
    (split; [apply lookup_delete_eq|]);
    (split; [intros En; destruct Es as [[_ Es]|[Eb _]]; [|congruence];
             rewrite Es; apply delete_delete_eq|]);
    (split; [intros Eb; destruct Es as [[En _]|[_ Es]]; [congruence|];
             rewrite Es; exact Hw|]);
    auto.
Qed.

(** X22.  In every reachable state, [Stop] for a session that has a worker
    sends the graceful [CloseSession] with a 5-second deadline, then
    cancels the command context, then kills the process, then calls
    [cmd.Wait], in this order and whatever the state of the process was;
    the process ends up reaped with its context done.  The only effect that
    can follow is the log line for a wait error, and none follows when
    [Stop] blocks in the [Wait]. *)
Theorem stop_effects_in_order :
  forall script m env sid,
    reachable script m ->
    bound sid m ->
    exists w pid tail p',
      sessions m !! sid = Some w
      /\ cmdProcess w = Some pid
      /\ trace (snd (Stop env sid m))
         = (trace m ++ [EvLog "[Worker] Stopping session" pid;
                        EvCloseSession sid 5000 true;
                        EvCancel pid; EvKill pid; EvWait pid] ++ tail)%list
      /\ (tail = [] \/ tail = [EvLog "[Worker] Process wait error" pid])
      /\ (fst (Stop env sid m) = Blocked -> tail = [])
      /\ procs (snd (Stop env sid m)) !! pid = Some p'
      /\ pstate p' = Reaped
      /\ cancelled p' = true.
Proof.
  intros script m env sid Hreach [w Hw].
  destruct (reachable_invariant script m Hreach) as (_ & _ & Hs).
  destruct (Hs sid w Hw) as (pid & sock & sess & H1 & H2 & H3 & H4 & _).
  apply elem_of_dom in H4 as [p H4].
  destruct (Stop_bound env sid m w pid sock p Hw H1 H2 H3 H4)
    as ((tail & Et & Htail & Hb) & (p' & Epr & E3 & E4) & _).
  exists w, pid, tail, p'. rewrite Epr, lookup_insert_eq. auto 10.
Qed.

(** [monitorWorker] touches no process but its own. *)
Lemma monitorWorker_procs sid w m q :
  q <> default 0 (cmdProcess w) ->
  procs (monitorWorker sid w m) !! q = procs m !! q.
Proof.
  intros Hq. unfold monitorWorker, Wait. cbn [emit procs].
  destruct (procs m !! default 0 (cmdProcess w)) as [p|] eqn:Hp;
    [destruct (pstate p), (cancelled p), (exitError p)|];
    cbn [emit set_procs procs waitError];
    repeat match goal with
           | |- context [match ?x with _ => _ end] => destruct x
           end;
    cbn [emit set_sessions set_procs procs];
    rewrite ?lookup_insert_ne by congruence; reflexivity.
Qed.

(** X18.  The monitor goroutine deletes the handle stored under its session
    id without looking at it.  When the session has been started again in
    the meantime, the monitor of the old, terminated process removes the
    handle of the new worker: that worker keeps running, but [GetClient]
    no longer finds it. *)
Theorem stale_monitor_unbinds_newer_worker :
  forall m i sid w w' pid pid',
    monitors m !! i = Some (sid, w) ->
    cmdProcess w = Some pid ->
    isRunning pid m = false ->
    sessions m !! sid = Some w' ->
    cmdProcess w' = Some pid' ->
    isRunning pid' m = true ->
    exists m',
      monitorResumes i m = Some m'
      /\ GetClient sid m' = inl ("no worker for session " +:+ sid)
      /\ isRunning pid' m' = true.
Proof.
  intros m i sid w w' pid pid' Hm Hp Hdead Hw' Hp' Hrun.
  assert (Hne : pid' <> pid) by (intros ->; congruence).
  unfold monitorResumes. rewrite Hm, Hp.
  change (default 0 (Some pid)) with pid. rewrite Hdead.
  eexists. split; [reflexivity|].
  set (m0 := set_monitors _ m).
  destruct (monitorWorker_frame sid w m0) as (_ & _ & _ & Es).
  assert (Hdead0 : isRunning (default 0 (cmdProcess w)) m0 = false)
    by (rewrite Hp; exact Hdead).
  split.
  - unfold GetClient. rewrite (Es Hdead0), lookup_delete_eq. reflexivity.
  - unfold isRunning in *. rewrite monitorWorker_procs by (rewrite Hp; exact Hne).
    subst m0. cbn [set_monitors procs].
    exact Hrun.
Qed.

(** ** More on orphan cleanup *)

Lemma prefix_app (p r : string) : String.prefix p (p +:+ r) = true.
Proof.
  induction p as [|c p IH]; simpl; [destruct r; reflexivity|].
  destruct (ascii_dec c c); [exact IH|congruence].
Qed.

Lemma Contains_cons c s sub : GoLib.Contains s sub = true -> GoLib.Contains (String c s) sub = true.
Proof.
  intros H. cbn [GoLib.Contains]. destruct (GoLib.HasPrefix (String c s) sub); auto.
Qed.

Lemma Contains_app_r p s sub :
  GoLib.Contains s sub = true -> GoLib.Contains (p +:+ s) sub = true.
Proof. intros H. induction p as [|c p IH]; cbn [append]; [exact H|apply Contains_cons, IH]. Qed.

Lemma Contains_app_l sub r : GoLib.Contains (sub +:+ r) sub = true.
Proof.
  destruct (sub +:+ r) eqn:E; cbn [GoLib.Contains]; unfold GoLib.HasPrefix;
    rewrite <- E, prefix_app; reflexivity.
Qed.

(** Every argument of a process occurs in its command line. *)
Lemma Contains_cmdline args a : In a args -> GoLib.Contains (cmdline args) a = true.
Proof.
  induction args as [|x args IH]; [intros []|].
  intros [->|Hin]; cbn [cmdline fold_right].
  - apply Contains_app_l.
  - apply Contains_app_r, Contains_cons, IH, Hin.
Qed.

(** X19.  The command line [Start] gives a worker matches the orphan
    pattern of a manager configured with the same script: when such a
    process is listed in /proc with a readable command line, is not the
    gateway itself and can be found, [CleanupOrphanProcesses] sends it
    SIGTERM. *)
Theorem started_workers_are_recognised_as_orphans :
  forall script sess binPath os entries entry pid,
    ReadDir os = Some entries ->
    In entry entries ->
    IsDir entry = true ->
    GoLib.Atoi (EntryName entry) = Some pid ->
    ReadCmdline os (EntryName entry) = Some (cmdline (workerArgs script sess binPath)) ->
    pid <> Getpid os ->
    FindProcess os pid = true ->
    matchesWorkerPattern script (cmdline (workerArgs script sess binPath)) = true
    /\ In pid (snd (CleanupOrphanProcesses script os)).
Proof.
  intros script sess binPath os entries entry pid Hd Hin Hdir Ha Hc Hne Hf.
  assert (Hm : matchesWorkerPattern script (cmdline (workerArgs script sess binPath)) = true).
  { unfold matchesWorkerPattern, hasWorkerMarker, hasSocketFlag.
    rewrite (Contains_cmdline _ script), (Contains_cmdline _ "--socket");
      [rewrite orb_true_r; reflexivity | | ]; unfold workerArgs; cbn [In]; auto. }
  split; [exact Hm|].
  unfold CleanupOrphanProcesses. rewrite Hd. apply cleanup_fold_signalled.
  right. repeat split; auto. eexists. split; [|exact Hm].
  exists entry. auto.
Qed.

(** The count kept by the loop is the number of delivered signals. *)
Lemma cleanup_fold_count script os entries acc :
  fst acc = Z.of_nat (length (List.filter (SignalTERM os) (snd acc))) ->
  fst (fold_left (cleanupEntry script os) entries acc)
  = Z.of_nat (length (List.filter (SignalTERM os)
                        (snd (fold_left (cleanupEntry script os) entries acc)))).
Proof.
  revert acc. induction entries as [|entry entries IH]; intros acc Hacc; [exact Hacc|].
  cbn [fold_left]. apply IH. unfold cleanupEntry.
  repeat case_match; try exact Hacc; cbn [fst snd];
    rewrite List.filter_app, length_app; cbn [List.filter];
    match goal with H : SignalTERM _ _ = _ |- _ => rewrite H end;
    cbn [length]; lia.
Qed.

(** X20.  The number [CleanupOrphanProcesses] returns is the number of
    SIGTERMs that were delivered: a process whose signal fails is not
    counted, so the count lies between zero and the number of processes
    signalled. *)
Theorem orphan_cleanup_counts_delivered_signals :
  forall script os,
    fst (CleanupOrphanProcesses script os)
    = Z.of_nat (length (List.filter (SignalTERM os)
                          (snd (CleanupOrphanProcesses script os))))
    /\ 0 <= fst (CleanupOrphanProcesses script os)
       <= Z.of_nat (length (snd (CleanupOrphanProcesses script os))).
Proof.
  intros script os.
  assert (H : fst (CleanupOrphanProcesses script os)
              = Z.of_nat (length (List.filter (SignalTERM os)
                                    (snd (CleanupOrphanProcesses script os))))).
  { unfold CleanupOrphanProcesses. destruct (ReadDir os); [|reflexivity].
    apply cleanup_fold_count. reflexivity. }
  split; [exact H|]. rewrite H.
  pose proof (List.filter_length_le (SignalTERM os) (snd (CleanupOrphanProcesses script os))).
  lia.
Qed.

(** The files left and the count kept by the socket loop. *)
Lemma removeSocket_fold os found acc :
  (forall x, x ∈ snd (fold_left (removeSocket os) found acc)
             <-> x ∈ snd acc /\ ~ (In x found /\ RemoveOk os x = true))
  /\ fst (fold_left (removeSocket os) found acc)
     = fst acc + Z.of_nat (length (List.filter (RemoveOk os) found)).
Proof.
  revert acc. induction found as [|sock found IH]; intros acc; cbn [fold_left].
  - split; [intros x; cbn; tauto|cbn; lia].
  - destruct (IH (removeSocket os acc sock)) as [IH1 IH2]. split.
    + intros x. rewrite IH1. unfold removeSocket. cbn [In List.filter].
      destruct (RemoveOk os sock) eqn:E; cbn [snd].
      * rewrite elem_of_difference, elem_of_singleton. split.
        -- intros [[H1 H2] H3]. split; [exact H1|]. intros [[->|H4] H5]; tauto.
        -- intros [H1 H2]. split; [split; [exact H1|]|].
           ++ intros ->. apply H2. auto.
           ++ intros [H3 H4]. apply H2. auto.
      * split.
        -- intros [H1 H2]. split; [exact H1|]. intros [[->|H4] H5]; [congruence|tauto].
        -- intros [H1 H2]. split; [exact H1|]. intros [H3 H4]. apply H2. auto.
    + rewrite IH2. unfold removeSocket. cbn [List.filter].
      destruct (RemoveOk os sock); cbn [fst length]; lia.
Qed.

(** X21.  [CleanupOrphanSockets] returns the number of successful removals
    among the paths the glob found.  Afterwards a socket file is present
    exactly when it was present before and was not a path that the glob
    found and that could be removed; when the glob fails, nothing is
    removed and the count is zero. *)
Theorem orphan_socket_cleanup_removes_what_it_counts :
  forall os fs,
    (Glob os = None -> CleanupOrphanSockets os fs = (0, fs))
    /\ (forall found,
           Glob os = Some found ->
           fst (CleanupOrphanSockets os fs)
           = Z.of_nat (length (List.filter (RemoveOk os) found))
           /\ forall x,
               x ∈ snd (CleanupOrphanSockets os fs)
               <-> x ∈ fs /\ ~ (In x found /\ RemoveOk os x = true)).
Proof.
  intros os fs. unfold CleanupOrphanSockets. split.
  - intros ->. reflexivity.
  - intros found ->. destruct (removeSocket_fold os found (0, fs)) as [H1 H2].
    split; [rewrite H2; cbn; lia|exact H1].
Qed.
End ManagerPaths.

(** ** The further manager properties on concrete inputs *)

Lemma manager2_reachable : Worker.reachable Sample.script Sample.manager2.
Proof.
  apply (Worker.reachable_step Sample.script
           (Worker.NewSession 1%nat "s2" "/tmp/ida-worker-s2.sock") Sample.manager1).
  - apply manager1_reachable.
  - vm_compute. reflexivity.
Qed.

Lemma managerRestarted_reachable : Worker.reachable Sample.script Sample.managerRestarted.
Proof.
  apply (Worker.reachable_step Sample.script
           (Worker.CallStart Sample.promptEnv 0%nat "/bin/ls")
           (snd (Worker.Stop Sample.quietStop "s1" Sample.manager1))).
  - apply (Worker.reachable_step Sample.script (Worker.CallStop Sample.quietStop "s1")
             Sample.manager1).
    + apply manager1_reachable.
    + reflexivity.
  - reflexivity.
Qed.

(** X11 with a worker that listens after 300 ms: the fourth probe is the
    first to succeed, and [waitForSocket] returns nil at that instant. *)
Lemma waitForSocket_returns_at_first_ready_poll_witness :
  Worker.probe Sample.promptEnv (Worker.now Sample.manager0)
    (Worker.now Sample.manager0 + 100 * 3) = true
  /\ fst (Worker.waitForSocket Sample.promptEnv "/tmp/ida-worker-s1.sock" 10000
            Sample.manager0) = None
  /\ Worker.now (snd (Worker.waitForSocket Sample.promptEnv "/tmp/ida-worker-s1.sock" 10000
                        Sample.manager0)) = 300.
Proof.
  split; [reflexivity|].
  destruct (waitForSocket_returns_at_first_ready_poll Sample.promptEnv
              "/tmp/ida-worker-s1.sock" 10000 Sample.manager0) as (P1 & _ & _).
  split; [|reflexivity].
  apply (proj2 P1). exists 3. repeat split; try lia.
Defined.

(** X12 on the first [Start] of the sample session. *)
Lemma start_returns_nil_iff_ready_in_time_witness :
  (Worker.heap Sample.manager0 !! 0%nat
   = Some (mkSession "s1" "/tmp/ida-worker-s1.sock" 0 0)
   /\ Worker.removeError Sample.promptEnv = None
   /\ Worker.startError Sample.promptEnv = None
   /\ Worker.probe Sample.promptEnv (Worker.now Sample.manager0)
        (Worker.now Sample.manager0 + 100 * 3) = true)
  /\ fst (Worker.Start Sample.promptEnv 0%nat "/bin/ls" Sample.manager0) = Worker.Nil.
Proof.
  split; [repeat split|].
  apply (proj2 (proj1 (start_returns_nil_iff_ready_in_time Sample.promptEnv 0%nat "/bin/ls"
                         Sample.manager0 _ eq_refl))).
  split; [reflexivity|]. split; [reflexivity|]. exists 3. split; [lia|reflexivity].
Defined.

(** X13 on the same call: the handle of process 1 is registered. *)
Lemma started_worker_is_registered_witness :
  (Worker.heap Sample.manager0 !! 0%nat
   = Some (mkSession "s1" "/tmp/ida-worker-s1.sock" 0 0)
   /\ fst (Worker.Start Sample.promptEnv 0%nat "/bin/ls" Sample.manager0) = Worker.Nil)
  /\ exists w,
      Worker.GetClient "s1" Sample.manager1 = inr w
      /\ Worker.cmdProcess w = Some 1
      /\ "/tmp/ida-worker-s1.sock" ∈ Worker.files Sample.manager1.
Proof.
  split; [split; reflexivity|].
  destruct (started_worker_is_registered Sample.promptEnv 0%nat "/bin/ls" Sample.manager0
              _ eq_refl eq_refl) as (w & H1 & H2 & _ & _ & H5 & _).
  exists w. split; [exact H1|]. split; [exact H2|exact H5].
Defined.

(** X14 on a failing [Start] for the second session: the worker of the
    first session is untouched. *)
Lemma start_leaves_other_sessions_alone_witness :
  (Worker.heap Sample.manager2 !! 1%nat
   = Some (mkSession "s2" "/tmp/ida-worker-s2.sock" 0 300)
   /\ "s1" <> "s2" /\ 1 <> Worker.nextPid Sample.manager2)
  /\ Worker.sessions (snd (Worker.Start Sample.silentEnv 1%nat "/bin/cat" Sample.manager2))
       !! "s1"
     = Worker.sessions Sample.manager2 !! "s1"
  /\ Worker.procs (snd (Worker.Start Sample.silentEnv 1%nat "/bin/cat" Sample.manager2)) !! 1
     = Worker.procs Sample.manager2 !! 1.
Proof.
  assert (Hs : "s1" <> "s2") by discriminate.
  assert (Hp : 1 <> Worker.nextPid Sample.manager2) by discriminate.
  split; [repeat split; solve [exact Hs|exact Hp]|].
  destruct (start_leaves_other_sessions_alone Sample.silentEnv 1%nat "/bin/cat"
              Sample.manager2 _ eq_refl) as (P1 & _ & P3 & _).
  split; [exact (P3 "s1" Hs)|exact (P1 1 Hp)].
Defined.

(** X15 on the sample session: a [Stop] whose [Wait] runs alone returns
    nil and a second [Stop] finds no worker; a [Stop] whose [Wait] loses
    the [ctxResult] message blocks, with the handle still registered. *)
Lemma stop_returns_nil_or_blocks_witness :
  (Worker.reachable Sample.script Sample.manager1 /\ Worker.bound "s1" Sample.manager1)
  /\ (fst (Worker.Stop Sample.quietStop "s1" Sample.manager1) = Worker.Nil
      /\ fst (Worker.Stop Sample.quietStop "s1"
                (snd (Worker.Stop Sample.quietStop "s1" Sample.manager1)))
         = Worker.Error "no worker for session s1")
  /\ (fst (Worker.Stop Sample.starvedStop "s1" Sample.manager1) = Worker.Blocked
      /\ Worker.sessions (snd (Worker.Stop Sample.starvedStop "s1" Sample.manager1))
         = Worker.sessions Sample.manager1).
Proof.
  assert (Hb : Worker.bound "s1" Sample.manager1) by (eexists; exact manager1_handle).
  split; [split; [exact manager1_reachable|exact Hb]|].
  split.
  - destruct (proj1 (stop_returns_nil_or_blocks Sample.script Sample.manager1
                       Sample.quietStop Sample.quietStop "s1" manager1_reachable) Hb)
      as (Hiff & Hret & _).
    assert (Hnb : fst (Worker.Stop Sample.quietStop "s1" Sample.manager1) <> Worker.Blocked)
      by (intros H; apply Hiff in H; discriminate H).
    destruct (Hret Hnb) as (H1 & _ & H3).
    split; [exact H1|]. rewrite H3. reflexivity.
  - destruct (proj1 (stop_returns_nil_or_blocks Sample.script Sample.manager1
                       Sample.starvedStop Sample.quietStop "s1" manager1_reachable) Hb)
      as (Hiff & _ & Hblk).
    assert (Hbl : fst (Worker.Stop Sample.starvedStop "s1" Sample.manager1) = Worker.Blocked)
      by (apply Hiff; reflexivity).
    split; [exact Hbl|exact (Hblk Hbl)].
Defined.

(** X16 on [manager2]: stopping the first session leaves the second
    session's object and the socket files alone. *)
Lemma stop_leaves_other_sessions_alone_witness :
  (Worker.reachable Sample.script Sample.manager2
   /\ (exists w, Worker.sessions Sample.manager2 !! "s1" = Some w
                 /\ Worker.cmdProcess w = Some 1))
  /\ Worker.heap (snd (Worker.Stop Sample.politeStop "s1" Sample.manager2))
     = Worker.heap Sample.manager2
  /\ Worker.files (snd (Worker.Stop Sample.politeStop "s1" Sample.manager2))
     = Worker.files Sample.manager2
  /\ ~ In (Worker.EvKill 2)
         (Worker.trace (snd (Worker.Stop Sample.politeStop "s1" Sample.manager2))).
Proof.
  split; [split; [exact manager2_reachable|eexists; split; reflexivity]|].
  destruct (stop_leaves_other_sessions_alone Sample.script Sample.manager2
              Sample.politeStop "s1" _ 1 manager2_reachable eq_refl eq_refl)
    as (_ & _ & H3 & H4 & _ & H6).
  split; [exact H3|]. split; [exact H4|].
  intros Hin. apply H6 in Hin.
  destruct Hin as [Hin|[Hin|[Hin|[Hin|[Hin|[line Hin]]]]]]; try discriminate Hin.
  vm_compute in Hin. intuition discriminate.
Defined.

(** X17 on the sample session after a [Stop] that blocked: the monitor
    goroutine removes the handle that [Stop] left registered. *)
Lemma monitor_after_stop_removes_the_handle_witness :
  (Worker.reachable Sample.script Sample.manager1
   /\ is_Some (Worker.sessions Sample.manager1 !! "s1")
   /\ fst (Worker.Stop Sample.starvedStop "s1" Sample.manager1) = Worker.Blocked)
  /\ forall w,
      Worker.sessions Sample.manager1 !! "s1" = Some w ->
      Worker.sessions Sample.managerStuck !! "s1" = Some w
      /\ Worker.sessions (Worker.monitorWorker "s1" w Sample.managerStuck) !! "s1" = None.
Proof.
  assert (Hbl : fst (Worker.Stop Sample.starvedStop "s1" Sample.manager1) = Worker.Blocked)
    by (vm_compute; reflexivity).
  split; [split; [exact manager1_reachable|split; [eexists; exact manager1_handle|exact Hbl]]|].
  intros w Hw.
  destruct (monitor_after_stop_removes_the_handle Sample.script Sample.manager1
              Sample.starvedStop "s1" w manager1_reachable Hw) as (H1 & _ & H3 & _).
  split; [exact (H3 Hbl)|exact H1].
Defined.

(** X22 on the sample session with a worker that exits on the graceful
    close. *)
Lemma stop_effects_in_order_witness :
  (Worker.reachable Sample.script Sample.manager1 /\ Worker.bound "s1" Sample.manager1)
  /\ exists w pid tail p',
      Worker.sessions Sample.manager1 !! "s1" = Some w
      /\ Worker.cmdProcess w = Some pid
      /\ Worker.trace (snd (Worker.Stop Sample.politeStop "s1" Sample.manager1))
         = (Worker.trace Sample.manager1
            ++ [Worker.EvLog "[Worker] Stopping session" pid;
                Worker.EvCloseSession "s1" 5000 true;
                Worker.EvCancel pid; Worker.EvKill pid; Worker.EvWait pid] ++ tail)%list
      /\ (tail = [] \/ tail = [Worker.EvLog "[Worker] Process wait error" pid])
      /\ Worker.procs (snd (Worker.Stop Sample.politeStop "s1" Sample.manager1)) !! pid
         = Some p'
      /\ Worker.pstate p' = Worker.Reaped.
Proof.
  assert (Hb : Worker.bound "s1" Sample.manager1) by (eexists; exact manager1_handle).
  split; [split; [exact manager1_reachable|exact Hb]|].
  destruct (stop_effects_in_order Sample.script Sample.manager1 Sample.politeStop "s1"
              manager1_reachable Hb) as (w & pid & tail & p' & H1 & H2 & H3 & H4 & _ & H6 & H7 & _).
  exists w, pid, tail, p'. auto 10.
Defined.

(** X18 on the restarted session: worker 1 was stopped, worker 2 runs, and
    the monitor of worker 1 resumes late. *)
Lemma stale_monitor_unbinds_newer_worker_witness :
  (Worker.reachable Sample.script Sample.managerRestarted
   /\ Worker.monitors Sample.managerRestarted !! 0%nat
      = Some ("s1", Worker.mkWorker (Some "/tmp/ida-worker-s1.sock")
                      (Some "/tmp/ida-worker-s1.sock") (Some "/tmp/ida-worker-s1.sock")
                      (Some 1) 1 0%nat "/bin/ls")
   /\ Worker.isRunning 1 Sample.managerRestarted = false
   /\ Worker.sessions Sample.managerRestarted !! "s1"
      = Some (Worker.mkWorker (Some "/tmp/ida-worker-s1.sock")
                (Some "/tmp/ida-worker-s1.sock") (Some "/tmp/ida-worker-s1.sock")
                (Some 2) 2 0%nat "/bin/ls")
   /\ Worker.isRunning 2 Sample.managerRestarted = true)
  /\ exists m',
      Worker.monitorResumes 0 Sample.managerRestarted = Some m'
      /\ Worker.GetClient "s1" m' = inl "no worker for session s1"
      /\ Worker.isRunning 2 m' = true.
Proof.
  assert (H1 : Worker.monitors Sample.managerRestarted !! 0%nat
               = Some ("s1", Worker.mkWorker (Some "/tmp/ida-worker-s1.sock")
                               (Some "/tmp/ida-worker-s1.sock")
                               (Some "/tmp/ida-worker-s1.sock") (Some 1) 1 0%nat "/bin/ls"))
    by (vm_compute; reflexivity).
  assert (H2 : Worker.isRunning 1 Sample.managerRestarted = false)
    by (vm_compute; reflexivity).
  assert (H3 : Worker.sessions Sample.managerRestarted !! "s1"
               = Some (Worker.mkWorker (Some "/tmp/ida-worker-s1.sock")
                         (Some "/tmp/ida-worker-s1.sock") (Some "/tmp/ida-worker-s1.sock")
                         (Some 2) 2 0%nat "/bin/ls"))
    by (vm_compute; reflexivity).
  assert (H4 : Worker.isRunning 2 Sample.managerRestarted = true)
    by (vm_compute; reflexivity).
  split; [split; [exact managerRestarted_reachable|auto]|].
  exact (stale_monitor_unbinds_newer_worker Sample.managerRestarted 0%nat "s1" _ _ 1 2
           H1 eq_refl H2 H3 eq_refl H4).
Defined.

(** X19 on the process table of the sample: process 200 runs the command
    line [Start] builds for session a, and it is signalled. *)
Lemma started_workers_are_recognised_as_orphans_witness :
  (In (Worker.mkDirEntry "200" true)
      (default [] (Worker.ReadDir Sample.procfs))
   /\ GoLib.Atoi "200" = Some 200
   /\ Worker.ReadCmdline Sample.procfs "200"
      = Some (Worker.cmdline
                (Worker.workerArgs Sample.script
                   (mkSession "a" "/tmp/ida-worker-a.sock" 0 0) "/bin/ls"))
   /\ 200 <> Worker.Getpid Sample.procfs
   /\ Worker.FindProcess Sample.procfs 200 = true)
  /\ In 200 (snd (Worker.CleanupOrphanProcesses Sample.script Sample.procfs)).
Proof.
  assert (Hin : In (Worker.mkDirEntry "200" true)
                  (default [] (Worker.ReadDir Sample.procfs))) by (right; left; reflexivity).
  assert (Hne : 200 <> Worker.Getpid Sample.procfs) by discriminate.
  split; [repeat split; solve [exact Hin|exact Hne]|].
  exact (proj2 (started_workers_are_recognised_as_orphans Sample.script
                  (mkSession "a" "/tmp/ida-worker-a.sock" 0 0) "/bin/ls" Sample.procfs
                  _ (Worker.mkDirEntry "200" true) 200
                  eq_refl Hin eq_refl eq_refl eq_refl Hne eq_refl)).
Defined.

(** X21 on two leftover sockets of which the second cannot be removed:
    one removal is counted, the first socket is gone, the second and the
    unrelated file remain. *)
Lemma orphan_socket_cleanup_removes_what_it_counts_witness :
  Worker.Glob Sample.socketfs
  = Some ["/tmp/ida-worker-a.sock"; "/tmp/ida-worker-b.sock"]
  /\ fst (Worker.CleanupOrphanSockets Sample.socketfs Sample.tmpFiles) = 1
  /\ ~ ("/tmp/ida-worker-a.sock"
        ∈ snd (Worker.CleanupOrphanSockets Sample.socketfs Sample.tmpFiles))
  /\ "/tmp/notes.txt" ∈ snd (Worker.CleanupOrphanSockets Sample.socketfs Sample.tmpFiles).
Proof.
  split; [reflexivity|].
  destruct (proj2 (orphan_socket_cleanup_removes_what_it_counts Sample.socketfs
                     Sample.tmpFiles) _ eq_refl) as (H1 & H2).
  split; [exact H1|]. split.
  - intros Hin. apply H2 in Hin as [_ Hn]. apply Hn. split; [left|]; reflexivity.
  - apply H2. split; [unfold Sample.tmpFiles; set_solver|].
    intros [[H|[H|[]]] _]; discriminate H.
Defined.
